(** * LMTP command engine (lmtp/commands.c): shallow embedding and properties

    The C handlers [cmd_lhlo], [cmd_starttls], [cmd_mail], [cmd_rcpt],
    [cmd_data], [cmd_xclient], the proxy routing helpers and the DATA
    payload sink are transcribed as functions over an explicit [client]
    record.  Library routines that live outside commands.c are collected
    in the record [library]; answers of external services (passdb, storage,
    anvil, TLS, the file system) are collected in the record [world], one
    per handled command.  Logging ([i_error], [i_info]) and the process
    title ([client_state_set]) are not modelled. *)

From Stdlib Require Import ZArith Lia Ascii String List.
From Stdlib.Strings Require Import Byte.
From stdpp Require Import base strings pretty list gmap.

Local Open Scope string_scope.
Local Open Scope list_scope.
Local Open Scope Z_scope.

(** ** C-level helpers *)

Definition UINT_MAX : Z := 2 ^ 32 - 1.

(** unsigned int arithmetic wraps modulo 2^32 *)
Definition uint (z : Z) : Z := z mod 2 ^ 32.

Definition ascii_tolower (c : ascii) : ascii :=
  let n := nat_of_ascii c in
  if ((65 <=? n)%nat && (n <=? 90)%nat)%bool then ascii_of_nat (n + 32) else c.

(** [strncasecmp_eq s p] is [strncasecmp(s, p, strlen(p)) == 0] *)
Fixpoint strncasecmp_eq (s p : string) : bool :=
  match p with
  | EmptyString => true
  | String b p' =>
      match s with
      | EmptyString => false
      | String a s' =>
          (Ascii.eqb (ascii_tolower a) (ascii_tolower b) && strncasecmp_eq s' p')%bool
      end
  end.

(** pointer arithmetic [s + n] on a string known to have at least [n] bytes *)
Fixpoint str_skip (n : nat) (s : string) : string :=
  match n, s with
  | S n', String _ s' => str_skip n' s'
  | _, _ => s
  end.

(** [strchr(s, '=')]: the text before and after the first '=' *)
Fixpoint strchr_eq (s : string) : option (string * string) :=
  match s with
  | EmptyString => None
  | String c s' =>
      if Ascii.eqb c "="%char then Some (EmptyString, s')
      else match strchr_eq s' with
           | Some (k, v) => Some (String c k, v)
           | None => None
           end
  end.

(** [array_count]: number of elements of a dynamic array *)
Definition array_count {A} (l : list A) : Z := Z.of_nat (length l).

(** ** Data *)

(** struct ip_addr; [family = 0] is the unset address *)
Record ip_addr := { family : Z; ip_bits : Z }.

Definition AF_INET6 : Z := 10.
Definition ip_unset : ip_addr := {| family := 0; ip_bits := 0 |}.

(** Modelled from the spec: [net_ip_compare] (lib/net.c) decides whether two
    addresses are equal, as in "resolves to this server's own (local_ip,
    local_port)". *)
Definition net_ip_compare (a b : ip_addr) : bool :=
  ((family a =? family b) && (ip_bits a =? ip_bits b))%bool.

Record smtp_address := { localpart : string; domain : string }.

Record smtp_params_mail := { mail_body : string; mail_size : Z }.

Record smtp_params_rcpt := { orcpt_addr : option smtp_address; rcpt_notify : string }.

Inductive smtp_param_parse_error :=
| SMTP_PARAM_PARSE_ERROR_BAD_SYNTAX
| SMTP_PARAM_PARSE_ERROR_NOT_SUPPORTED.

Inductive smtp_protocol := SMTP_PROTOCOL_SMTP | SMTP_PROTOCOL_LMTP.

Inductive smtp_address_parse_flag :=
| SMTP_ADDRESS_PARSE_FLAG_ALLOW_EMPTY
| SMTP_ADDRESS_PARSE_FLAG_ALLOW_LOCALPART.

Inductive lmtp_hdr_delivery_address :=
| LMTP_HDR_DELIVERY_ADDRESS_NONE
| LMTP_HDR_DELIVERY_ADDRESS_FINAL
| LMTP_HDR_DELIVERY_ADDRESS_ORIGINAL.

(** what commands.c reads from a [mail_storage_service_user] *)
Record service_user := {
  su_username : string;
  parsed_lmtp_hdr_delivery_address : lmtp_hdr_delivery_address }.

Record lmtp_proxy_rcpt_settings := {
  set_protocol : smtp_protocol;
  set_host : option string;
  set_hostip : ip_addr;
  set_port : Z;
  set_timeout_msecs : Z;
  set_params : smtp_params_rcpt }.

Record lmtp_proxy_settings := {
  ps_my_hostname : string;
  ps_session_id : string;
  ps_source_ip : ip_addr;
  ps_source_port : Z;
  ps_proxy_ttl : Z }.

(** Modelled from the spec: the outbound proxy session (lmtp-proxy.c), with
    the interface "init(settings) -> session; mail_from, add_rcpt". *)
Record lmtp_proxy := {
  proxy_set : lmtp_proxy_settings;
  proxy_mail_from : option smtp_address;
  proxy_mail_params : option smtp_params_mail;
  proxy_rcpt_to : list (smtp_address * lmtp_proxy_rcpt_settings) }.

Record mail_recipient := {
  rcpt_session_id : string;
  rcpt_address : smtp_address;
  rcpt_detail : string;
  rcpt_params : smtp_params_rcpt;
  rcpt_service_user : service_user }.

(** file output stream: descriptor, name given by [o_stream_set_name] and
    the bytes sent to the descriptor so far *)
Record ostream := { os_fd : Z; os_name : string; os_sent : list byte }.

Record client_state := {
  session_id : string;
  mail_from : option smtp_address;
  mail_params : option smtp_params_mail;
  rcpt_to : list mail_recipient;
  added_headers : option string;
  mail_from_timeval : Z;
  data_end_timeval : Z;
  mail_data : option (list byte);
  mail_data_fd : Z;
  mail_data_output : option ostream }.

Record lmtp_settings := {
  lmtp_proxy_enabled : bool;
  lmtp_user_concurrency_limit : Z;
  login_greeting : string }.

Record client := {
  lhlo : string;
  ssl_iostream : option string;
  trusted : bool;
  ssl_enabled : bool;
  proxy_ttl : Z;
  proxy_timeout_secs : Z;
  remote_ip : ip_addr;
  remote_port : Z;
  local_ip : ip_addr;
  local_port : Z;
  my_domain : string;
  recipient_delimiter : string;
  temp_prefix : string;
  lmtp_set : lmtp_settings;
  state : client_state;
  proxy : option lmtp_proxy;
  dot_input : bool;
  output : list string;
  destroyed : bool }.

(** *** Field updates *)

Definition with_state (c : client) (s : client_state) : client :=
  {| lhlo := lhlo c; ssl_iostream := ssl_iostream c; trusted := trusted c;
     ssl_enabled := ssl_enabled c; proxy_ttl := proxy_ttl c;
     proxy_timeout_secs := proxy_timeout_secs c; remote_ip := remote_ip c;
     remote_port := remote_port c; local_ip := local_ip c;
     local_port := local_port c; my_domain := my_domain c;
     recipient_delimiter := recipient_delimiter c; temp_prefix := temp_prefix c;
     lmtp_set := lmtp_set c; state := s; proxy := proxy c;
     dot_input := dot_input c; output := output c; destroyed := destroyed c |}.

Definition with_proxy (c : client) (p : option lmtp_proxy) : client :=
  {| lhlo := lhlo c; ssl_iostream := ssl_iostream c; trusted := trusted c;
     ssl_enabled := ssl_enabled c; proxy_ttl := proxy_ttl c;
     proxy_timeout_secs := proxy_timeout_secs c; remote_ip := remote_ip c;
     remote_port := remote_port c; local_ip := local_ip c;
     local_port := local_port c; my_domain := my_domain c;
     recipient_delimiter := recipient_delimiter c; temp_prefix := temp_prefix c;
     lmtp_set := lmtp_set c; state := state c; proxy := p;
     dot_input := dot_input c; output := output c; destroyed := destroyed c |}.

Definition with_output (c : client) (o : list string) : client :=
  {| lhlo := lhlo c; ssl_iostream := ssl_iostream c; trusted := trusted c;
     ssl_enabled := ssl_enabled c; proxy_ttl := proxy_ttl c;
     proxy_timeout_secs := proxy_timeout_secs c; remote_ip := remote_ip c;
     remote_port := remote_port c; local_ip := local_ip c;
     local_port := local_port c; my_domain := my_domain c;
     recipient_delimiter := recipient_delimiter c; temp_prefix := temp_prefix c;
     lmtp_set := lmtp_set c; state := state c; proxy := proxy c;
     dot_input := dot_input c; output := o; destroyed := destroyed c |}.

Definition with_lhlo (c : client) (l : string) : client :=
  {| lhlo := l; ssl_iostream := ssl_iostream c; trusted := trusted c;
     ssl_enabled := ssl_enabled c; proxy_ttl := proxy_ttl c;
     proxy_timeout_secs := proxy_timeout_secs c; remote_ip := remote_ip c;
     remote_port := remote_port c; local_ip := local_ip c;
     local_port := local_port c; my_domain := my_domain c;
     recipient_delimiter := recipient_delimiter c; temp_prefix := temp_prefix c;
     lmtp_set := lmtp_set c; state := state c; proxy := proxy c;
     dot_input := dot_input c; output := output c; destroyed := destroyed c |}.

Definition with_ssl_iostream (c : client) (s : option string) : client :=
  {| lhlo := lhlo c; ssl_iostream := s; trusted := trusted c;
     ssl_enabled := ssl_enabled c; proxy_ttl := proxy_ttl c;
     proxy_timeout_secs := proxy_timeout_secs c; remote_ip := remote_ip c;
     remote_port := remote_port c; local_ip := local_ip c;
     local_port := local_port c; my_domain := my_domain c;
     recipient_delimiter := recipient_delimiter c; temp_prefix := temp_prefix c;
     lmtp_set := lmtp_set c; state := state c; proxy := proxy c;
     dot_input := dot_input c; output := output c; destroyed := destroyed c |}.

Definition with_dot_input (c : client) (d : bool) : client :=
  {| lhlo := lhlo c; ssl_iostream := ssl_iostream c; trusted := trusted c;
     ssl_enabled := ssl_enabled c; proxy_ttl := proxy_ttl c;
     proxy_timeout_secs := proxy_timeout_secs c; remote_ip := remote_ip c;
     remote_port := remote_port c; local_ip := local_ip c;
     local_port := local_port c; my_domain := my_domain c;
     recipient_delimiter := recipient_delimiter c; temp_prefix := temp_prefix c;
     lmtp_set := lmtp_set c; state := state c; proxy := proxy c;
     dot_input := d; output := output c; destroyed := destroyed c |}.

Definition with_destroyed (c : client) (d : bool) : client :=
  {| lhlo := lhlo c; ssl_iostream := ssl_iostream c; trusted := trusted c;
     ssl_enabled := ssl_enabled c; proxy_ttl := proxy_ttl c;
     proxy_timeout_secs := proxy_timeout_secs c; remote_ip := remote_ip c;
     remote_port := remote_port c; local_ip := local_ip c;
     local_port := local_port c; my_domain := my_domain c;
     recipient_delimiter := recipient_delimiter c; temp_prefix := temp_prefix c;
     lmtp_set := lmtp_set c; state := state c; proxy := proxy c;
     dot_input := dot_input c; output := output c; destroyed := d |}.

(** the four fields [cmd_xclient] assigns *)
Definition with_xclient (c : client) (rip : ip_addr) (rport ttl tmo : Z) : client :=
  {| lhlo := lhlo c; ssl_iostream := ssl_iostream c; trusted := trusted c;
     ssl_enabled := ssl_enabled c; proxy_ttl := ttl;
     proxy_timeout_secs := tmo; remote_ip := rip;
     remote_port := rport; local_ip := local_ip c;
     local_port := local_port c; my_domain := my_domain c;
     recipient_delimiter := recipient_delimiter c; temp_prefix := temp_prefix c;
     lmtp_set := lmtp_set c; state := state c; proxy := proxy c;
     dot_input := dot_input c; output := output c; destroyed := destroyed c |}.

Definition st_with_envelope (s : client_state) (from : option smtp_address)
    (params : option smtp_params_mail) (tv : Z) : client_state :=
  {| session_id := session_id s; mail_from := from; mail_params := params;
     rcpt_to := []; added_headers := added_headers s;
     mail_from_timeval := tv; data_end_timeval := data_end_timeval s;
     mail_data := mail_data s; mail_data_fd := mail_data_fd s;
     mail_data_output := mail_data_output s |}.

Definition st_with_mail_params (s : client_state) (params : option smtp_params_mail)
    : client_state :=
  {| session_id := session_id s; mail_from := mail_from s; mail_params := params;
     rcpt_to := rcpt_to s; added_headers := added_headers s;
     mail_from_timeval := mail_from_timeval s; data_end_timeval := data_end_timeval s;
     mail_data := mail_data s; mail_data_fd := mail_data_fd s;
     mail_data_output := mail_data_output s |}.

Definition st_with_rcpt_to (s : client_state) (l : list mail_recipient) : client_state :=
  {| session_id := session_id s; mail_from := mail_from s; mail_params := mail_params s;
     rcpt_to := l; added_headers := added_headers s;
     mail_from_timeval := mail_from_timeval s; data_end_timeval := data_end_timeval s;
     mail_data := mail_data s; mail_data_fd := mail_data_fd s;
     mail_data_output := mail_data_output s |}.

Definition st_with_payload (s : client_state) (h : option string)
    (d : option (list byte)) : client_state :=
  {| session_id := session_id s; mail_from := mail_from s; mail_params := mail_params s;
     rcpt_to := rcpt_to s; added_headers := h;
     mail_from_timeval := mail_from_timeval s; data_end_timeval := data_end_timeval s;
     mail_data := d; mail_data_fd := mail_data_fd s;
     mail_data_output := mail_data_output s |}.

Definition st_with_file (s : client_state) (fd : Z) (o : option ostream) : client_state :=
  {| session_id := session_id s; mail_from := mail_from s; mail_params := mail_params s;
     rcpt_to := rcpt_to s; added_headers := added_headers s;
     mail_from_timeval := mail_from_timeval s; data_end_timeval := data_end_timeval s;
     mail_data := mail_data s; mail_data_fd := fd;
     mail_data_output := o |}.

Definition st_with_data_end (s : client_state) (tv : Z) : client_state :=
  {| session_id := session_id s; mail_from := mail_from s; mail_params := mail_params s;
     rcpt_to := rcpt_to s; added_headers := added_headers s;
     mail_from_timeval := mail_from_timeval s; data_end_timeval := tv;
     mail_data := mail_data s; mail_data_fd := mail_data_fd s;
     mail_data_output := mail_data_output s |}.

(** ** Collaborators *)

(** Routines of lib, lib-mail and lib-smtp called by commands.c.  A parser
    returns its error on the left and its result on the right;
    [rfc822_parse_dot_atom] returns its status and the text it appended to
    the output string. *)
Record library := {
  rfc822_parse_dot_atom : string → Z * string;
  smtp_address_encode : smtp_address → string;
  smtp_address_parse_path_full :
    smtp_address_parse_flag → string → string + smtp_address * string;
  smtp_address_parse_username : string → option smtp_address;
  smtp_address_detail_parse_temp : string → smtp_address → string * ascii * string;
  smtp_address_add_detail_temp : smtp_address → string → ascii → smtp_address;
  smtp_params_mail_parse : string → smtp_param_parse_error * string + smtp_params_mail;
  smtp_params_rcpt_parse : string → smtp_param_parse_error * string + smtp_params_rcpt;
  net_addr2ip : string → option ip_addr;
  net_ip2addr : ip_addr → string;
  net_str2port : string → option Z;
  str_to_uint : string → option Z;
  t_strsplit : string → string → list string;
  str_tabescape : string → string;
  message_date_create : Z → string }.

Record auth_user_info := {
  info_service : string;
  info_local_ip : ip_addr;
  info_remote_ip : ip_addr;
  info_local_port : Z;
  info_remote_port : Z }.

Record mail_storage_service_input := {
  in_username : string;
  in_local_ip : ip_addr;
  in_remote_ip : ip_addr;
  in_local_port : Z;
  in_remote_port : Z;
  in_session_id : string }.

(** result of [auth_master_pass_lookup]: [ret < 0] with [fields[0]],
    [ret == 0], or [ret > 0] with the returned fields *)
Inductive pass_lookup :=
| PassError (field0 : option string)
| PassNotFound
| PassFound (fields : list string).

(** result of [mail_storage_service_lookup]: [ret < 0], [ret == 0], [ret > 0] *)
Inductive storage_lookup :=
| LookupError (error : string)
| LookupNotFound
| LookupFound (user : service_user).

(** what the file system does during one call of [client_input_add]:
    [safe_mkstemp_hostpid] returns the generated name suffix and the
    descriptor or fails, [i_unlink] and the stream writes succeed or fail *)
Record io_outcome := {
  io_mkstemp : option (string * Z);
  io_unlink_ok : bool;
  io_write_ok : bool }.

(** answers of the external services while one command is handled;
    [anvil_query_pending] tells whether [anvil_client_query] returns a query
    that is pending, not NULL *)
Record world := {
  master_service_name : string;
  auth_master_pass_lookup : string → auth_user_info → pass_lookup;
  mail_storage_service_lookup : mail_storage_service_input → storage_lookup;
  lmtp_proxy_add_rcpt : smtp_address → lmtp_proxy_rcpt_settings → Z;
  anvil_query_pending : string → bool;
  anvil_permits : string → bool;
  master_service_ssl_init : string + string;
  ssl_iostream_handshake : Z;
  ioloop_time : Z;
  local_delivery : list mail_recipient → list byte → list string;
  proxy_delivery : lmtp_proxy → list byte → list string }.

Definition CR : ascii := ascii_of_nat 13.
Definition LF : ascii := ascii_of_nat 10.
Definition CRLF : string := String CR (String LF EmptyString).
Definition TAB : string := String (ascii_of_nat 9) EmptyString.

Definition is_null {A} (p : option A) : bool :=
  match p with None => true | Some _ => false end.

Definition LMTP_PROXY_DEFAULT_TIMEOUT_MSECS : Z := 1000 * 125.

(** [client_send_line]: one reply line, kept without its CRLF;
    [o_stream_nsend_str] of a CRLF-terminated literal is the same line *)
Definition client_send_line (c : client) (line : string) : client :=
  with_output c (output c ++ [line]).

(** Modelled from the spec: [client_state_reset] (client.c) "resets envelope
    and payload state"; no recipient survives it, so no proxy session
    either. *)
Definition client_state_reset (c : client) : client :=
  with_dot_input
    (with_proxy
       (with_state c
          {| session_id := session_id (state c); mail_from := None;
             mail_params := None; rcpt_to := []; added_headers := None;
             mail_from_timeval := 0; data_end_timeval := 0;
             mail_data := None; mail_data_fd := -1;
             mail_data_output := None |})
       None)
    false.

(** Modelled from the spec: [client_destroy] (client.c) ends the session,
    after the reply "prefix reason" when one is given. *)
Definition client_destroy (c : client) (reply : option string) : client :=
  with_destroyed
    (match reply with Some r => client_send_line c r | None => c end) true.

(** Modelled from the spec: [client_is_trusted] (client.c) tells whether
    "the session is marked trusted". *)
Definition client_is_trusted (c : client) : bool := trusted c.

(** ** The command handlers *)

Section Commands.

Variable L : library.

(** the ceiling of the in-memory payload buffer, a macro of client.h *)
Variable CLIENT_MAIL_DATA_MAX_INMEMORY_SIZE : Z.

(** *** LHLO *)

(** The loop over the bytes after the opening bracket stops at the first
    closing bracket, backslash or opening bracket and leaves [p] there; the
    result is the text from [p] on.  The loop has no test for the
    terminating NUL: when none of the three characters occurs, its next
    read is past the end of the argument, which is [None] here. *)
Fixpoint lhlo_literal_scan (p : string) : option string :=
  match p with
  | EmptyString => None
  | String ch p' =>
      if Ascii.eqb ch "]"%char then Some p
      else if (Ascii.eqb ch "\"%char || Ascii.eqb ch "["%char)%bool then Some p
      else lhlo_literal_scan p'
  end.

(** the multi-line reply of LHLO *)
Definition lhlo_reply (c : client) : list string :=
  ["250-" +:+ my_domain c]
  ++ (if (ssl_enabled c && is_null (ssl_iostream c))%bool then ["250-STARTTLS"] else [])
  ++ (if client_is_trusted c then ["250-XCLIENT ADDR PORT TTL TIMEOUT"] else [])
  ++ ["250-8BITMIME"; "250-ENHANCEDSTATUSCODES"; "250 PIPELINING"].

(** the status [ret] and the contents of [domain] after the argument of
    LHLO, not empty, has been looked at; an address-literal leaves [domain]
    empty *)
Definition lhlo_parse (args : string) : option (Z * string) :=
  match args with
  | EmptyString => None
  | String a0 rest =>
      if negb (Ascii.eqb a0 "["%char) then Some (rfc822_parse_dot_atom L args)
      else match lhlo_literal_scan rest with
           | Some p => Some (if String.eqb p "]" then 0 else -1, EmptyString)
           | None => None
           end
  end.

Definition cmd_lhlo (c : client) (args : string) : option (client * Z) :=
  match args with
  | EmptyString => Some (client_send_line c "501 Missing hostname", 0)
  | _ =>
      match lhlo_parse args with
      | None => None
      | Some (ret, dom) =>
          let dom := if ret <? 0 then "invalid" else dom in
          let c := client_state_reset c in
          let c := fold_left client_send_line (lhlo_reply c) c in
          Some (with_lhlo c dom, 0)
      end
  end.

(** *** STARTTLS *)

Definition cmd_starttls (w : world) (c : client) : client * Z :=
  match ssl_iostream c with
  | Some _ => (client_send_line c "443 5.5.1 TLS is already active.", 0)
  | None =>
      match master_service_ssl_init w with
      | inl _ =>
          (client_send_line c "454 4.7.0 Internal error, TLS not available.", 0)
      | inr ssl =>
          let c := with_ssl_iostream c (Some ssl) in
          let c := client_send_line c "220 2.0.0 Begin TLS negotiation now." in
          if ssl_iostream_handshake w <? 0 then (client_destroy c None, -1)
          else (c, 0)
      end
  end.

(** *** MAIL *)

(** the test after the path: one space is skipped, the end of the line is
    accepted, any other character is an error *)
Definition after_path (args : string) : option string :=
  match args with
  | EmptyString => Some EmptyString
  | String ch rest => if Ascii.eqb ch " "%char then Some rest else None
  end.

Definition param_error_reply (pperror : smtp_param_parse_error) (error : string) : string :=
  match pperror with
  | SMTP_PARAM_PARSE_ERROR_BAD_SYNTAX => "501 5.5.4 " +:+ error
  | SMTP_PARAM_PARSE_ERROR_NOT_SUPPORTED => "555 5.5.4 " +:+ error
  end.

Definition cmd_mail (w : world) (c : client) (args : string) : client * Z :=
  match mail_from (state c) with
  | Some _ => (client_send_line c "503 5.5.1 MAIL already given", 0)
  | None =>
      if negb (strncasecmp_eq args "FROM:") then
        (client_send_line c "501 5.5.4 Invalid parameters", 0)
      else
        match smtp_address_parse_path_full L SMTP_ADDRESS_PARSE_FLAG_ALLOW_EMPTY
                (str_skip 5 args) with
        | inl error => (client_send_line c ("501 5.5.4 Invalid FROM: " +:+ error), 0)
        | inr (address, args) =>
            match after_path args with
            | None =>
                (client_send_line c "501 5.5.4 Invalid FROM: Invalid character in path", 0)
            | Some args =>
                match smtp_params_mail_parse L args with
                | inl (pperror, error) =>
                    (client_send_line c (param_error_reply pperror error), 0)
                | inr params =>
                    let c := with_state c
                               (st_with_envelope (state c) (Some address) (Some params)
                                  (ioloop_time w)) in
                    (client_send_line c "250 2.1.0 OK", 0)
                end
            end
        end
  end.

(** *** RCPT: proxy routing *)

Definition set_with_host (s : lmtp_proxy_rcpt_settings) (h : string) :=
  {| set_protocol := set_protocol s; set_host := Some h; set_hostip := set_hostip s;
     set_port := set_port s; set_timeout_msecs := set_timeout_msecs s;
     set_params := set_params s |}.

Definition set_with_hostip (s : lmtp_proxy_rcpt_settings) (ip : ip_addr) :=
  {| set_protocol := set_protocol s; set_host := set_host s; set_hostip := ip;
     set_port := set_port s; set_timeout_msecs := set_timeout_msecs s;
     set_params := set_params s |}.

Definition set_with_port (s : lmtp_proxy_rcpt_settings) (p : Z) :=
  {| set_protocol := set_protocol s; set_host := set_host s; set_hostip := set_hostip s;
     set_port := p; set_timeout_msecs := set_timeout_msecs s;
     set_params := set_params s |}.

Definition set_with_timeout_msecs (s : lmtp_proxy_rcpt_settings) (t : Z) :=
  {| set_protocol := set_protocol s; set_host := set_host s; set_hostip := set_hostip s;
     set_port := set_port s; set_timeout_msecs := t;
     set_params := set_params s |}.

Definition set_with_protocol (s : lmtp_proxy_rcpt_settings) (p : smtp_protocol) :=
  {| set_protocol := p; set_host := set_host s; set_hostip := set_hostip s;
     set_port := set_port s; set_timeout_msecs := set_timeout_msecs s;
     set_params := set_params s |}.

(** [key] and [value] of one passdb field *)
Definition field_key_value (arg : string) : string * string :=
  match strchr_eq arg with
  | None => (arg, EmptyString)
  | Some kv => kv
  end.

(** The loop of [client_proxy_rcpt_parse_fields] with its locals [proxying]
    and [port_set]; the result is the returned flag, the settings and the
    possibly rewritten [*address]. *)
Fixpoint client_proxy_rcpt_parse_fields_from (set : lmtp_proxy_rcpt_settings)
    (args : list string) (address : string) (proxying port_set : bool)
    : bool * lmtp_proxy_rcpt_settings * string :=
  match args with
  | [] =>
      if (proxying && is_null (set_host set))%bool then (false, set, address)
      else (proxying, set, address)
  | arg :: args' =>
      let '(key, value) := field_key_value arg in
      if String.eqb key "proxy" then
        client_proxy_rcpt_parse_fields_from set args' address true port_set
      else if String.eqb key "host" then
        client_proxy_rcpt_parse_fields_from (set_with_host set value) args' address
          proxying port_set
      else if String.eqb key "hostip" then
        match net_addr2ip L value with
        | None => (false, set, address)
        | Some ip =>
            client_proxy_rcpt_parse_fields_from (set_with_hostip set ip) args' address
              proxying port_set
        end
      else if String.eqb key "port" then
        match net_str2port L value with
        | None => (false, set, address)
        | Some p =>
            client_proxy_rcpt_parse_fields_from (set_with_port set p) args' address
              proxying true
        end
      else if String.eqb key "proxy_timeout" then
        match str_to_uint L value with
        | None => (false, set, address)
        | Some t =>
            client_proxy_rcpt_parse_fields_from
              (set_with_timeout_msecs set (uint (t * 1000))) args' address
              proxying port_set
        end
      else if String.eqb key "protocol" then
        if String.eqb value "lmtp" then
          let set := set_with_protocol set SMTP_PROTOCOL_LMTP in
          client_proxy_rcpt_parse_fields_from
            (if port_set then set else set_with_port set 24) args' address
            proxying port_set
        else if String.eqb value "smtp" then
          let set := set_with_protocol set SMTP_PROTOCOL_SMTP in
          client_proxy_rcpt_parse_fields_from
            (if port_set then set else set_with_port set 25) args' address
            proxying port_set
        else (false, set, address)
      else if (String.eqb key "user" || String.eqb key "destuser")%bool then
        client_proxy_rcpt_parse_fields_from set args' value proxying port_set
      else
        client_proxy_rcpt_parse_fields_from set args' address proxying port_set
  end.

Definition client_proxy_rcpt_parse_fields (set : lmtp_proxy_rcpt_settings)
    (args : list string) (address : string)
    : bool * lmtp_proxy_rcpt_settings * string :=
  client_proxy_rcpt_parse_fields_from set args address false false.

(** the address [client_proxy_is_ourself] compares: [hostip] when it is
    set, else [host] converted by [net_addr2ip] *)
Definition proxy_target_ip (set : lmtp_proxy_rcpt_settings) : option ip_addr :=
  if negb (family (set_hostip set) =? 0) then Some (set_hostip set)
  else match set_host set with
       | Some host => net_addr2ip L host
       | None => None
       end.

Definition client_proxy_is_ourself (c : client) (set : lmtp_proxy_rcpt_settings) : bool :=
  if negb (set_port set =? local_port c) then false
  else
    match proxy_target_ip set with
    | None => false
    | Some ip => net_ip_compare ip (local_ip c)
    end.

Definition mixed_destinations_reply (address : smtp_address) : string :=
  "451 4.3.0 <" +:+ smtp_address_encode L address
  +:+ "> Can't handle mixed proxy/non-proxy destinations".

Definition loops_to_itself_reply (address : smtp_address) : string :=
  "554 5.4.6 <" +:+ smtp_address_encode L address +:+ "> Proxying loops to itself".

Definition ttl_reply (username : string) : string :=
  "554 5.4.6 <" +:+ username +:+ "> Proxying appears to be looping (TTL=0)".

(** Modelled from the spec: [lmtp_proxy_init] (lmtp-proxy.c) is
    "init(settings) -> session"; the new session has no recipient. *)
Definition lmtp_proxy_init (set : lmtp_proxy_settings) : lmtp_proxy :=
  {| proxy_set := set; proxy_mail_from := None; proxy_mail_params := None;
     proxy_rcpt_to := [] |}.

(** Modelled from the spec: [lmtp_proxy_mail_from] (lmtp-proxy.c) gives the
    session "the MAIL FROM and its parameters". *)
Definition lmtp_proxy_mail_from (p : lmtp_proxy) (from : option smtp_address)
    (params : option smtp_params_mail) : lmtp_proxy :=
  {| proxy_set := proxy_set p; proxy_mail_from := from; proxy_mail_params := params;
     proxy_rcpt_to := proxy_rcpt_to p |}.

(** Modelled from the spec: a successful [lmtp_proxy_add_rcpt] adds the
    recipient to the session. *)
Definition lmtp_proxy_rcpt_added (p : lmtp_proxy) (address : smtp_address)
    (set : lmtp_proxy_rcpt_settings) : lmtp_proxy :=
  {| proxy_set := proxy_set p; proxy_mail_from := proxy_mail_from p;
     proxy_mail_params := proxy_mail_params p;
     proxy_rcpt_to := proxy_rcpt_to p ++ [(address, set)] |}.

(** the settings [client_proxy_rcpt] starts from, before the passdb fields *)
Definition proxy_rcpt_defaults (c : client) (params : smtp_params_rcpt)
    : lmtp_proxy_rcpt_settings :=
  {| set_protocol := SMTP_PROTOCOL_LMTP; set_host := None; set_hostip := ip_unset;
     set_port := local_port c;
     set_timeout_msecs := LMTP_PROXY_DEFAULT_TIMEOUT_MSECS;
     set_params := params |}.

(** the settings of a new proxy session *)
Definition proxy_session_settings (c : client) : lmtp_proxy_settings :=
  {| ps_my_hostname := my_domain c; ps_session_id := session_id (state c);
     ps_source_ip := remote_ip c; ps_source_port := remote_port c;
     ps_proxy_ttl := uint (proxy_ttl c - 1) |}.

(** the part of [client_proxy_rcpt] after the loop and TTL tests *)
Definition client_proxy_rcpt_add (w : world) (c : client) (address : smtp_address)
    (set : lmtp_proxy_rcpt_settings) : client * bool :=
  if negb (array_count (rcpt_to (state c)) =? 0) then
    (client_send_line c (mixed_destinations_reply address), true)
  else
    let p :=
      match proxy c with
      | Some p => p
      | None =>
          lmtp_proxy_mail_from (lmtp_proxy_init (proxy_session_settings c))
            (mail_from (state c)) (mail_params (state c))
      end in
    if lmtp_proxy_add_rcpt w address set <? 0 then
      (client_send_line (with_proxy c (Some p)) "451 4.4.0 Remote server not answering",
       true)
    else
      (client_send_line (with_proxy c (Some (lmtp_proxy_rcpt_added p address set)))
         "250 2.1.5 OK", true).

(** the connection data given to the passdb lookup *)
Definition pass_lookup_info (w : world) (c : client) : auth_user_info :=
  {| info_service := master_service_name w; info_local_ip := local_ip c;
     info_remote_ip := remote_ip c; info_local_port := local_port c;
     info_remote_port := remote_port c |}.

(** the address after passdb changed the username: the new user, with the
    detail part put back when there is one *)
Definition rewritten_address (user : smtp_address) (detail : string) (delim : ascii)
    : smtp_address :=
  if String.eqb detail EmptyString then user
  else smtp_address_add_detail_temp L user detail delim.

(** The result is the client and the returned flag: [true] when the command
    has been answered, [false] when [cmd_rcpt] goes on with the local lookup. *)
Definition client_proxy_rcpt (w : world) (c : client) (address : smtp_address)
    (username detail : string) (delim : ascii) (params : smtp_params_rcpt)
    : client * bool :=
  let orig_username := username in
  match auth_master_pass_lookup w username (pass_lookup_info w c) with
  | PassError field0 =>
      let errstr :=
        match field0 with
        | Some e => e
        | None =>
            "451 4.3.0 <" +:+ smtp_address_encode L address
            +:+ "> Temporary user lookup failure"
        end in
      (client_send_line c errstr, true)
  | PassNotFound => (c, false)
  | PassFound fields =>
      let '(proxying, set, username) :=
        client_proxy_rcpt_parse_fields (proxy_rcpt_defaults c params) fields username in
      if negb proxying then (c, false)
      else
        let checked :=
          if negb (String.eqb username orig_username) then
            match smtp_address_parse_username L username with
            | None =>
                inl (client_send_line c
                       ("550 5.3.5 <" +:+ smtp_address_encode L address
                        +:+ "> Internal user lookup failure"), false)
            | Some user => inr (rewritten_address user detail delim)
            end
          else if client_proxy_is_ourself c set then
            inl (client_send_line c (loops_to_itself_reply address), true)
          else inr address in
        match checked with
        | inl answered => answered
        | inr address =>
            if proxy_ttl c <=? 1 then (client_send_line c (ttl_reply username), true)
            else client_proxy_rcpt_add w c address set
        end
  end.

(** *** RCPT *)

(** Modelled from the spec: [cmd_rcpt_finish] (not in commands.c) accepts
    the recipient: "reply 250 2.1.5 OK and add". *)
Definition cmd_rcpt_finish (c : client) (rcpt : mail_recipient) : client :=
  client_send_line
    (with_state c (st_with_rcpt_to (state c) (rcpt_to (state c) ++ [rcpt])))
    "250 2.1.5 OK".

(** the session id given to a recipient when the envelope holds
    [rcpt_to] already: printf of "%s:%u" with an unsigned int sum *)
Definition rcpt_session_id_for (st : client_state) : string :=
  if array_count (rcpt_to st) =? 0 then session_id st
  else session_id st +:+ ":" +:+ pretty (Z.to_N (uint (array_count (rcpt_to st) + 1))).

(** the first part of [cmd_rcpt]: the path, the parameters and the split
    at the recipient delimiter; an error is the reply to send *)
Definition cmd_rcpt_parse (c : client) (args : string)
    : string + smtp_address * smtp_params_rcpt * string * ascii * string :=
  if negb (strncasecmp_eq args "TO:") then inl "501 5.5.4 Invalid parameters"
  else
    match smtp_address_parse_path_full L SMTP_ADDRESS_PARSE_FLAG_ALLOW_LOCALPART
            (str_skip 3 args) with
    | inl error => inl ("501 5.5.4 Invalid TO: " +:+ error)
    | inr (address, args) =>
        match after_path args with
        | None => inl "501 5.5.4 Invalid TO: Invalid character in path"
        | Some args =>
            match smtp_params_rcpt_parse L args with
            | inl (pperror, error) => inl (param_error_reply pperror error)
            | inr params =>
                let '(username, delim, detail) :=
                  smtp_address_detail_parse_temp L (recipient_delimiter c) address in
                inr (address, params, username, delim, detail)
            end
        end
    end.

(** the proxy test of [cmd_rcpt], made when [lmtp_proxy] is set *)
Definition cmd_rcpt_proxy (w : world) (c : client) (address : smtp_address)
    (params : smtp_params_rcpt) (username : string) (delim : ascii) (detail : string)
    : client * bool :=
  if lmtp_proxy_enabled (lmtp_set c) then
    client_proxy_rcpt w c address username detail delim params
  else (c, false).

Definition storage_input (c : client) (username sid : string)
    : mail_storage_service_input :=
  {| in_username := username; in_local_ip := local_ip c;
     in_remote_ip := remote_ip c; in_local_port := local_port c;
     in_remote_port := remote_port c; in_session_id := sid |}.

(** the second part of [cmd_rcpt]: the local lookup *)
Definition cmd_rcpt_local (w : world) (c : client) (address : smtp_address)
    (params : smtp_params_rcpt) (username : string) (detail : string) : client * Z :=
  let sid := rcpt_session_id_for (state c) in
  match mail_storage_service_lookup w (storage_input c username sid) with
  | LookupError _ =>
      (client_send_line c
         ("451 4.3.0 <" +:+ smtp_address_encode L address
          +:+ "> Temporary internal error"), 0)
  | LookupNotFound =>
      (client_send_line c
         ("550 5.1.1 <" +:+ smtp_address_encode L address
          +:+ "> User doesn't exist: " +:+ username), 0)
  | LookupFound user =>
      match proxy c with
      | Some _ => (client_send_line c (mixed_destinations_reply address), 0)
      | None =>
          let rcpt :=
            {| rcpt_session_id := sid; rcpt_address := address;
               rcpt_detail := detail; rcpt_params := params;
               rcpt_service_user := user |} in
          if lmtp_user_concurrency_limit (lmtp_set c) =? 0 then
            (cmd_rcpt_finish c rcpt, 0)
          else
            (* Modelled from the spec: the anvil reply "either permits the
               recipient or refuses" *)
            let query :=
              "LOOKUP" +:+ TAB +:+ master_service_name w +:+ "/"
              +:+ str_tabescape L (su_username user) in
            (* stop processing further commands while anvil query is
               pending *)
            let ret := if anvil_query_pending w query then -1 else 0 in
            if anvil_permits w query then (cmd_rcpt_finish c rcpt, ret)
            else
              (client_send_line c
                 ("451 4.3.0 <" +:+ smtp_address_encode L address
                  +:+ "> Too many concurrent connections"), ret)
      end
  end.

Definition cmd_rcpt (w : world) (c : client) (args : string) : client * Z :=
  match mail_from (state c) with
  | None => (client_send_line c "503 5.5.1 MAIL needed first", 0)
  | Some _ =>
      match cmd_rcpt_parse c args with
      | inl reply => (client_send_line c reply, 0)
      | inr (address, params, username, delim, detail) =>
          let '(c, answered) := cmd_rcpt_proxy w c address params username delim detail in
          if answered then (c, 0)
          else cmd_rcpt_local w c address params username detail
      end
  end.

(** *** QUIT, VRFY, RSET, NOOP *)

Definition cmd_quit (c : client) : client * Z :=
  (client_destroy (client_send_line c "221 2.0.0 OK") None, -1).

Definition cmd_vrfy (c : client) : client * Z :=
  (client_send_line c "252 2.3.3 Try RCPT instead", 0).

Definition cmd_rset (c : client) : client * Z :=
  (client_send_line (client_state_reset c) "250 2.0.0 OK", 0).

Definition cmd_noop (c : client) : client * Z :=
  (client_send_line c "250 2.0.0 OK", 0).

(** *** DATA *)

Definition encode_opt (a : option smtp_address) : string :=
  match a with Some a => smtp_address_encode L a | None => EmptyString end.

Definition client_get_added_headers (w : world) (c : client) : string :=
  let rcpt_to_addr : option smtp_address :=
    match rcpt_to (state c) with
    | [rcpt] =>
        match parsed_lmtp_hdr_delivery_address (rcpt_service_user rcpt) with
        | LMTP_HDR_DELIVERY_ADDRESS_NONE => None
        | LMTP_HDR_DELIVERY_ADDRESS_FINAL => Some (rcpt_address rcpt)
        | LMTP_HDR_DELIVERY_ADDRESS_ORIGINAL =>
            match orcpt_addr (rcpt_params rcpt) with
            | Some a => Some a
            | None => Some (rcpt_address rcpt)
            end
        end
    | _ => None
    end in
  let host := net_ip2addr L (remote_ip c) in
  (if 0 <? array_count (rcpt_to (state c)) then
     "Return-Path: <" +:+ encode_opt (mail_from (state c)) +:+ ">" +:+ CRLF
     +:+ match rcpt_to_addr with
         | Some a => "Delivered-To: " +:+ smtp_address_encode L a +:+ CRLF
         | None => EmptyString
         end
   else EmptyString)
  +:+ "Received: from " +:+ lhlo c
  +:+ (if String.eqb host EmptyString then EmptyString else " ([" +:+ host +:+ "])")
  +:+ CRLF
  +:+ match ssl_iostream c with
      | Some security => TAB +:+ "(using " +:+ security +:+ ")" +:+ CRLF
      | None => EmptyString
      end
  +:+ TAB +:+ "by " +:+ my_domain c +:+ " with LMTP id " +:+ session_id (state c)
  +:+ CRLF +:+ TAB
  +:+ match rcpt_to_addr with
      | Some a => "for <" +:+ smtp_address_encode L a +:+ ">"
      | None => EmptyString
      end
  +:+ "; " +:+ message_date_create L (ioloop_time w) +:+ CRLF.

(** [cmd_data] up to its call of [client_input_data_handle]; the body is
    consumed by [client_input_data_handle] below. *)
Definition cmd_data (w : world) (c : client) : client * Z :=
  match mail_from (state c) with
  | None => (client_send_line c "503 5.5.1 MAIL needed first", 0)
  | Some _ =>
      if ((array_count (rcpt_to (state c)) =? 0) && is_null (proxy c))%bool then
        (client_send_line c "554 5.5.1 No valid recipients", 0)
      else
        let c := with_state c
                   (st_with_payload (state c) (Some (client_get_added_headers w c))
                      (Some [])) in
        let c := with_dot_input c true in
        (client_send_line c "354 OK", -1)
  end.

(** the in-memory buffer [state->mail_data] *)
Definition mail_data_buf (st : client_state) : list byte :=
  match mail_data st with Some d => d | None => [] end.

(** size_t arithmetic wraps modulo 2^64 *)
Definition size_add (a b : Z) : Z := (a + b) mod 2 ^ 64.

(** The result is the client, the set of path names present in the file
    system and the returned status. *)
Definition client_input_add_file (io : io_outcome) (c : client) (fs : gset string)
    (data : list byte) : client * gset string * Z :=
  match mail_data_output (state c) with
  | Some o =>
      (* continue writing to file *)
      if io_write_ok io then
        let o := {| os_fd := os_fd o; os_name := os_name o;
                    os_sent := os_sent o ++ data |} in
        (with_state c (st_with_file (state c) (mail_data_fd (state c)) (Some o)), fs, 0)
      else (c, fs, -1)
  | None =>
      (* move everything to a temporary file. *)
      match io_mkstemp io with
      | None => (c, fs, -1)
      | Some (suffix, fd) =>
          let path := temp_prefix c +:+ suffix in
          let fs := {[path]} ∪ fs in
          (* we just want the fd, unlink it *)
          if negb (io_unlink_ok io) then (c, fs, -1)
          else
            let fs := fs ∖ {[path]} in
            let o := {| os_fd := fd; os_name := path;
                        os_sent := mail_data_buf (state c) ++ data |} in
            let c := with_state c (st_with_file (state c) fd (Some o)) in
            if io_write_ok io then (c, fs, 0) else (c, fs, -1)
      end
  end.

Definition client_input_add (io : io_outcome) (c : client) (fs : gset string)
    (data : list byte) : client * gset string * Z :=
  if ((size_add (array_count (mail_data_buf (state c))) (array_count data)
         <=? CLIENT_MAIL_DATA_MAX_INMEMORY_SIZE)
      && is_null (mail_data_output (state c)))%bool then
    (with_state c
       (st_with_payload (state c) (added_headers (state c))
          (Some (mail_data_buf (state c) ++ data))), fs, 0)
  else client_input_add_file io c fs data.

(** the stream built by [client_get_input]: the added headers, then the
    spill file read through its descriptor or the in-memory buffer *)
Definition client_get_input (c : client) : list byte :=
  list_byte_of_string
    (match added_headers (state c) with Some h => h | None => EmptyString end)
  ++ match mail_data_output (state c) with
     | Some o => os_sent o
     | None => mail_data_buf (state c)
     end.

(** how the dot-stuffed body stream ends: the "." line, or a stream error *)
Inductive dot_end := DotLine | DotError.

(** [client_input_data_write] and [client_input_data_finish]; the replies of
    local delivery and of the proxy come from the collaborators. *)
Definition client_input_data_write (w : world) (c : client) : client :=
  let c := with_dot_input c false in
  let c := with_state c (st_with_data_end (state c) (ioloop_time w)) in
  let input := client_get_input c in
  let c :=
    if negb (array_count (rcpt_to (state c)) =? 0) then
      fold_left client_send_line (local_delivery w (rcpt_to (state c)) input) c
    else c in
  let c :=
    match proxy c with
    | Some p => fold_left client_send_line (proxy_delivery w p input) c
    | None => c
    end in
  client_state_reset c.

(** the loop of [client_input_data_handle]: the chunks the body stream
    yields are added in turn, each with what the file system does
    meanwhile, up to the first failure *)
Fixpoint client_input_add_all (c : client) (fs : gset string)
    (body : list (io_outcome * list byte)) : client * gset string * Z :=
  match body with
  | [] => (c, fs, 0)
  | (io, data) :: body' =>
      let '(c', fs', ret) := client_input_add io c fs data in
      if ret <? 0 then (c', fs', ret) else client_input_add_all c' fs' body'
  end.

Definition client_input_data_handle (w : world) (c : client) (fs : gset string)
    (body : list (io_outcome * list byte)) (fin : dot_end) : client * gset string :=
  let '(c, fs, ret) := client_input_add_all c fs body in
  if ret <? 0 then (client_destroy c (Some "451 4.3.0 Temporary internal failure"), fs)
  else
    match fin with
    | DotError => (client_destroy c None, fs)
    | DotLine => (client_input_data_write w c, fs)
    end.

(** *** XCLIENT *)

(** the locals of [cmd_xclient] *)
Record xclient_locals := {
  x_remote_ip : ip_addr;
  x_remote_port : Z;
  x_ttl : Z;
  x_timeout_secs : Z;
  x_args_ok : bool }.

Definition xclient_locals_init : xclient_locals :=
  {| x_remote_ip := ip_unset; x_remote_port := 0; x_ttl := UINT_MAX;
     x_timeout_secs := 0; x_args_ok := true |}.

(** one round of the loop over the space-separated attributes; a failed
    conversion leaves its output variable as it was *)
Definition cmd_xclient_attr (x : xclient_locals) (tmp : string) : xclient_locals :=
  if strncasecmp_eq tmp "ADDR=" then
    let addr := str_skip 5 tmp in
    let ipv6 := strncasecmp_eq addr "IPV6:" in
    let addr := if ipv6 then str_skip 5 addr else addr in
    match net_addr2ip L addr with
    | None =>
        {| x_remote_ip := x_remote_ip x; x_remote_port := x_remote_port x;
           x_ttl := x_ttl x; x_timeout_secs := x_timeout_secs x; x_args_ok := false |}
    | Some ip =>
        {| x_remote_ip := ip; x_remote_port := x_remote_port x;
           x_ttl := x_ttl x; x_timeout_secs := x_timeout_secs x;
           x_args_ok := if (ipv6 && negb (family ip =? AF_INET6))%bool then false
                        else x_args_ok x |}
    end
  else if strncasecmp_eq tmp "PORT=" then
    match net_str2port L (str_skip 5 tmp) with
    | None =>
        {| x_remote_ip := x_remote_ip x; x_remote_port := x_remote_port x;
           x_ttl := x_ttl x; x_timeout_secs := x_timeout_secs x; x_args_ok := false |}
    | Some p =>
        {| x_remote_ip := x_remote_ip x; x_remote_port := p;
           x_ttl := x_ttl x; x_timeout_secs := x_timeout_secs x;
           x_args_ok := x_args_ok x |}
    end
  else if strncasecmp_eq tmp "TTL=" then
    match str_to_uint L (str_skip 4 tmp) with
    | None =>
        {| x_remote_ip := x_remote_ip x; x_remote_port := x_remote_port x;
           x_ttl := x_ttl x; x_timeout_secs := x_timeout_secs x; x_args_ok := false |}
    | Some t =>
        {| x_remote_ip := x_remote_ip x; x_remote_port := x_remote_port x;
           x_ttl := t; x_timeout_secs := x_timeout_secs x; x_args_ok := x_args_ok x |}
    end
  else if strncasecmp_eq tmp "TIMEOUT=" then
    match str_to_uint L (str_skip 8 tmp) with
    | None =>
        {| x_remote_ip := x_remote_ip x; x_remote_port := x_remote_port x;
           x_ttl := x_ttl x; x_timeout_secs := x_timeout_secs x; x_args_ok := false |}
    | Some t =>
        {| x_remote_ip := x_remote_ip x; x_remote_port := x_remote_port x;
           x_ttl := x_ttl x; x_timeout_secs := t; x_args_ok := x_args_ok x |}
    end
  else x.

Definition cmd_xclient_attrs (args : string) : xclient_locals :=
  fold_left cmd_xclient_attr (t_strsplit L args " ") xclient_locals_init.

Definition cmd_xclient (c : client) (args : string) : client * Z :=
  if negb (client_is_trusted c) then
    (client_send_line c "550 You are not from trusted IP", 0)
  else
    let x := cmd_xclient_attrs args in
    if negb (x_args_ok x) then (client_send_line c "501 Invalid parameters", 0)
    else
      (* args ok, set them and reset the state *)
      let c := client_state_reset c in
      let c :=
        with_xclient c
          (if negb (family (x_remote_ip x) =? 0) then x_remote_ip x else remote_ip c)
          (if negb (x_remote_port x =? 0) then x_remote_port x else remote_port c)
          (if negb (x_ttl x =? UINT_MAX) then x_ttl x else proxy_ttl c)
          (x_timeout_secs x) in
      (client_send_line c
         ("220 " +:+ my_domain c +:+ " " +:+ login_greeting (lmtp_set c)), 0).

(** ** Sessions *)

(** a command line as the dispatcher hands it to its handler; DATA comes
    with the body that follows it on the connection *)
Inductive command :=
| LHLO (args : string)
| STARTTLS
| MAIL (args : string)
| RCPT (args : string)
| DATA (body : list (io_outcome * list byte)) (fin : dot_end)
| RSET
| NOOP
| VRFY
| QUIT
| XCLIENT (args : string).

(** the session and the path names present in the file system *)
Definition machine : Type := client * gset string.

(** Modelled from the spec: the dispatcher (client.c) "maps verb to
    handler" and is "a small fixed map from verb to handler".  One command
    is handled in world [w]; a destroyed client handles nothing; [None] is
    the read of [cmd_lhlo] past the end of its argument.  As in [cmd_data],
    the body is handled once DATA has been answered 354. *)
Definition step (w : world) (cmd : command) (m : machine) : option machine :=
  let '(c, fs) := m in
  if destroyed c then Some m
  else
    match cmd with
    | LHLO args =>
        match cmd_lhlo c args with
        | Some (c, _) => Some (c, fs)
        | None => None
        end
    | STARTTLS => Some (fst (cmd_starttls w c), fs)
    | MAIL args => Some (fst (cmd_mail w c args), fs)
    | RCPT args => Some (fst (cmd_rcpt w c args), fs)
    | DATA body fin =>
        let c := fst (cmd_data w c) in
        if dot_input c then Some (client_input_data_handle w c fs body fin)
        else Some (c, fs)
    | RSET => Some (fst (cmd_rset c), fs)
    | NOOP => Some (fst (cmd_noop c), fs)
    | VRFY => Some (fst (cmd_vrfy c), fs)
    | QUIT => Some (fst (cmd_quit c), fs)
    | XCLIENT args => Some (fst (cmd_xclient c args), fs)
    end.

Fixpoint run (trace : list (world * command)) (m : machine) : option machine :=
  match trace with
  | [] => Some m
  | (w, cmd) :: trace' =>
      match step w cmd m with
      | Some m' => run trace' m'
      | None => None
      end
  end.

End Commands.

(** ** Concrete collaborators

    Small stand-ins for the library routines and the services, used to run
    the handlers on concrete sessions.  They cover the inputs of the sample
    sessions below: decimal numbers, dotted-quad addresses, paths of the
    form <local@domain> without parameters. *)

Definition is_digit (ch : ascii) : bool :=
  let n := nat_of_ascii ch in ((48 <=? n)%nat && (n <=? 57)%nat)%bool.

Fixpoint parse_decimal_from (acc : Z) (s : string) : option Z :=
  match s with
  | EmptyString => Some acc
  | String ch s' =>
      if is_digit ch then
        parse_decimal_from (acc * 10 + Z.of_nat (nat_of_ascii ch - 48)) s'
      else None
  end.

Definition parse_decimal (s : string) : option Z :=
  match s with
  | EmptyString => None
  | _ => parse_decimal_from 0 s
  end.

Definition str_to_uint0 (s : string) : option Z :=
  match parse_decimal s with
  | Some v => if v <=? UINT_MAX then Some v else None
  | None => None
  end.

Definition net_str2port0 (s : string) : option Z :=
  match parse_decimal s with
  | Some v => if ((1 <=? v) && (v <=? 65535))%bool then Some v else None
  | None => None
  end.

(** split at every occurrence of [sep]; the empty string has no part *)
Fixpoint split_on_from (sep : ascii) (cur : string) (s : string) : list string :=
  match s with
  | EmptyString => [String.rev cur]
  | String ch s' =>
      if Ascii.eqb ch sep then String.rev cur :: split_on_from sep EmptyString s'
      else split_on_from sep (String ch cur) s'
  end.

Definition split_on (sep : ascii) (s : string) : list string :=
  match s with
  | EmptyString => []
  | _ => split_on_from sep EmptyString s
  end.

Definition t_strsplit0 (s sep : string) : list string :=
  match sep with
  | String ch EmptyString => split_on ch s
  | _ => [s]
  end.

Definition AF_INET : Z := 2.

(** dotted-quad IPv4 only *)
Definition net_addr2ip0 (s : string) : option ip_addr :=
  match map parse_decimal (split_on "."%char s) with
  | [Some a; Some b; Some c; Some d] =>
      if ((a <=? 255) && (b <=? 255) && (c <=? 255) && (d <=? 255))%bool then
        Some {| family := AF_INET; ip_bits := ((a * 256 + b) * 256 + c) * 256 + d |}
      else None
  | _ => None
  end.

Definition net_ip2addr0 (ip : ip_addr) : string :=
  if family ip =? AF_INET then
    let b := ip_bits ip in
    pretty (b / 16777216) +:+ "." +:+ pretty (b / 65536 mod 256) +:+ "."
    +:+ pretty (b / 256 mod 256) +:+ "." +:+ pretty (b mod 256)
  else EmptyString.

(** the text before and after the first occurrence of [sep] *)
Fixpoint split_first (sep : ascii) (s : string) : option (string * string) :=
  match s with
  | EmptyString => None
  | String ch s' =>
      if Ascii.eqb ch sep then Some (EmptyString, s')
      else match split_first sep s' with
           | Some (a, b) => Some (String ch a, b)
           | None => None
           end
  end.

Definition address_of_string (s : string) : smtp_address :=
  match split_first "@"%char s with
  | Some (l, d) => {| localpart := l; domain := d |}
  | None => {| localpart := s; domain := EmptyString |}
  end.

Definition smtp_address_encode0 (a : smtp_address) : string :=
  if String.eqb (domain a) EmptyString then localpart a
  else localpart a +:+ "@" +:+ domain a.

Definition smtp_address_parse_path_full0 (flag : smtp_address_parse_flag) (s : string)
    : string + smtp_address * string :=
  match s with
  | String "<" r =>
      match split_first ">"%char r with
      | None => inl "Missing '>' at end of path"
      | Some (inner, rest) =>
          if String.eqb inner EmptyString then
            match flag with
            | SMTP_ADDRESS_PARSE_FLAG_ALLOW_EMPTY => inr (address_of_string inner, rest)
            | _ => inl "Path is empty"
            end
          else
            match split_first "@"%char inner, flag with
            | None, SMTP_ADDRESS_PARSE_FLAG_ALLOW_EMPTY => inl "Missing domain"
            | _, _ => inr (address_of_string inner, rest)
            end
      end
  | _ => inl "Missing '<' at beginning of path"
  end.

Definition smtp_address_parse_username0 (s : string) : option smtp_address :=
  match s with
  | EmptyString => None
  | _ => match split_first " "%char s with
         | Some _ => None
         | None => Some (address_of_string s)
         end
  end.

(** one delimiter character *)
Definition smtp_address_detail_parse_temp0 (delims : string) (a : smtp_address)
    : string * ascii * string :=
  match delims with
  | String d _ =>
      match split_first d (localpart a) with
      | Some (user, detail) =>
          (smtp_address_encode0 {| localpart := user; domain := domain a |}, d, detail)
      | None => (smtp_address_encode0 a, zero, EmptyString)
      end
  | EmptyString => (smtp_address_encode0 a, zero, EmptyString)
  end.

Definition smtp_address_add_detail_temp0 (a : smtp_address) (detail : string)
    (delim : ascii) : smtp_address :=
  {| localpart := localpart a +:+ String delim detail; domain := domain a |}.

(** no parameter is known to these two *)
Definition smtp_params_mail_parse0 (s : string)
    : smtp_param_parse_error * string + smtp_params_mail :=
  match s with
  | EmptyString => inr {| mail_body := EmptyString; mail_size := 0 |}
  | _ => inl (SMTP_PARAM_PARSE_ERROR_NOT_SUPPORTED, "Unsupported parameters")
  end.

Definition smtp_params_rcpt_parse0 (s : string)
    : smtp_param_parse_error * string + smtp_params_rcpt :=
  match s with
  | EmptyString => inr {| orcpt_addr := None; rcpt_notify := EmptyString |}
  | _ => inl (SMTP_PARAM_PARSE_ERROR_NOT_SUPPORTED, "Unsupported parameters")
  end.

(** atext of RFC 822: printable, no space, no special *)
Definition is_atext (ch : ascii) : bool :=
  let n := nat_of_ascii ch in
  ((33 <=? n)%nat && (n <=? 126)%nat
   && negb (existsb (Nat.eqb n) [34; 40; 41; 44; 46; 58; 59; 60; 62; 64; 91; 92; 93]%nat))%bool.

(** atoms separated by single dots; status -1 when no atom starts where one
    is needed, 1 when text is left after the dot-atom *)
Fixpoint rfc822_parse_dot_atom_from (need_atom : bool) (s : string) : Z * string :=
  match s with
  | EmptyString => (if need_atom then -1 else 0, EmptyString)
  | String ch s' =>
      if is_atext ch then
        let '(ret, t) := rfc822_parse_dot_atom_from false s' in (ret, String ch t)
      else if need_atom then (-1, EmptyString)
      else if Ascii.eqb ch "."%char then
        let '(ret, t) := rfc822_parse_dot_atom_from true s' in (ret, String ch t)
      else (1, EmptyString)
  end.

Definition lib0 : library :=
  {| rfc822_parse_dot_atom := rfc822_parse_dot_atom_from true;
     smtp_address_encode := smtp_address_encode0;
     smtp_address_parse_path_full := smtp_address_parse_path_full0;
     smtp_address_parse_username := smtp_address_parse_username0;
     smtp_address_detail_parse_temp := smtp_address_detail_parse_temp0;
     smtp_address_add_detail_temp := smtp_address_add_detail_temp0;
     smtp_params_mail_parse := smtp_params_mail_parse0;
     smtp_params_rcpt_parse := smtp_params_rcpt_parse0;
     net_addr2ip := net_addr2ip0;
     net_ip2addr := net_ip2addr0;
     net_str2port := net_str2port0;
     str_to_uint := str_to_uint0;
     t_strsplit := t_strsplit0;
     str_tabescape := λ s, s;
     message_date_create := λ _, "Thu, 01 Jan 1970 00:00:00 +0000" |}.

(** a world whose passdb and storage are the given tables *)
Definition world_of (passdb : string → pass_lookup) (storage : string → storage_lookup)
    (add_rcpt_ret : Z) : world :=
  {| master_service_name := "lmtp";
     auth_master_pass_lookup := λ username _, passdb username;
     mail_storage_service_lookup := λ input, storage (in_username input);
     lmtp_proxy_add_rcpt := λ _ _, add_rcpt_ret;
     anvil_query_pending := λ _, true;
     anvil_permits := λ _, true;
     master_service_ssl_init := inr "TLSv1.2 with cipher ECDHE-RSA-AES256-GCM-SHA384";
     ssl_iostream_handshake := 0;
     ioloop_time := 0;
     local_delivery :=
       λ rcpts _, map (λ r, "250 2.0.0 <" +:+ smtp_address_encode0 (rcpt_address r)
                            +:+ "> Saved") rcpts;
     proxy_delivery :=
       λ p _, map (λ r, "250 2.0.0 <" +:+ smtp_address_encode0 (fst r) +:+ "> Sent")
                  (proxy_rcpt_to p) |}.

Definition any_user (username : string) : storage_lookup :=
  LookupFound {| su_username := username;
                 parsed_lmtp_hdr_delivery_address := LMTP_HDR_DELIVERY_ADDRESS_FINAL |}.

(** a connection from 10.0.0.9 to this server at 10.0.0.1 port 2424 *)
Definition client0 (ttl : Z) : client :=
  {| lhlo := "missing"; ssl_iostream := None; trusted := true; ssl_enabled := true;
     proxy_ttl := ttl; proxy_timeout_secs := 0;
     remote_ip := {| family := AF_INET; ip_bits := 167772169 |}; remote_port := 40000;
     local_ip := {| family := AF_INET; ip_bits := 167772161 |}; local_port := 2424;
     my_domain := "mx.example.org"; recipient_delimiter := "+";
     temp_prefix := "/tmp/dovecot.lmtp.";
     lmtp_set := {| lmtp_proxy_enabled := true; lmtp_user_concurrency_limit := 0;
                    login_greeting := "Dovecot ready." |};
     state := {| session_id := "abc"; mail_from := None; mail_params := None;
                 rcpt_to := []; added_headers := None; mail_from_timeval := 0;
                 data_end_timeval := 0; mail_data := None; mail_data_fd := -1;
                 mail_data_output := None |};
     proxy := None; dot_input := false; output := []; destroyed := false |}.

(** *** Sample sessions *)

(** a passdb that proxies some users: [p@x] to another host, [self@x] to
    this server's own address and port, [moved@x] to this server under
    another user name, [smtp@x] to an SMTP host, [bad@x] under a user name
    that is no address *)
Definition passdb1 (username : string) : pass_lookup :=
  if String.eqb username "p@x" then PassFound ["proxy"; "host=10.0.0.2"]
  else if String.eqb username "self@x" then
    PassFound ["proxy"; "host=10.0.0.1"; "port=2424"]
  else if String.eqb username "moved@x" then
    PassFound ["proxy"; "host=10.0.0.1"; "port=2424"; "user=other@x"]
  else if String.eqb username "smtp@x" then
    PassFound ["proxy"; "host=10.0.0.2"; "protocol=smtp"]
  else PassNotFound.

Definition world1 : world := world_of passdb1 any_user 0.

(** the in-memory ceiling of the sample sessions *)
Definition MAX0 : Z := 8.

Definition machine0 (ttl : Z) : machine := (client0 ttl, ∅).

(** the session after MAIL FROM *)
Definition client_mail (ttl : Z) : client :=
  fst (cmd_mail lib0 world1 (client0 ttl) "FROM:<s@x>").

(** the session with one local recipient accepted *)
Definition client_local (ttl : Z) : client :=
  fst (cmd_rcpt lib0 world1 (client_mail ttl) "TO:<u@local>").

(** the session with one proxied recipient accepted *)
Definition client_proxied (ttl : Z) : client :=
  fst (cmd_rcpt lib0 world1 (client_mail ttl) "TO:<p@x>").

(** XCLIENT, MAIL, two local recipients, then one routed to a proxy *)
Definition session_local (ttl : string) : list (world * command) :=
  [(world1, XCLIENT ("TTL=" +:+ ttl)); (world1, MAIL "FROM:<s@x>");
   (world1, RCPT "TO:<u@local>"); (world1, RCPT "TO:<v+d@local>");
   (world1, RCPT "TO:<p@x>")].

(** the session after DATA has been answered 354 *)
Definition client_data (ttl : Z) : client :=
  fst (cmd_data lib0 world1 (client_local ttl)).

(** the file system does what it is asked; the temp file is named
    [host.pid.n] under the prefix and gets descriptor 7 *)
Definition io_fine : io_outcome :=
  {| io_mkstemp := Some ("mx.4711.1", 7); io_unlink_ok := true; io_write_ok := true |}.

Definition bytes_of (s : string) : list byte := list_byte_of_string s.

(** a body of 5, 6 and 3 bytes, for a ceiling of 8 *)
Definition body0 : list (io_outcome * list byte) :=
  [(io_fine, bytes_of "Hello"); (io_fine, bytes_of ", worl"); (io_fine, bytes_of "d!!")].

(** a trusted session whose proxy timeout was set to 30 by XCLIENT *)
Definition client_timeout30 : client :=
  fst (cmd_xclient lib0 (client0 5) "TIMEOUT=30").

Definition address_of (l d : string) : smtp_address :=
  {| localpart := l; domain := d |}.

Definition no_rcpt_params : smtp_params_rcpt :=
  {| orcpt_addr := None; rcpt_notify := EmptyString |}.

(** ** Notions used by the properties *)

(** the routing class of a recipient of the envelope *)
Inductive routing := Local | Proxy.

(** the recipients accepted so far: those of [state.rcpt_to] are local,
    those of the proxy session are proxied *)
Definition envelope_routing (c : client) : list routing :=
  map (λ _, Local) (rcpt_to (state c))
  ++ match proxy c with
     | Some p => map (λ _, Proxy) (proxy_rcpt_to p)
     | None => []
     end.

Definition homogeneous (l : list routing) : Prop :=
  (∀ r, r ∈ l → r = Local) ∨ (∀ r, r ∈ l → r = Proxy).

(** what the handlers maintain: no local recipient, or no proxy session *)
Definition no_mix (c : client) : Prop :=
  rcpt_to (state c) = [] ∨ proxy c = None.

(** How a command changes the envelope: the local recipients are gone or
    there were none, or nothing of it changed, or one local recipient was
    added while no proxy session exists. *)
Inductive envelope_step (c c' : client) : Prop :=
| env_cleared :
    rcpt_to (state c') = [] → envelope_step c c'
| env_kept :
    session_id (state c') = session_id (state c) →
    rcpt_to (state c') = rcpt_to (state c) →
    proxy c' = proxy c →
    envelope_step c c'
| env_added (r : mail_recipient) :
    session_id (state c') = session_id (state c) →
    proxy c' = None →
    rcpt_to (state c') = rcpt_to (state c) ++ [r] →
    rcpt_session_id r = rcpt_session_id_for (state c) →
    envelope_step c c'.

(** a change of the client that leaves the envelope as it is *)
Definition state_envelope_kept (c c' : client) : Prop :=
  session_id (state c') = session_id (state c)
  ∧ rcpt_to (state c') = rcpt_to (state c)
  ∧ proxy c' = proxy c.

(** the session id the scheme gives to the recipient at index [k] (from 0) *)
Definition scheme_session_id (base : string) (k : nat) : string :=
  match k with
  | O => base
  | S _ => base +:+ ":" +:+ pretty (N.of_nat (S k))
  end.

(** the invariant behind the scheme, with the unsigned sum of the code *)
Definition session_ids_inv (st : client_state) : Prop :=
  ∀ (k : nat) r, rcpt_to st !! k = Some r →
    rcpt_session_id r =
      if (Z.of_nat k =? 0) then session_id st
      else session_id st +:+ ":" +:+ pretty (Z.to_N (uint (Z.of_nat k + 1))).

(** a passdb record has a field with this key *)
Definition has_key (key : string) (fields : list string) : bool :=
  existsb (λ f, String.eqb (fst (field_key_value f)) key) fields.


(** the bytes the payload sink holds: in the spill file once there is one,
    else in the buffer *)
Definition sink_bytes (st : client_state) : list byte :=
  match mail_data_output st with
  | Some o => os_sent o
  | None => mail_data_buf st
  end.

(** the sink and the file system agree: while there is no file the buffer
    exists and is within the ceiling; a spill file holds more than the
    ceiling, is the file of [mail_data_fd], and its name is under the temp
    prefix and no longer in the file system *)
Definition sink_ok (MAX : Z) (c : client) (fs : gset string) : Prop :=
  match mail_data_output (state c) with
  | None =>
      is_Some (mail_data (state c))
      ∧ array_count (mail_data_buf (state c)) ≤ MAX
  | Some o =>
      mail_data_fd (state c) = os_fd o
      ∧ MAX < array_count (os_sent o)
      ∧ (os_name o ∉ fs)
      ∧ (∃ suffix, os_name o = temp_prefix c +:+ suffix)
  end.

(** a spill file has its name under the temp prefix and no name in the
    file system *)
Definition spill_unlinked (c : client) (fs : gset string) : Prop :=
  ∀ o, mail_data_output (state c) = Some o →
    (os_name o ∉ fs) ∧ (∃ suffix, os_name o = temp_prefix c +:+ suffix).

(** the bytes of the chunks of a body, in order *)
Definition body_bytes (body : list (io_outcome * list byte)) : list byte :=
  concat (map snd body).

(** the added headers as the bytes that start the delivered stream *)
Definition added_header_bytes (c : client) : list byte :=
  list_byte_of_string
    (match added_headers (state c) with Some h => h | None => EmptyString end).

(** the characters at which the scan of an address-literal stops *)
Definition literal_stop (ch : ascii) : Prop :=
  ch = "]"%char ∨ ch = "\"%char ∨ ch = "["%char.

(** the address text of an ADDR attribute: what follows "ADDR=", without
    the prefix "IPV6:" when there is one *)
Definition xclient_addr_text (tmp : string) : string :=
  let addr := str_skip 5 tmp in
  if strncasecmp_eq addr "IPV6:" then str_skip 5 addr else addr.

(** the arguments of XCLIENT have an attribute with this name whose text,
    taken by [text], converts to [v] *)
Definition xclient_attr {A} (L : library) (args name : string)
    (text : string → string) (conv : string → option A) (v : A) : Prop :=
  ∃ tmp, tmp ∈ t_strsplit L args " "
         ∧ strncasecmp_eq tmp name = true
         ∧ conv (text tmp) = Some v.

(** ** More of commands.c *)

(** ERRSTR_TEMP_MAILBOX_FAIL for an address *)
Definition temp_mailbox_fail_reply (L : library) (address : smtp_address) : string :=
  "451 4.3.0 <" +:+ smtp_address_encode L address +:+ "> Temporary internal error".

(** [client_rcpt_fail_all]: the loop over [state.rcpt_to] *)
Definition client_rcpt_fail_all (L : library) (c : client) : client :=
  fold_left
    (λ c rcpt, client_send_line c (temp_mailbox_fail_reply L (rcpt_address rcpt)))
    (rcpt_to (state c)) c.

(** [client_open_raw_mail], given the status of [raw_mailbox_alloc_stream];
    the mail handle it allocates on success is not part of [client] *)
Definition client_open_raw_mail (L : library) (alloc_ret : Z) (c : client)
    : client * Z :=
  if alloc_ret <? 0 then (client_rcpt_fail_all L c, -1) else (c, 0).

(** the client with another list of local recipients *)
Definition with_rcpt_to (c : client) (l : list mail_recipient) : client :=
  with_state c (st_with_rcpt_to (state c) l).

(** the keys [client_proxy_rcpt_parse_fields] knows *)
Definition known_field_key (key : string) : bool :=
  existsb (String.eqb key)
    ["proxy"; "host"; "hostip"; "port"; "proxy_timeout"; "protocol"; "user"; "destuser"].

(** the value of the last field of a passdb record that has this key *)
Fixpoint last_field_value (key : string) (fields : list string) : option string :=
  match fields with
  | [] => None
  | f :: fields' =>
      match last_field_value key fields' with
      | Some v => Some v
      | None =>
          if String.eqb (fst (field_key_value f)) key then Some (snd (field_key_value f))
          else None
      end
  end.

(** a string has none of the characters at which the literal scan stops *)
Fixpoint no_literal_stop (s : string) : bool :=
  match s with
  | EmptyString => true
  | String ch s' =>
      (negb (Ascii.eqb ch "]"%char || Ascii.eqb ch "\"%char || Ascii.eqb ch "["%char)
       && no_literal_stop s')%bool
  end.

(** a string has no '=' *)
Fixpoint no_equals (s : string) : bool :=
  match s with
  | EmptyString => true
  | String ch s' => (negb (Ascii.eqb ch "="%char) && no_equals s')%bool
  end.

(** what holds of a proxy session while it exists: there is an envelope,
    whose sender the session was given, the TTL of the client is above 1 and
    the session was created from the client's present identity and TTL *)
Definition proxy_session_inv (c : client) : Prop :=
  ∀ p, proxy c = Some p →
    is_Some (mail_from (state c))
    ∧ proxy_mail_from p = mail_from (state c)
    ∧ 1 < proxy_ttl c
    ∧ proxy_set p = proxy_session_settings c.

(** what holds between commands of a session that is not destroyed: local
    recipients only within an envelope, and no payload state *)
Definition between_commands_inv (c : client) : Prop :=
  (rcpt_to (state c) ≠ [] → is_Some (mail_from (state c)))
  ∧ (destroyed c = false →
     mail_data (state c) = None
     ∧ mail_data_output (state c) = None
     ∧ added_headers (state c) = None
     ∧ dot_input c = false).

(** an attribute of XCLIENT that makes the command fail: its name is one
    of the four and its text does not convert, or it is an ADDR attribute
    with the prefix "IPV6:" whose address is not of that family *)
Definition xclient_attr_invalid (L : library) (tmp : string) : Prop :=
  (strncasecmp_eq tmp "ADDR=" = true
   ∧ (net_addr2ip L (xclient_addr_text tmp) = None
      ∨ ∃ ip, net_addr2ip L (xclient_addr_text tmp) = Some ip
              ∧ strncasecmp_eq (str_skip 5 tmp) "IPV6:" = true
              ∧ family ip ≠ AF_INET6))
  ∨ (strncasecmp_eq tmp "PORT=" = true ∧ net_str2port L (str_skip 5 tmp) = None)
  ∨ (strncasecmp_eq tmp "TTL=" = true ∧ str_to_uint L (str_skip 4 tmp) = None)
  ∨ (strncasecmp_eq tmp "TIMEOUT=" = true ∧ str_to_uint L (str_skip 8 tmp) = None).

(** *** More sample sessions *)

(** a world in which the proxy does not take the recipient *)
Definition world_add_fails : world := world_of passdb1 any_user (-1).

(** a world whose TLS handshake fails *)
Definition world_handshake_fails : world :=
  {| master_service_name := "lmtp";
     auth_master_pass_lookup := λ username _, passdb1 username;
     mail_storage_service_lookup := λ input, any_user (in_username input);
     lmtp_proxy_add_rcpt := λ _ _, 0;
     anvil_query_pending := λ _, true;
     anvil_permits := λ _, true;
     master_service_ssl_init := inr "TLSv1.2";
     ssl_iostream_handshake := -1;
     ioloop_time := 0;
     local_delivery := λ _ _, [];
     proxy_delivery := λ _ _, [] |}.

(** the session of [client0] when the client is not trusted *)
Definition client_untrusted : client :=
  {| lhlo := lhlo (client0 5); ssl_iostream := None; trusted := false;
     ssl_enabled := true; proxy_ttl := 5; proxy_timeout_secs := 0;
     remote_ip := remote_ip (client0 5); remote_port := 40000;
     local_ip := local_ip (client0 5); local_port := 2424;
     my_domain := "mx.example.org"; recipient_delimiter := "+";
     temp_prefix := "/tmp/dovecot.lmtp.";
     lmtp_set := lmtp_set (client0 5); state := state (client0 5);
     proxy := None; dot_input := false; output := []; destroyed := false |}.

(** the session with two local recipients accepted *)
Definition client_local2 (ttl : Z) : client :=
  fst (cmd_rcpt lib0 world1 (client_local ttl) "TO:<v+d@local>").

(** the file system refuses the temp file *)
Definition io_no_tempfile : io_outcome :=
  {| io_mkstemp := None; io_unlink_ok := true; io_write_ok := true |}.

(** the temp file is created but its unlink fails *)
Definition io_unlink_fails : io_outcome :=
  {| io_mkstemp := Some ("mx.4711.1", 7); io_unlink_ok := false; io_write_ok := true |}.

(** a body whose second chunk exceeds the ceiling of 8 while the unlink of
    the temp file fails *)
Definition body_unlink_fails : list (io_outcome * list byte) :=
  [(io_fine, bytes_of "Hello"); (io_unlink_fails, bytes_of ", worl")].

(** MAIL, one local recipient, DATA with the body of three chunks *)
Definition session_delivery : list (world * command) :=
  [(world1, LHLO "client.example.org"); (world1, MAIL "FROM:<s@x>");
   (world1, RCPT "TO:<u@local>"); (world1, DATA body0 DotLine)].

(** XCLIENT with an address and a TTL, MAIL, one recipient routed to a
    proxy, NOOP *)
Definition session_proxied : list (world * command) :=
  [(world1, XCLIENT "ADDR=1.2.3.4 TTL=5"); (world1, MAIL "FROM:<s@x>");
   (world1, RCPT "TO:<p@x>"); (world1, NOOP)].

(** ** Effect of the handlers on the envelope *)

Section Envelope.

Variable L : library.
Variable MAX : Z.

Lemma fold_send_state (ls : list string) (c : client) :
  state (fold_left client_send_line ls c) = state c
  ∧ proxy (fold_left client_send_line ls c) = proxy c
  ∧ output (fold_left client_send_line ls c) = output c ++ ls.
Proof.
  revert c. induction ls as [|l ls IH]; intros c; simpl.
  - by rewrite app_nil_r.
  - destruct (IH (client_send_line c l)) as (-> & -> & ->).
    simpl. by rewrite <- app_assoc.
Qed.

Lemma envelope_step_refl (c c' : client) :
  state c' = state c → proxy c' = proxy c → envelope_step c c'.
Proof. intros Hs Hp. apply env_kept; by rewrite ?Hs. Qed.

Lemma client_proxy_rcpt_add_effect w c address set c' b :
  client_proxy_rcpt_add L w c address set = (c', b) →
  state c' = state c ∧ (proxy c' = proxy c ∨ rcpt_to (state c) = []) ∧ b = true.
Proof.
  unfold client_proxy_rcpt_add, array_count. intros H.
  destruct (rcpt_to (state c)) as [|r l] eqn:Hr; simpl in H.
  - repeat case_match; simplify_eq/=; auto.
  - simplify_eq/=. auto.
Qed.

Lemma client_proxy_rcpt_effect w c address username detail delim params c' b :
  client_proxy_rcpt L w c address username detail delim params = (c', b) →
  state c' = state c
  ∧ (proxy c' = proxy c ∨ (b = true ∧ rcpt_to (state c) = [])).
Proof.
  unfold client_proxy_rcpt. intros H.
  repeat case_match; simplify_eq/=; auto.
  all: match goal with
       | H : client_proxy_rcpt_add _ _ _ _ _ = _ |- _ =>
           apply client_proxy_rcpt_add_effect in H as (-> & [->| ->] & ->); auto
       end.
Qed.

Lemma cmd_rcpt_local_effect w c address params username detail :
  envelope_step c (fst (cmd_rcpt_local L w c address params username detail)).
Proof.
  unfold cmd_rcpt_local, cmd_rcpt_finish.
  repeat case_match; simpl; try (by apply envelope_step_refl).
  all: eapply env_added; simpl; eauto.
Qed.

Lemma cmd_rcpt_effect w c args :
  envelope_step c (fst (cmd_rcpt L w c args)).
Proof.
  unfold cmd_rcpt, cmd_rcpt_proxy.
  repeat case_match; simplify_eq/=; try (by apply envelope_step_refl).
  - match goal with
    | H : client_proxy_rcpt _ _ _ _ _ _ _ _ = _ |- _ =>
        apply client_proxy_rcpt_effect in H as (Hs & [Hp | [_ Hp]])
    end.
    + by apply envelope_step_refl.
    + apply env_cleared. by rewrite Hs.
  - match goal with
    | H : client_proxy_rcpt _ _ _ _ _ _ _ _ = _ |- _ =>
        apply client_proxy_rcpt_effect in H as (Hs & [Hp | [? _]]); [|done]
    end.
    match goal with
    | |- envelope_step _ (fst (cmd_rcpt_local ?L ?w ?c ?a ?p ?u ?d)) =>
        destruct (cmd_rcpt_local_effect w c a p u d) as [H1 | H1 H2 H3 | r H1 H2 H3 H4]
    end.
    + by apply env_cleared.
    + apply env_kept; congruence.
    + eapply env_added; try congruence.
      * rewrite H3. by rewrite Hs.
      * rewrite H4. by rewrite Hs.
  - apply cmd_rcpt_local_effect.
Qed.

Lemma client_state_reset_cleared (c : client) :
  rcpt_to (state (client_state_reset c)) = [] ∧ proxy (client_state_reset c) = None.
Proof. done. Qed.

Lemma cmd_lhlo_effect c args c' ret :
  cmd_lhlo L c args = Some (c', ret) → envelope_step c c'.
Proof.
  unfold cmd_lhlo. intros H.
  destruct args as [|a0 rest]; [simplify_eq; by apply envelope_step_refl|].
  destruct (lhlo_parse L (String a0 rest)) as [[r dom]|]; simplify_eq.
  apply env_cleared. cbn [with_lhlo state].
  by rewrite (proj1 (fold_send_state _ _)).
Qed.

Lemma cmd_starttls_effect w c : envelope_step c (fst (cmd_starttls w c)).
Proof.
  unfold cmd_starttls. repeat case_match; simpl; by apply envelope_step_refl.
Qed.

Lemma cmd_mail_effect w c args : envelope_step c (fst (cmd_mail L w c args)).
Proof.
  unfold cmd_mail.
  repeat case_match; simpl; try (by apply envelope_step_refl).
  by apply env_cleared.
Qed.

Lemma cmd_xclient_effect c args : envelope_step c (fst (cmd_xclient L c args)).
Proof.
  unfold cmd_xclient.
  repeat case_match; simpl; try (by apply envelope_step_refl).
  all: by apply env_cleared.
Qed.

Lemma cmd_data_effect w c :
  state_envelope_kept c (fst (cmd_data L w c)).
Proof.
  unfold cmd_data, state_envelope_kept. repeat case_match; simpl; auto.
Qed.

Lemma client_input_add_file_effect io c fs data c' fs' ret :
  client_input_add_file io c fs data = (c', fs', ret) → state_envelope_kept c c'.
Proof.
  unfold client_input_add_file, state_envelope_kept. intros H.
  repeat case_match; simplify_eq/=; auto.
Qed.

Lemma client_input_add_effect io c fs data c' fs' ret :
  client_input_add MAX io c fs data = (c', fs', ret) → state_envelope_kept c c'.
Proof.
  unfold client_input_add. intros H. case_match.
  - simplify_eq/=. by unfold state_envelope_kept.
  - by eapply client_input_add_file_effect.
Qed.

Lemma client_input_add_all_effect body c fs c' fs' ret :
  client_input_add_all MAX c fs body = (c', fs', ret) → state_envelope_kept c c'.
Proof.
  revert c fs. induction body as [|[io data] body IH]; intros c fs H; simpl in H.
  - simplify_eq. by unfold state_envelope_kept.
  - destruct (client_input_add MAX io c fs data) as [[c1 fs1] r1] eqn:Hadd.
    apply client_input_add_effect in Hadd as (H1 & H2 & H3).
    destruct (r1 <? 0).
    + simplify_eq. by unfold state_envelope_kept.
    + apply IH in H as (H4 & H5 & H6). unfold state_envelope_kept. split_and!; congruence.
Qed.

Lemma client_input_data_write_cleared w c :
  rcpt_to (state (client_input_data_write w c)) = [].
Proof. done. Qed.

Lemma client_input_data_handle_effect w c fs body fin c' fs' :
  client_input_data_handle MAX w c fs body fin = (c', fs') → envelope_step c c'.
Proof.
  unfold client_input_data_handle. intros H.
  destruct (client_input_add_all MAX c fs body) as [[c1 fs1] r1] eqn:Hall.
  apply client_input_add_all_effect in Hall as (H1 & H2 & H3).
  repeat case_match; simplify_eq/=; try (by apply env_kept).
  by apply env_cleared.
Qed.

Lemma step_effect w cmd c fs c' fs' :
  step L MAX w cmd (c, fs) = Some (c', fs') → envelope_step c c'.
Proof.
  unfold step. intros H. destruct (destroyed c).
  { simplify_eq. by apply envelope_step_refl. }
  destruct cmd; cbv beta iota in H; simplify_eq.
  - repeat case_match; simplify_eq. by eapply cmd_lhlo_effect.
  - apply cmd_starttls_effect.
  - apply cmd_mail_effect.
  - apply cmd_rcpt_effect.
  - destruct (cmd_data_effect w c) as (H1 & H2 & H3).
    case_match; simplify_eq.
    + match goal with
      | H : client_input_data_handle _ _ _ _ _ _ = _ |- _ =>
          apply client_input_data_handle_effect in H as [H4 | H4 H5 H6 | r H4 H5 H6 H7]
      end.
      * by apply env_cleared.
      * apply env_kept; congruence.
      * apply (env_added _ _ r); [congruence | congruence | by rewrite H6, H2 |].
        rewrite H7. unfold rcpt_session_id_for. by rewrite H1, H2.
    + by apply env_kept.
  - by apply env_cleared.
  - by apply envelope_step_refl.
  - by apply envelope_step_refl.
  - by apply envelope_step_refl.
  - apply cmd_xclient_effect.
Qed.

(** every property kept by each kind of change of the envelope holds along
    a session *)
Lemma run_preserves (P : client → Prop) :
  (∀ c c', envelope_step c c' → P c → P c') →
  ∀ trace m m', P (fst m) → run L MAX trace m = Some m' → P (fst m').
Proof.
  intros Hstep trace. induction trace as [|[w cmd] trace IH]; intros m m' HP H; simpl in H.
  - by simplify_eq.
  - destruct (step L MAX w cmd m) as [m1|] eqn:Hs; [|done].
    apply (IH m1 m'); [|done].
    destruct m as [c fs], m1 as [c1 fs1]. simpl.
    eapply Hstep; [by eapply step_effect | done].
Qed.

Lemma no_mix_step c c' : envelope_step c c' → no_mix c → no_mix c'.
Proof.
  unfold no_mix. intros [H1 | H1 H2 H3 | r H1 H2 H3 H4] Hc; [by left | | by right].
  rewrite H2, H3. done.
Qed.

Lemma no_mix_homogeneous c : no_mix c → homogeneous (envelope_routing c).
Proof.
  unfold no_mix, homogeneous, envelope_routing. intros [-> | ->].
  - right. intros r. simpl. destruct (proxy c); [|by intros ?%elem_of_nil].
    by intros (? & -> & _)%list_elem_of_fmap.
  - left. intros r. rewrite app_nil_r. by intros (? & -> & _)%list_elem_of_fmap.
Qed.

End Envelope.

(** ** Envelope routing *)

(** C1, as amended: along every session the accepted recipients are all
    local or all proxied.  A RCPT that passdb routes to a proxy, under the
    user name that was looked up or under a user name that passdb rewrote
    to a valid address, while a local recipient is in the envelope is
    refused and nothing is added; the reply is that of the loop test or of
    the TTL test when one of them refuses, since both come first, and the
    451 "mixed proxy/non-proxy destinations" otherwise.  A RCPT left to the
    local lookup and found there while a proxy session exists is refused
    with the same 451 and nothing is added. *)
Theorem envelope_routing_homogeneous (L : library) (MAX : Z) :
  (∀ trace m m',
      no_mix (fst m) → run L MAX trace m = Some m' →
      homogeneous (envelope_routing (fst m')))
  ∧ (∀ w c args address params username delim detail fields set username',
      is_Some (mail_from (state c)) →
      cmd_rcpt_parse L c args = inr (address, params, username, delim, detail) →
      lmtp_proxy_enabled (lmtp_set c) = true →
      auth_master_pass_lookup w username (pass_lookup_info w c) = PassFound fields →
      client_proxy_rcpt_parse_fields L (proxy_rcpt_defaults c params) fields username
        = (true, set, username') →
      username' = username ∨ is_Some (smtp_address_parse_username L username') →
      rcpt_to (state c) ≠ [] →
      ∃ reply,
        cmd_rcpt L w c args = (client_send_line c reply, 0)
        ∧ (reply = loops_to_itself_reply L address
           ∨ reply = ttl_reply username'
           ∨ ∃ address', reply = mixed_destinations_reply L address')
        ∧ (1 < proxy_ttl c →
           ¬ (username' = username ∧ client_proxy_is_ourself L c set = true) →
           ∃ address', reply = mixed_destinations_reply L address'
                       ∧ (username' = username → address' = address)))
  ∧ (∀ w c args address params username delim detail c1 user,
      is_Some (mail_from (state c)) →
      cmd_rcpt_parse L c args = inr (address, params, username, delim, detail) →
      cmd_rcpt_proxy L w c address params username delim detail = (c1, false) →
      mail_storage_service_lookup w
        (storage_input c1 username (rcpt_session_id_for (state c1))) = LookupFound user →
      is_Some (proxy c1) →
      cmd_rcpt L w c args = (client_send_line c1 (mixed_destinations_reply L address), 0)).
Proof.
  split_and!.
  - intros trace m m' Hm Hrun. apply no_mix_homogeneous.
    by eapply (run_preserves L MAX no_mix no_mix_step).
  - intros w c args address params username delim detail fields set username'
      [from Hfrom] Hparse Hen Hpass Hfields Huser Hrcpt.
    unfold cmd_rcpt, cmd_rcpt_proxy, client_proxy_rcpt.
    rewrite Hfrom, Hparse, Hen, Hpass, Hfields. cbn [negb].
    assert (Hcount : (array_count (rcpt_to (state c)) =? 0) = false).
    { unfold array_count. destruct (rcpt_to (state c)); [done|]. simpl. lia. }
    destruct (String.eqb_spec username' username) as [-> | Hne]; cbn [negb].
    + destruct (client_proxy_is_ourself L c set) eqn:Hself.
      { eexists. split; [done|]. split; [by left|]. intros _ Hn. by destruct Hn. }
      destruct (proxy_ttl c <=? 1) eqn:Httl.
      { eexists. split; [done|]. split; [by right; left|]. lia. }
      unfold client_proxy_rcpt_add. rewrite Hcount. cbn [negb].
      eexists. split; [done|]. split; [right; right; by eexists|].
      intros _ _. by eexists.
    + destruct Huser as [? | [user Huser]]; [done|]. rewrite Huser.
      destruct (proxy_ttl c <=? 1) eqn:Httl.
      { eexists. split; [done|]. split; [by right; left|]. lia. }
      unfold client_proxy_rcpt_add. rewrite Hcount. cbn [negb].
      eexists. split; [done|]. split; [right; right; by eexists|].
      intros _ _. by eexists.
  - intros w c args address params username delim detail c1 user
      [from Hfrom] Hparse Hproxy Hlookup [p Hp].
    unfold cmd_rcpt. rewrite Hfrom, Hparse, Hproxy.
    unfold cmd_rcpt_local. by rewrite Hlookup, Hp.
Qed.


(** a session with two local recipients, then one routed to a proxy: the
    envelope stays local; and the two refusals on sample sessions *)
Lemma envelope_routing_homogeneous_witness :
  (∃ m', run lib0 MAX0 (session_local "5") (machine0 5) = Some m'
         ∧ homogeneous (envelope_routing (fst m')))
  ∧ cmd_rcpt lib0 world1 (client_local 5) "TO:<p@x>"
    = (client_send_line (client_local 5)
         "451 4.3.0 <p@x> Can't handle mixed proxy/non-proxy destinations", 0)
  ∧ cmd_rcpt lib0 world1 (client_proxied 5) "TO:<u@local>"
    = (client_send_line (client_proxied 5)
         "451 4.3.0 <u@local> Can't handle mixed proxy/non-proxy destinations", 0).
Proof.
  destruct (envelope_routing_homogeneous lib0 MAX0) as (Hrun & Hproxy & Hlocal).
  split; [|split].
  - eexists. split; [vm_compute; reflexivity|].
    eapply (Hrun (session_local "5") (machine0 5));
      [left; vm_compute; reflexivity | vm_compute; reflexivity].
  - destruct (Hproxy world1 (client_local 5) "TO:<p@x>" (address_of "p" "x")
                no_rcpt_params "p@x" zero EmptyString
                ["proxy"; "host=10.0.0.2"]
                (set_with_host (proxy_rcpt_defaults (client_local 5) no_rcpt_params)
                   "10.0.0.2")
                "p@x")
      as (reply & Heq & _ & Hmixed).
    + vm_compute. eexists. reflexivity.
    + vm_compute. reflexivity.
    + vm_compute. reflexivity.
    + vm_compute. reflexivity.
    + vm_compute. reflexivity.
    + left. reflexivity.
    + vm_compute. discriminate.
    + destruct Hmixed as (address' & -> & Haddr).
      * vm_compute. reflexivity.
      * intros [_ Hself]. vm_compute in Hself. discriminate.
      * rewrite Heq, (Haddr eq_refl). vm_compute. reflexivity.
  - rewrite (Hlocal world1 (client_proxied 5) "TO:<u@local>" (address_of "u" "local")
             no_rcpt_params "u@local" zero EmptyString (client_proxied 5)
             {| su_username := "u@local";
                parsed_lmtp_hdr_delivery_address := LMTP_HDR_DELIVERY_ADDRESS_FINAL |}).
    + vm_compute. reflexivity.
    + vm_compute. eexists. reflexivity.
    + vm_compute. reflexivity.
    + vm_compute. reflexivity.
    + vm_compute. reflexivity.
    + vm_compute. eexists. reflexivity.
Defined.

(** C1 as stated fails: in a session whose TTL is 1, a RCPT routed to a
    proxy while a local recipient is in the envelope is answered by the TTL
    test, not by the 451 of mixed destinations. *)
Lemma envelope_routing_reply_counterexample :
  ∃ m', run lib0 MAX0 (session_local "1") (machine0 5) = Some m'
        ∧ map rcpt_address (rcpt_to (state (fst m')))
          = [address_of "u" "local"; address_of "v+d" "local"]
        ∧ last (output (fst m'))
          = Some "554 5.4.6 <p@x> Proxying appears to be looping (TTL=0)"
        ∧ last (output (fst m'))
          ≠ Some "451 4.3.0 <p@x> Can't handle mixed proxy/non-proxy destinations".
Proof.
  eexists. split; [vm_compute; reflexivity|].
  split; [vm_compute; reflexivity|]. split; [vm_compute; reflexivity|].
  vm_compute. discriminate.
Qed.

(** ** Recipient session ids *)

Lemma append_cons_neq (s t : string) (ch : ascii) : s ≠ s +:+ String ch t.
Proof. induction s as [|a s IH]; simpl; [done|]. intros [=]. by apply IH. Qed.

Lemma scheme_session_id_inj (base : string) : Inj (=) (=) (scheme_session_id base).
Proof.
  intros [|a] [|b] H; simpl in H; [done | | |].
  - by apply append_cons_neq in H.
  - symmetry in H. by apply append_cons_neq in H.
  - apply (inj (String.app base)) in H. apply (inj (String.app ":")) in H.
    apply (inj pretty) in H. lia.
Qed.

Lemma session_ids_inv_step (c c' : client) :
  envelope_step c c' → session_ids_inv (state c) → session_ids_inv (state c').
Proof.
  unfold session_ids_inv.
  intros [H1 | H1 H2 H3 | r H1 H2 H3 H4] Hinv k r' Hk.
  - by rewrite H1 in Hk.
  - rewrite H1. apply Hinv. by rewrite <- H2.
  - rewrite H1. rewrite H3 in Hk.
    destruct (decide (k < length (rcpt_to (state c)))%nat) as [Hlt | Hge].
    + rewrite lookup_app_l in Hk by done. by apply Hinv.
    + rewrite lookup_app_r in Hk by lia.
      destruct (k - length (rcpt_to (state c)))%nat as [|n] eqn:Hn; [|done].
      assert (k = length (rcpt_to (state c))) as -> by lia.
      simplify_eq/=. rewrite H4. done.
Qed.

Lemma session_ids_inv_scheme (st : client_state) :
  session_ids_inv st → array_count (rcpt_to st) < 2 ^ 32 →
  ∀ (k : nat) r, rcpt_to st !! k = Some r →
    rcpt_session_id r = scheme_session_id (session_id st) k.
Proof.
  intros Hinv Hlen k r Hk. rewrite (Hinv k r Hk).
  apply lookup_lt_Some in Hk. unfold array_count in Hlen.
  destruct k as [|k]; [done|].
  destruct (Z.eqb_spec (Z.of_nat (S k)) 0) as [? | _]; [lia|].
  unfold scheme_session_id, uint. rewrite Z.mod_small by lia.
  do 3 f_equal. lia.
Qed.

(** C7: along every session, the recipient accepted first in the envelope
    has the base session id and the k-th one, k from 2 on, has "base:k",
    for as many recipients as an unsigned int counts; so the session ids of
    the recipients of one delivery are pairwise distinct.  Index [k] counts
    from 0: it is recipient number [k + 1]. *)
Theorem recipient_session_ids (L : library) (MAX : Z) trace (m m' : machine) :
  rcpt_to (state (fst m)) = [] →
  run L MAX trace m = Some m' →
  array_count (rcpt_to (state (fst m'))) < 2 ^ 32 →
  (∀ (k : nat) r, rcpt_to (state (fst m')) !! k = Some r →
     rcpt_session_id r = scheme_session_id (session_id (state (fst m'))) k)
  ∧ NoDup (map rcpt_session_id (rcpt_to (state (fst m')))).
Proof.
  intros Hfresh Hrun Hlen.
  assert (Hinv : session_ids_inv (state (fst m'))).
  { eapply (run_preserves L MAX (λ c, session_ids_inv (state c))); [| |done].
    - apply session_ids_inv_step.
    - intros k r. by rewrite Hfresh. }
  pose proof (session_ids_inv_scheme _ Hinv Hlen) as Hscheme.
  split; [done|].
  apply NoDup_alt. intros i j x Hi Hj.
  rewrite list_lookup_fmap in Hi, Hj.
  destruct (rcpt_to (state m'.1) !! i) as [ri|] eqn:Hri; [|done].
  destruct (rcpt_to (state m'.1) !! j) as [rj|] eqn:Hrj; [|done].
  simplify_eq/=.
  apply (scheme_session_id_inj (session_id (state m'.1))).
  rewrite <- (Hscheme i ri Hri), <- (Hscheme j rj Hrj). done.
Qed.

(** two local recipients in a session whose id is "abc" *)
Lemma recipient_session_ids_witness :
  ∃ m', run lib0 MAX0 (session_local "5") (machine0 5) = Some m'
        ∧ map rcpt_session_id (rcpt_to (state (fst m'))) = ["abc"; "abc:2"]
        ∧ (∀ (k : nat) r, rcpt_to (state (fst m')) !! k = Some r →
             rcpt_session_id r = scheme_session_id (session_id (state (fst m'))) k)
        ∧ NoDup (map rcpt_session_id (rcpt_to (state (fst m')))).
Proof.
  eexists. split; [vm_compute; reflexivity|]. split; [vm_compute; reflexivity|].
  apply (recipient_session_ids lib0 MAX0 (session_local "5") (machine0 5)).
  - vm_compute. reflexivity.
  - vm_compute. reflexivity.
  - vm_compute. reflexivity.
Defined.

(** ** DATA *)

(** C2, as amended: DATA without an envelope is answered "503 5.5.1 MAIL
    needed first"; with an envelope, no local recipient and no proxy session
    it is answered "554 5.5.1 No valid recipients"; in both cases nothing but
    the reply changes, so no payload state is created.  With an envelope and
    an accepted recipient, local or proxied, it is answered "354 OK" and the
    payload state is created; and it is answered so only when an envelope
    exists together with a local recipient or a proxy session. *)
Theorem cmd_data_replies (L : library) (w : world) (c : client) :
  (mail_from (state c) = None →
     cmd_data L w c = (client_send_line c "503 5.5.1 MAIL needed first", 0))
  ∧ (is_Some (mail_from (state c)) → rcpt_to (state c) = [] → proxy c = None →
     cmd_data L w c = (client_send_line c "554 5.5.1 No valid recipients", 0))
  ∧ (is_Some (mail_from (state c)) →
     rcpt_to (state c) ≠ [] ∨ (∃ p, proxy c = Some p ∧ proxy_rcpt_to p ≠ []) →
     ∃ c', cmd_data L w c = (c', -1)
           ∧ output c' = output c ++ ["354 OK"]
           ∧ mail_data (state c') = Some []
           ∧ added_headers (state c') = Some (client_get_added_headers L w c))
  ∧ (last (output (fst (cmd_data L w c))) = Some "354 OK" →
     is_Some (mail_from (state c))
     ∧ (rcpt_to (state c) ≠ [] ∨ is_Some (proxy c))).
Proof.
  unfold cmd_data, array_count. split_and!.
  - by intros ->.
  - intros [from ->] -> ->. done.
  - intros [from ->] Hrcpt.
    assert (((Z.of_nat (length (rcpt_to (state c))) =? 0) && is_null (proxy c))%bool
            = false) as ->.
    { destruct Hrcpt as [Hr | (p & -> & _)].
      - destruct (rcpt_to (state c)); [done|]. simpl. lia.
      - apply andb_false_r. }
    eexists. split; [done|]. done.
  - destruct (mail_from (state c)) as [from|].
    + destruct (rcpt_to (state c)) as [|r l]; simpl.
      * destruct (proxy c) as [p|]; simpl.
        -- intros _. split; [by eexists | right; by eexists].
        -- rewrite last_snoc. intros [=].
      * intros _. split; [by eexists | by left].
    + simpl. rewrite last_snoc. intros [=].
Qed.

(** the three replies on sample sessions: no envelope, no recipient, one
    local recipient *)
Lemma cmd_data_replies_witness :
  cmd_data lib0 world1 (client0 5)
    = (client_send_line (client0 5) "503 5.5.1 MAIL needed first", 0)
  ∧ cmd_data lib0 world1 (client_mail 5)
    = (client_send_line (client_mail 5) "554 5.5.1 No valid recipients", 0)
  ∧ (∃ c', cmd_data lib0 world1 (client_local 5) = (c', -1)
           ∧ output c' = output (client_local 5) ++ ["354 OK"]
           ∧ mail_data (state c') = Some []
           ∧ added_headers (state c')
             = Some (client_get_added_headers lib0 world1 (client_local 5)))
  ∧ is_Some (mail_from (state (client_local 5)))
  ∧ (rcpt_to (state (client_local 5)) ≠ [] ∨ is_Some (proxy (client_local 5))).
Proof.
  split; [|split; [|split]].
  - apply (cmd_data_replies lib0 world1 (client0 5)). vm_compute. reflexivity.
  - apply (cmd_data_replies lib0 world1 (client_mail 5)).
    + vm_compute. eexists. reflexivity.
    + vm_compute. reflexivity.
    + vm_compute. reflexivity.
  - apply (cmd_data_replies lib0 world1 (client_local 5)).
    + vm_compute. eexists. reflexivity.
    + left. vm_compute. discriminate.
  - apply (cmd_data_replies lib0 world1 (client_local 5)).
    vm_compute. reflexivity.
Defined.

(** C2 as stated fails: without an envelope the reply of DATA is the 503 of
    "MAIL needed first", not "554 5.5.1 No valid recipients". *)
Lemma cmd_data_no_envelope_counterexample :
  mail_from (state (client0 5)) = None
  ∧ output (fst (cmd_data lib0 world1 (client0 5))) = ["503 5.5.1 MAIL needed first"]
  ∧ output (fst (cmd_data lib0 world1 (client0 5))) ≠ ["554 5.5.1 No valid recipients"].
Proof.
  split; [vm_compute; reflexivity|]. split; [vm_compute; reflexivity|].
  vm_compute. discriminate.
Qed.

(** ** Proxy TTL *)

Lemma client_proxy_rcpt_add_first (L : library) (w : world) (c : client)
    (address : smtp_address) (set : lmtp_proxy_rcpt_settings) :
  rcpt_to (state c) = [] → proxy c = None → 2 ≤ proxy_ttl c < 2 ^ 32 →
  ∃ c' p,
    client_proxy_rcpt_add L w c address set = (c', true)
    ∧ proxy c' = Some p
    ∧ ps_proxy_ttl (proxy_set p) = proxy_ttl c - 1
    ∧ (0 ≤ lmtp_proxy_add_rcpt w address set →
       proxy_rcpt_to p = [(address, set)]
       ∧ output c' = output c ++ ["250 2.1.5 OK"]).
Proof.
  intros Hrcpt Hproxy Httl.
  assert (Hseed : uint (proxy_ttl c - 1) = proxy_ttl c - 1).
  { unfold uint. apply Z.mod_small. lia. }
  unfold client_proxy_rcpt_add, array_count. rewrite Hrcpt, Hproxy.
  cbn [length Z.of_nat Z.eqb negb].
  destruct (Z.ltb_spec (lmtp_proxy_add_rcpt w address set) 0).
  - eexists _, _. split; [done|]. split; [done|].
    cbn [proxy_set lmtp_proxy_mail_from lmtp_proxy_init ps_proxy_ttl
           proxy_session_settings].
    split; [done | lia].
  - eexists _, _. split; [done|]. split; [done|].
    cbn [proxy_set lmtp_proxy_mail_from lmtp_proxy_init ps_proxy_ttl
           proxy_session_settings lmtp_proxy_rcpt_added].
    split; [done | done].
Qed.

(** C3, as amended: a RCPT that passdb routes to a proxy and that the tests
    made before the TTL test let pass (the target is not this server, or
    the user name was rewritten to a valid address) fails when the session's
    proxy_ttl is at most 1, with "554 5.4.6 <name> Proxying appears to be
    looping (TTL=0)", [name] being the user name the lookup ended with, and
    nothing is added.  When proxy_ttl is at least 2 and the RCPT creates the
    proxy session, the session is seeded with proxy_ttl - 1, which is less
    than the inbound TTL. *)
Theorem proxy_ttl_discipline (L : library) (w : world) (c : client) args
    address params username delim detail fields set username' address' :
  is_Some (mail_from (state c)) →
  cmd_rcpt_parse L c args = inr (address, params, username, delim, detail) →
  lmtp_proxy_enabled (lmtp_set c) = true →
  auth_master_pass_lookup w username (pass_lookup_info w c) = PassFound fields →
  client_proxy_rcpt_parse_fields L (proxy_rcpt_defaults c params) fields username
    = (true, set, username') →
  (username' = username ∧ client_proxy_is_ourself L c set = false ∧ address' = address)
  ∨ (username' ≠ username
     ∧ ∃ user, smtp_address_parse_username L username' = Some user
               ∧ address' = rewritten_address L user detail delim) →
  (proxy_ttl c ≤ 1 →
     cmd_rcpt L w c args = (client_send_line c (ttl_reply username'), 0))
  ∧ (2 ≤ proxy_ttl c < 2 ^ 32 → rcpt_to (state c) = [] → proxy c = None →
     ∃ c' p,
       cmd_rcpt L w c args = (c', 0)
       ∧ proxy c' = Some p
       ∧ ps_proxy_ttl (proxy_set p) = proxy_ttl c - 1
       ∧ ps_proxy_ttl (proxy_set p) < proxy_ttl c
       ∧ (0 ≤ lmtp_proxy_add_rcpt w address' set →
          proxy_rcpt_to p = [(address', set)]
          ∧ output c' = output c ++ ["250 2.1.5 OK"])).
Proof.
  intros [from Hfrom] Hparse Hen Hpass Hfields Hchecked.
  unfold cmd_rcpt, cmd_rcpt_proxy, client_proxy_rcpt.
  rewrite Hfrom, Hparse, Hen, Hpass, Hfields. cbn [negb].
  assert (Htail :
    (proxy_ttl c ≤ 1 →
       (let '(c1, answered) :=
          if proxy_ttl c <=? 1 then (client_send_line c (ttl_reply username'), true)
          else client_proxy_rcpt_add L w c address' set in
        if answered then (c1, 0)
        else cmd_rcpt_local L w c1 address params username detail)
       = (client_send_line c (ttl_reply username'), 0))
    ∧ (2 ≤ proxy_ttl c < 2 ^ 32 → rcpt_to (state c) = [] → proxy c = None →
       ∃ c' p,
         (let '(c1, answered) :=
            if proxy_ttl c <=? 1 then (client_send_line c (ttl_reply username'), true)
            else client_proxy_rcpt_add L w c address' set in
          if answered then (c1, 0)
          else cmd_rcpt_local L w c1 address params username detail) = (c', 0)
         ∧ proxy c' = Some p
         ∧ ps_proxy_ttl (proxy_set p) = proxy_ttl c - 1
         ∧ ps_proxy_ttl (proxy_set p) < proxy_ttl c
         ∧ (0 ≤ lmtp_proxy_add_rcpt w address' set →
            proxy_rcpt_to p = [(address', set)]
            ∧ output c' = output c ++ ["250 2.1.5 OK"]))).
  { split.
    - intros Httl. by destruct (Z.leb_spec (proxy_ttl c) 1); [|lia].
    - intros Httl Hrcpt Hproxy.
      destruct (Z.leb_spec (proxy_ttl c) 1); [lia|].
      destruct (client_proxy_rcpt_add_first L w c address' set Hrcpt Hproxy Httl)
        as (c' & p & -> & Hp & Hseed & Hadd).
      exists c', p. split_and!; [done | done | done | lia | done]. }
  destruct Hchecked as [(-> & Hself & ->) | (Hne & user & Huser & ->)].
  - rewrite String.eqb_refl, Hself. exact Htail.
  - destruct (String.eqb_spec username' username); [done|].
    cbn [negb]. rewrite Huser. exact Htail.
Qed.

(** [p@x] is routed to 10.0.0.2: refused when the TTL is 1, and the proxy
    session gets TTL 4 when it is 5 *)
Lemma proxy_ttl_discipline_witness :
  cmd_rcpt lib0 world1 (client_mail 1) "TO:<p@x>"
    = (client_send_line (client_mail 1)
         "554 5.4.6 <p@x> Proxying appears to be looping (TTL=0)", 0)
  ∧ ∃ c' p,
      cmd_rcpt lib0 world1 (client_mail 5) "TO:<p@x>" = (c', 0)
      ∧ proxy c' = Some p
      ∧ ps_proxy_ttl (proxy_set p) = 4
      ∧ ps_proxy_ttl (proxy_set p) < 5.
Proof.
  split.
  - apply (proxy_ttl_discipline lib0 world1 (client_mail 1) "TO:<p@x>"
             (address_of "p" "x") no_rcpt_params "p@x" zero EmptyString
             ["proxy"; "host=10.0.0.2"]
             (set_with_host (proxy_rcpt_defaults (client_mail 1) no_rcpt_params)
                "10.0.0.2")
             "p@x" (address_of "p" "x")).
    + vm_compute. eexists. reflexivity.
    + vm_compute. reflexivity.
    + vm_compute. reflexivity.
    + vm_compute. reflexivity.
    + vm_compute. reflexivity.
    + left. split; [reflexivity|]. split; [vm_compute; reflexivity | reflexivity].
    + vm_compute. discriminate.
  - destruct (proxy_ttl_discipline lib0 world1 (client_mail 5) "TO:<p@x>"
                (address_of "p" "x") no_rcpt_params "p@x" zero EmptyString
                ["proxy"; "host=10.0.0.2"]
                (set_with_host (proxy_rcpt_defaults (client_mail 5) no_rcpt_params)
                   "10.0.0.2")
                "p@x" (address_of "p" "x")) as [_ Hseed].
    + vm_compute. eexists. reflexivity.
    + vm_compute. reflexivity.
    + vm_compute. reflexivity.
    + vm_compute. reflexivity.
    + vm_compute. reflexivity.
    + left. split; [reflexivity|]. split; [vm_compute; reflexivity | reflexivity].
    + destruct Hseed as (c' & p & H1 & H2 & H3 & H4 & _).
      * split; vm_compute; [discriminate | reflexivity].
      * vm_compute. reflexivity.
      * vm_compute. reflexivity.
      * exists c', p. split_and!; [exact H1 | exact H2 | exact H3 | exact H4].
Defined.

(** C3 as stated fails: with TTL 1, a RCPT that passdb routes to this
    server's own address and port is answered by the loop test, which comes
    first, not by the TTL reply. *)
Lemma proxy_ttl_reply_counterexample :
  proxy_ttl (client_mail 1) = 1
  ∧ output (fst (cmd_rcpt lib0 world1 (client_mail 1) "TO:<self@x>"))
    = output (client_mail 1) ++ ["554 5.4.6 <self@x> Proxying loops to itself"]
  ∧ output (fst (cmd_rcpt lib0 world1 (client_mail 1) "TO:<self@x>"))
    ≠ output (client_mail 1)
      ++ ["554 5.4.6 <self@x> Proxying appears to be looping (TTL=0)"].
Proof.
  split; [vm_compute; reflexivity|]. split; [vm_compute; reflexivity|].
  vm_compute. discriminate.
Qed.

(** the TTL reply names the user name that was looked up: for the recipient
    address p+d@x it is p@x *)
Lemma ttl_reply_names_username :
  cmd_rcpt lib0 world1 (client_mail 1) "TO:<p+d@x>"
  = (client_send_line (client_mail 1)
       "554 5.4.6 <p@x> Proxying appears to be looping (TTL=0)", 0).
Proof. vm_compute. reflexivity. Qed.

(** ** Loop detection *)

Lemma net_ip_compare_eq (a b : ip_addr) : net_ip_compare a b = true ↔ a = b.
Proof.
  unfold net_ip_compare. destruct a as [fa ba], b as [fb bb]. simpl. split.
  - intros [H1 H2]%andb_true_iff. f_equal; lia.
  - intros [= -> ->]. by rewrite !Z.eqb_refl.
Qed.

(** the target is this server: same port, and the address of the target is
    the local address *)
Lemma client_proxy_is_ourself_spec (L : library) (c : client)
    (set : lmtp_proxy_rcpt_settings) :
  client_proxy_is_ourself L c set = true
  ↔ set_port set = local_port c ∧ proxy_target_ip L set = Some (local_ip c).
Proof.
  unfold client_proxy_is_ourself.
  destruct (Z.eqb_spec (set_port set) (local_port c)) as [Hp | Hp]; cbn [negb].
  - destruct (proxy_target_ip L set) as [ip|].
    + rewrite net_ip_compare_eq. split; [by intros -> | by intros [_ [= ->]]].
    + split; [done | by intros [_ [=]]].
  - split; [done | by intros [? _]].
Qed.

(** C4, as amended: a RCPT whose passdb record enables proxying and leaves
    the user name as it is fails with "554 5.4.6 <addr> Proxying loops to
    itself" when the target of the record, its port and its hostip when
    given else its host read as an IP address, is this server's own local
    address and port; nothing is added. *)
Theorem proxy_loop_detection (L : library) (w : world) (c : client) args
    address params username delim detail fields set :
  is_Some (mail_from (state c)) →
  cmd_rcpt_parse L c args = inr (address, params, username, delim, detail) →
  lmtp_proxy_enabled (lmtp_set c) = true →
  auth_master_pass_lookup w username (pass_lookup_info w c) = PassFound fields →
  client_proxy_rcpt_parse_fields L (proxy_rcpt_defaults c params) fields username
    = (true, set, username) →
  set_port set = local_port c →
  proxy_target_ip L set = Some (local_ip c) →
  cmd_rcpt L w c args = (client_send_line c (loops_to_itself_reply L address), 0).
Proof.
  intros [from Hfrom] Hparse Hen Hpass Hfields Hport Hip.
  assert (Hself : client_proxy_is_ourself L c set = true).
  { by apply client_proxy_is_ourself_spec. }
  unfold cmd_rcpt, cmd_rcpt_proxy, client_proxy_rcpt.
  rewrite Hfrom, Hparse, Hen, Hpass, Hfields. cbn [negb].
  by rewrite String.eqb_refl, Hself.
Qed.

(** passdb sends [self@x] to 10.0.0.1 port 2424, which is this server *)
Lemma proxy_loop_detection_witness :
  cmd_rcpt lib0 world1 (client_mail 5) "TO:<self@x>"
  = (client_send_line (client_mail 5) "554 5.4.6 <self@x> Proxying loops to itself", 0).
Proof.
  apply (proxy_loop_detection lib0 world1 (client_mail 5) "TO:<self@x>"
           (address_of "self" "x") no_rcpt_params "self@x" zero EmptyString
           ["proxy"; "host=10.0.0.1"; "port=2424"]
           (set_with_port
              (set_with_host (proxy_rcpt_defaults (client_mail 5) no_rcpt_params)
                 "10.0.0.1") 2424)).
  - vm_compute. eexists. reflexivity.
  - vm_compute. reflexivity.
  - vm_compute. reflexivity.
  - vm_compute. reflexivity.
  - vm_compute. reflexivity.
  - vm_compute. reflexivity.
  - vm_compute. reflexivity.
Defined.

(** C4 as stated fails for a record that rewrites the user name: passdb
    sends [moved@x] to this server's own address and port as user
    [other@x], and the recipient is accepted for proxying. *)
Lemma proxy_loop_rewritten_counterexample :
  ∃ set,
    client_proxy_rcpt_parse_fields lib0
      (proxy_rcpt_defaults (client_mail 5) no_rcpt_params)
      ["proxy"; "host=10.0.0.1"; "port=2424"; "user=other@x"] "moved@x"
    = (true, set, "other@x")
    ∧ set_port set = local_port (client_mail 5)
    ∧ proxy_target_ip lib0 set = Some (local_ip (client_mail 5))
    ∧ output (fst (cmd_rcpt lib0 world1 (client_mail 5) "TO:<moved@x>"))
      = output (client_mail 5) ++ ["250 2.1.5 OK"]
    ∧ option_map (λ p, map fst (proxy_rcpt_to p))
        (proxy (fst (cmd_rcpt lib0 world1 (client_mail 5) "TO:<moved@x>")))
      = Some [address_of "other" "x"].
Proof.
  eexists. split; [vm_compute; reflexivity|].
  split; [vm_compute; reflexivity|]. split; [vm_compute; reflexivity|].
  split; vm_compute; reflexivity.
Qed.

(** ** Proxy target defaults *)





(** ** Payload sink *)

Section Sink.

Variable MAX : Z.

Local Arguments array_count : simpl never.

Lemma array_count_app {A} (l1 l2 : list A) :
  array_count (l1 ++ l2) = array_count l1 + array_count l2.
Proof. unfold array_count. rewrite length_app. lia. Qed.

Lemma array_count_nonneg {A} (l : list A) : 0 ≤ array_count l.
Proof. unfold array_count. lia. Qed.

Lemma mail_data_buf_payload st h d :
  mail_data_buf (st_with_payload st h (Some d)) = d.
Proof. done. Qed.

(** one successful [client_input_add] *)
Lemma client_input_add_ok io c fs data c' fs' :
  client_input_add MAX io c fs data = (c', fs', 0) →
  sink_ok MAX c fs →
  array_count data + MAX < 2 ^ 64 →
  sink_ok MAX c' fs'
  ∧ sink_bytes (state c') = sink_bytes (state c) ++ data
  ∧ added_headers (state c') = added_headers (state c)
  ∧ temp_prefix c' = temp_prefix c
  ∧ (mail_data_output (state c') = None →
     fs' = fs ∧ mail_data_output (state c) = None
     ∧ mail_data (state c') = Some (mail_data_buf (state c) ++ data))
  ∧ (∀ o, mail_data_output (state c) = Some o →
     ∃ o', mail_data_output (state c') = Some o'
           ∧ os_fd o' = os_fd o ∧ os_name o' = os_name o).
Proof.
  unfold client_input_add, client_input_add_file, sink_ok, sink_bytes, size_add.
  intros H Hok Hsize.
  pose proof (array_count_nonneg data) as Hd.
  pose proof (array_count_nonneg (mail_data_buf (state c))) as Hb.
  destruct (mail_data_output (state c)) as [o|] eqn:Ho.
  - rewrite andb_false_r in H. destruct Hok as (Hfd & Hlen & Hname & Hpre).
    destruct (io_write_ok io); simplify_eq/=.
    rewrite array_count_app. split_and!; try done; try lia.
    intros o' [= <-]. by eexists.
  - destruct Hok as (Hsome & Hlen). rewrite andb_true_r in H.
    rewrite Z.mod_small in H by lia.
    destruct (Z.leb_spec (array_count (mail_data_buf (state c)) + array_count data) MAX).
    + simplify_eq/=. rewrite Ho, !mail_data_buf_payload, array_count_app.
      split_and!; try done.
    + destruct (io_mkstemp io) as [[suffix fd]|]; [|done].
      destruct (io_unlink_ok io); [|done].
      destruct (io_write_ok io); simplify_eq/=.
      rewrite array_count_app. split_and!; try done.
      * rewrite elem_of_difference, elem_of_singleton. by intros [_ ?].
      * by eexists.
Qed.

(** a run of successful [client_input_add] *)
Lemma client_input_add_all_ok body :
  ∀ c fs c' fs',
    client_input_add_all MAX c fs body = (c', fs', 0) →
    sink_ok MAX c fs →
    Forall (λ chunk, array_count (snd chunk) + MAX < 2 ^ 64) body →
    sink_ok MAX c' fs'
    ∧ sink_bytes (state c') = sink_bytes (state c) ++ body_bytes body
    ∧ added_headers (state c') = added_headers (state c)
    ∧ temp_prefix c' = temp_prefix c
    ∧ (mail_data_output (state c') = None →
       fs' = fs ∧ mail_data_output (state c) = None
       ∧ mail_data (state c') = Some (mail_data_buf (state c) ++ body_bytes body))
    ∧ (∀ o, mail_data_output (state c) = Some o →
       ∃ o', mail_data_output (state c') = Some o'
             ∧ os_fd o' = os_fd o ∧ os_name o' = os_name o).
Proof.
  unfold body_bytes.
  induction body as [|[io data] body IH]; intros c fs c' fs' H Hok Hall.
  - simpl in H. simplify_eq. simpl. rewrite !app_nil_r.
    split_and!; try done.
    + intros Ho. unfold sink_ok in Hok. rewrite Ho in Hok.
      destruct Hok as [[d Hd] _]. unfold mail_data_buf. by rewrite Hd.
    + intros o Ho. by eexists.
  - simpl in H.
    destruct (client_input_add MAX io c fs data) as [[c1 fs1] r1] eqn:Hadd.
    apply Forall_cons in Hall as [Hdata Hall]. simpl in Hdata.
    destruct (Z.ltb_spec r1 0) as [Hr | Hr]; [simplify_eq; lia|].
    assert (r1 = 0) as ->.
    { revert Hadd. unfold client_input_add, client_input_add_file.
      intros Hadd. repeat case_match; simplify_eq; lia. }
    apply client_input_add_ok in Hadd as (Hok1 & Hb1 & Hh1 & Ht1 & Hn1 & Hs1); [|done..].
    apply IH in H as (Hok2 & Hb2 & Hh2 & Ht2 & Hn2 & Hs2); [|done..].
    simpl. split_and!; try done; try congruence.
    + rewrite Hb2, Hb1. by rewrite <- app_assoc.
    + intros Ho. destruct (Hn2 Ho) as (-> & Ho1 & Hd2).
      destruct (Hn1 Ho1) as (-> & Ho0 & Hd1).
      split_and!; try done. rewrite Hd2. unfold mail_data_buf at 1. rewrite Hd1.
      by rewrite <- app_assoc.
    + intros o Ho. destruct (Hs1 o Ho) as (o1 & Ho1 & Hfd1 & Hnm1).
      destruct (Hs2 o1 Ho1) as (o2 & Ho2 & Hfd2 & Hnm2).
      exists o2. split_and!; congruence.
Qed.

Lemma client_input_add_all_app b1 :
  ∀ b2 c fs c1 fs1,
    client_input_add_all MAX c fs b1 = (c1, fs1, 0) →
    client_input_add_all MAX c fs (b1 ++ b2) = client_input_add_all MAX c1 fs1 b2.
Proof.
  induction b1 as [|[io data] b1 IH]; intros b2 c fs c1 fs1 H; simpl in *.
  - by simplify_eq.
  - destruct (client_input_add MAX io c fs data) as [[c' fs'] r].
    destruct (Z.ltb_spec r 0); [simplify_eq; lia | by eapply IH].
Qed.

(** whatever the file system does, a spill file is unlinked *)
Lemma client_input_add_unlinked io c fs data c' fs' ret :
  client_input_add MAX io c fs data = (c', fs', ret) →
  spill_unlinked c fs →
  spill_unlinked c' fs' ∧ temp_prefix c' = temp_prefix c.
Proof.
  unfold client_input_add, client_input_add_file, spill_unlinked.
  intros H Hinv.
  destruct (mail_data_output (state c)) as [o|] eqn:Ho.
  - rewrite andb_false_r in H. destruct (Hinv o eq_refl) as [Hname Hpre].
    destruct (io_write_ok io); simplify_eq/=.
    + split; [|done]. by intros o' [= <-].
    + split; [|done]. rewrite Ho. by intros o' [= <-].
  - rewrite andb_true_r in H. case_match.
    + simplify_eq/=. split; [|done]. by rewrite Ho.
    + destruct (io_mkstemp io) as [[suffix fd]|].
      * destruct (io_unlink_ok io).
        -- assert (Hgone : temp_prefix c +:+ suffix
                           ∉ ({[temp_prefix c +:+ suffix]} ∪ fs)
                             ∖ {[temp_prefix c +:+ suffix]}).
           { rewrite elem_of_difference, elem_of_singleton. by intros [_ ?]. }
           destruct (io_write_ok io); simplify_eq/=.
           ++ split; [|done]. intros o' [= <-]. split; [done | by eexists].
           ++ split; [|done]. intros o' [= <-]. split; [done | by eexists].
        -- simplify_eq/=. split; [|done]. by rewrite Ho.
      * simplify_eq/=. split; [|done]. by rewrite Ho.
Qed.

Lemma client_input_add_all_unlinked body :
  ∀ c fs c' fs' ret,
    client_input_add_all MAX c fs body = (c', fs', ret) →
    spill_unlinked c fs →
    spill_unlinked c' fs' ∧ temp_prefix c' = temp_prefix c.
Proof.
  induction body as [|[io data] body IH]; intros c fs c' fs' ret H Hinv; simpl in H.
  - by simplify_eq.
  - destruct (client_input_add MAX io c fs data) as [[c1 fs1] r1] eqn:Hadd.
    apply client_input_add_unlinked in Hadd as [Hinv1 Hpre1]; [|done].
    destruct (r1 <? 0).
    + by simplify_eq.
    + apply IH in H as [Hinv2 Hpre2]; [|done]. split; [done | congruence].
Qed.

End Sink.

(** the first append that exceeds the ceiling, whatever the file system
    does: the temp file is created under the prefix and unlinked at once *)
Lemma client_input_add_spill (MAX : Z) io c fs data :
  mail_data_output (state c) = None →
  array_count (mail_data_buf (state c)) ≤ MAX →
  MAX < array_count (mail_data_buf (state c)) + array_count data →
  array_count data + MAX < 2 ^ 64 →
  (io_mkstemp io = None → client_input_add MAX io c fs data = (c, fs, -1))
  ∧ (∀ suffix fd, io_mkstemp io = Some (suffix, fd) →
       (io_unlink_ok io = false →
          client_input_add MAX io c fs data = (c, {[temp_prefix c +:+ suffix]} ∪ fs, -1))
       ∧ (io_unlink_ok io = true →
          ∃ c2, client_input_add MAX io c fs data
                = (c2, ({[temp_prefix c +:+ suffix]} ∪ fs) ∖ {[temp_prefix c +:+ suffix]},
                   if io_write_ok io then 0 else -1)
                ∧ mail_data_output (state c2)
                  = Some {| os_fd := fd; os_name := temp_prefix c +:+ suffix;
                            os_sent := mail_data_buf (state c) ++ data |}
                ∧ mail_data_fd (state c2) = fd
                ∧ mail_data (state c2) = mail_data (state c))).
Proof.
  intros Ho Hbuf Hgt Hsize.
  pose proof (array_count_nonneg data) as Hd.
  pose proof (array_count_nonneg (mail_data_buf (state c))) as Hb.
  unfold client_input_add, client_input_add_file, size_add.
  rewrite Ho, Z.mod_small by lia.
  destruct (Z.leb_spec (array_count (mail_data_buf (state c)) + array_count data) MAX);
    [lia|].
  cbn [andb]. split.
  - by intros ->.
  - intros suffix fd ->. split.
    + by intros ->.
    + intros ->. cbn [negb].
      destruct (io_write_ok io); eexists; (split; [reflexivity|]); done.
Qed.

(** C6, as amended: for a DATA body, starting from the empty buffer that
    [cmd_data] creates.  Whatever the file system does, a spill file of the
    sink has its name under the temp prefix and no name in the file system.
    When all the chunks are added successfully: while the bytes added so far
    are within the ceiling they are in the in-memory buffer and the file
    system is untouched; once they exceed it they are in a spill file, the
    buffer contents first and the chunks after it in order; from a point
    where the sink is a spill file on, every later chunk is appended to that
    same file; and the stream handed to delivery is the added headers
    followed by the bytes of all the chunks in order.  At the first chunk
    that exceeds the ceiling a temp file is created under the temp prefix
    and unlinked at once: when it cannot be created the append fails and
    nothing changes; when the unlink fails the append fails, no spill file
    is set up and the name of the created file stays in the file system;
    when the unlink succeeds the file system has the names of creating the
    file and then unlinking it, and the spill file has the descriptor and
    the name of that file and holds the buffer contents followed by the
    chunk, the append failing only when the write does.  A later chunk
    whose write fails makes the append fail and leaves the sink as it is.
    The size hypothesis keeps the size_t sum of the test from wrapping. *)
Theorem payload_spill_policy (MAX : Z) (c : client) (fs : gset string)
    (body : list (io_outcome * list byte)) :
  0 ≤ MAX →
  mail_data (state c) = Some [] →
  mail_data_output (state c) = None →
  Forall (λ chunk, array_count (snd chunk) + MAX < 2 ^ 64) body →
  (∀ c' fs' ret o,
     client_input_add_all MAX c fs body = (c', fs', ret) →
     mail_data_output (state c') = Some o →
     (os_name o ∉ fs') ∧ (∃ suffix, os_name o = temp_prefix c +:+ suffix))
  ∧ (∀ c' fs',
     client_input_add_all MAX c fs body = (c', fs', 0) →
     (array_count (body_bytes body) ≤ MAX →
        mail_data_output (state c') = None
        ∧ mail_data (state c') = Some (body_bytes body)
        ∧ fs' = fs)
     ∧ (MAX < array_count (body_bytes body) →
        ∃ o, mail_data_output (state c') = Some o
             ∧ mail_data_fd (state c') = os_fd o
             ∧ os_sent o = body_bytes body)
     ∧ (∀ b1 b2 c1 fs1 o1,
          body = b1 ++ b2 →
          client_input_add_all MAX c fs b1 = (c1, fs1, 0) →
          mail_data_output (state c1) = Some o1 →
          ∃ o, mail_data_output (state c') = Some o
               ∧ os_fd o = os_fd o1
               ∧ os_name o = os_name o1
               ∧ os_sent o = os_sent o1 ++ body_bytes b2)
     ∧ client_get_input c' = added_header_bytes c ++ body_bytes body)
  ∧ (∀ b1 io data b2 c1 fs1,
       body = b1 ++ (io, data) :: b2 →
       client_input_add_all MAX c fs b1 = (c1, fs1, 0) →
       array_count (body_bytes b1) ≤ MAX →
       MAX < array_count (body_bytes b1) + array_count data →
       fs1 = fs
       ∧ (io_mkstemp io = None → client_input_add MAX io c1 fs1 data = (c1, fs, -1))
       ∧ (∀ suffix fd, io_mkstemp io = Some (suffix, fd) →
            (io_unlink_ok io = false →
               client_input_add MAX io c1 fs1 data
               = (c1, {[temp_prefix c +:+ suffix]} ∪ fs, -1)
               ∧ mail_data_output (state c1) = None)
            ∧ (io_unlink_ok io = true →
               ∃ c2, client_input_add MAX io c1 fs1 data
                     = (c2,
                        ({[temp_prefix c +:+ suffix]} ∪ fs) ∖ {[temp_prefix c +:+ suffix]},
                        if io_write_ok io then 0 else -1)
                     ∧ mail_data_output (state c2)
                       = Some {| os_fd := fd; os_name := temp_prefix c +:+ suffix;
                                 os_sent := body_bytes b1 ++ data |}
                     ∧ mail_data_fd (state c2) = fd)))
  ∧ (∀ b1 io data b2 c1 fs1 o1,
       body = b1 ++ (io, data) :: b2 →
       client_input_add_all MAX c fs b1 = (c1, fs1, 0) →
       mail_data_output (state c1) = Some o1 →
       io_write_ok io = false →
       client_input_add MAX io c1 fs1 data = (c1, fs1, -1)).
Proof.
  intros HMAX Hdata Hout Hall.
  assert (Hok : sink_ok MAX c fs).
  { unfold sink_ok, mail_data_buf. rewrite Hout, Hdata. split; [by eexists | done]. }
  assert (Hsink : sink_bytes (state c) = []).
  { unfold sink_bytes, mail_data_buf. by rewrite Hout, Hdata. }
  split_and!.
  { intros c' fs' ret o Hrun Ho.
    destruct (client_input_add_all_unlinked MAX body c fs c' fs' ret Hrun)
      as [Hinv Hpre].
    - intros o'. by rewrite Hout.
    - rewrite <- Hpre. by apply Hinv. }
  { intros c' fs' Hrun.
    destruct (client_input_add_all_ok MAX body c fs c' fs' Hrun Hok Hall)
      as (Hok' & Hbytes & Hhdr & Hpre & Hnone & Hsome).
    rewrite Hsink in Hbytes. simpl in Hbytes.
    split_and!.
    - intros Hle. unfold sink_ok, sink_bytes in *.
      destruct (mail_data_output (state c')) as [o|].
      + destruct Hok' as (_ & Hlt & _). rewrite Hbytes in Hlt. lia.
      + destruct (Hnone eq_refl) as (-> & _ & Hd).
        unfold mail_data_buf in Hd. rewrite Hdata in Hd. done.
    - intros Hgt. unfold sink_ok, sink_bytes in *.
      destruct (mail_data_output (state c')) as [o|].
      + destruct Hok' as (Hfd & _). by exists o.
      + destruct Hok' as (_ & Hle). rewrite Hbytes in Hle. lia.
    - intros b1 b2 c1 fs1 o1 -> Hrun1 Ho1.
      apply Forall_app in Hall as [Hall1 Hall2].
      destruct (client_input_add_all_ok MAX b1 c fs c1 fs1 Hrun1 Hok Hall1)
        as (Hok1 & _).
      rewrite (client_input_add_all_app MAX b1 b2 c fs c1 fs1 Hrun1) in Hrun.
      destruct (client_input_add_all_ok MAX b2 c1 fs1 c' fs' Hrun Hok1 Hall2)
        as (_ & Hbytes2 & _ & _ & _ & Hsome2).
      destruct (Hsome2 o1 Ho1) as (o & Ho & Hfd & Hname).
      exists o. split_and!; try done.
      unfold sink_bytes in Hbytes2. by rewrite Ho, Ho1 in Hbytes2.
    - unfold client_get_input, added_header_bytes. rewrite Hhdr. f_equal.
      exact Hbytes. }
  { intros b1 io data b2 c1 fs1 -> Hrun1 Hle Hgt.
    apply Forall_app in Hall as [Hall1 [Hsize _]%Forall_cons]. cbn [snd] in Hsize.
    destruct (client_input_add_all_ok MAX b1 c fs c1 fs1 Hrun1 Hok Hall1)
      as (Hok1 & Hbytes1 & _ & Hpre1 & Hnone1 & _).
    rewrite Hsink in Hbytes1. cbn [app] in Hbytes1.
    assert (Ho1 : mail_data_output (state c1) = None).
    { unfold sink_ok, sink_bytes in *.
      destruct (mail_data_output (state c1)) as [o|]; [|done].
      destruct Hok1 as (_ & Hlt & _). rewrite Hbytes1 in Hlt. lia. }
    destruct (Hnone1 Ho1) as (-> & _ & Hd1).
    assert (Hbuf1 : mail_data_buf (state c1) = body_bytes b1).
    { unfold sink_bytes in Hbytes1. by rewrite Ho1 in Hbytes1. }
    destruct (client_input_add_spill MAX io c1 fs data Ho1) as [Hfail Hfile];
      [rewrite Hbuf1; lia | rewrite Hbuf1; lia | done |].
    rewrite Hpre1, Hbuf1 in Hfile.
    split_and!; [done | done |].
    intros suffix fd Hmk. destruct (Hfile suffix fd Hmk) as [Hunlink Hspill].
    split.
    - intros Hul. split; [by apply Hunlink | done].
    - intros Hul. destruct (Hspill Hul) as (c2 & Hadd & Ho2 & Hfd2 & _).
      by exists c2. }
  { intros b1 io data b2 c1 fs1 o1 -> Hrun1 Ho1 Hw.
    unfold client_input_add, client_input_add_file.
    by rewrite Ho1, andb_false_r, Hw. }
Qed.

(** a body of 14 bytes in three chunks, for a ceiling of 8: the second chunk
    moves the sink to a temp file that has been created and unlinked; with
    the same chunks, a failing unlink makes the second append fail *)
Lemma payload_spill_policy_witness :
  (∃ c' fs' o,
     client_input_add_all MAX0 (client_data 5) ∅ body0 = (c', fs', 0)
     ∧ mail_data_output (state c') = Some o
     ∧ os_name o = "/tmp/dovecot.lmtp.mx.4711.1"
     ∧ (os_name o ∉ fs')
     ∧ mail_data_fd (state c') = os_fd o
     ∧ os_sent o = bytes_of "Hello, world!!"
     ∧ client_get_input c' = added_header_bytes (client_data 5) ++ body_bytes body0)
  ∧ (∃ c1 c2,
       client_input_add_all MAX0 (client_data 5) ∅ [(io_fine, bytes_of "Hello")]
       = (c1, ∅, 0)
       ∧ client_input_add MAX0 io_fine c1 ∅ (bytes_of ", worl")
         = (c2, ({["/tmp/dovecot.lmtp.mx.4711.1"]} ∪ ∅) ∖ {["/tmp/dovecot.lmtp.mx.4711.1"]},
            0)
       ∧ mail_data_output (state c2)
         = Some {| os_fd := 7; os_name := "/tmp/dovecot.lmtp.mx.4711.1";
                   os_sent := bytes_of "Hello, worl" |}
       ∧ client_input_add MAX0 io_unlink_fails c1 ∅ (bytes_of ", worl")
         = (c1, {["/tmp/dovecot.lmtp.mx.4711.1"]} ∪ ∅, -1)).
Proof.
  destruct (payload_spill_policy MAX0 (client_data 5) ∅ body0)
    as (Hunlinked & Hdone & Hspill & _).
  { vm_compute. discriminate. }
  { vm_compute. reflexivity. }
  { vm_compute. reflexivity. }
  { repeat constructor; vm_compute; reflexivity. }
  destruct (payload_spill_policy MAX0 (client_data 5) ∅ body_unlink_fails)
    as (_ & _ & Hleft & _).
  { vm_compute. discriminate. }
  { vm_compute. reflexivity. }
  { vm_compute. reflexivity. }
  { repeat constructor; vm_compute; reflexivity. }
  split.
  - eexists _, _, _.
    split; [vm_compute; reflexivity|]. split; [vm_compute; reflexivity|].
    split; [vm_compute; reflexivity|].
    split; [eapply Hunlinked; vm_compute; reflexivity|].
    split; [vm_compute; reflexivity|]. split; [vm_compute; reflexivity|].
    eapply Hdone. vm_compute. reflexivity.
  - set (c1 := fst (fst (client_input_add_all MAX0 (client_data 5) ∅
                           [(io_fine, bytes_of "Hello")]))).
    assert (Hrun1 : client_input_add_all MAX0 (client_data 5) ∅
                      [(io_fine, bytes_of "Hello")] = (c1, ∅, 0))
      by (vm_compute; reflexivity).
    destruct (Hspill [(io_fine, bytes_of "Hello")] io_fine (bytes_of ", worl")
                [(io_fine, bytes_of "d!!")] c1 ∅ eq_refl Hrun1)
      as (_ & _ & Hfile); [vm_compute; discriminate | vm_compute; reflexivity |].
    destruct (Hfile "mx.4711.1" 7 eq_refl) as [_ Hcreated].
    destruct (Hcreated eq_refl) as (c2 & Hadd & Ho2 & _).
    destruct (Hleft [(io_fine, bytes_of "Hello")] io_unlink_fails (bytes_of ", worl")
                [] c1 ∅ eq_refl Hrun1)
      as (_ & _ & Hfile'); [vm_compute; discriminate | vm_compute; reflexivity |].
    destruct (Hfile' "mx.4711.1" 7 eq_refl) as [Hstays _].
    destruct (Hstays eq_refl) as [Hfailed _].
    exists c1, c2. split; [exact Hrun1|]. split; [exact Hadd|].
    split; [exact Ho2 | exact Hfailed].
Defined.

(** C6 as stated fails: when the unlink of the temp file fails, the append
    fails and the name of the file that was created stays in the file
    system. *)
Lemma payload_spill_unlink_counterexample :
  ∃ c',
    client_input_add_all MAX0 (client_data 5) ∅ body_unlink_fails
    = (c', {["/tmp/dovecot.lmtp.mx.4711.1"]} ∪ ∅, -1)
    ∧ "/tmp/dovecot.lmtp.mx.4711.1"
      ∈ ({["/tmp/dovecot.lmtp.mx.4711.1"]} ∪ ∅ : gset string).
Proof.
  eexists. split; [vm_compute; reflexivity|].
  apply elem_of_union_l. by apply elem_of_singleton.
Qed.

(** ** LHLO *)

Lemma lhlo_literal_scan_defined (rest : string) :
  (∃ ch, In ch (list_ascii_of_string rest) ∧ literal_stop ch) →
  is_Some (lhlo_literal_scan rest).
Proof.
  unfold literal_stop. induction rest as [|a rest IH]; intros (ch & Hin & Hstop).
  - destruct Hin.
  - simpl. destruct (Ascii.eqb_spec a "]"); [by eexists|].
    destruct (Ascii.eqb_spec a "\"); [by eexists|].
    destruct (Ascii.eqb_spec a "["); [by eexists|].
    simpl. apply IH. exists ch. split; [|done].
    destruct Hin as [-> | Hin]; [|done]. by destruct Hstop as [-> | [-> | ->]].
Qed.

Lemma lhlo_reply_last (c : client) : last (lhlo_reply c) = Some "250 PIPELINING".
Proof.
  unfold lhlo_reply. rewrite !app_assoc.
  change ["250-8BITMIME"; "250-ENHANCEDSTATUSCODES"; "250 PIPELINING"]
    with (["250-8BITMIME"; "250-ENHANCEDSTATUSCODES"] ++ ["250 PIPELINING"]).
  rewrite app_assoc. apply last_snoc.
Qed.

(** what [cmd_lhlo] does once the argument has been looked at *)
Lemma cmd_lhlo_parsed (L : library) (c : client) a0 rest ret dom :
  lhlo_parse L (String a0 rest) = Some (ret, dom) →
  ∃ c', cmd_lhlo L c (String a0 rest) = Some (c', 0)
        ∧ lhlo c' = (if ret <? 0 then "invalid" else dom)
        ∧ output c' = output c ++ lhlo_reply c.
Proof.
  intros Hparse. unfold cmd_lhlo. rewrite Hparse.
  eexists. split; [done|]. split; [done|].
  cbn [with_lhlo output].
  destruct (fold_send_state (lhlo_reply (client_state_reset c)) (client_state_reset c))
    as (_ & _ & ->).
  done.
Qed.

(** C8, as amended: LHLO with an argument that is not empty and does not
    parse, either not starting with an opening bracket and refused by
    [rfc822_parse_dot_atom], or starting with one and not ending in a
    closing bracket at the first closing bracket, backslash or second
    opening bracket, still succeeds: it sends the whole 250 greeting and
    stores the greeting name "invalid".  For an argument that is not empty
    LHLO never fails when it answers, and it answers when the argument does
    not start with an opening bracket or has one of the three characters
    after it. *)
Theorem cmd_lhlo_lenient (L : library) (c : client) (a0 : ascii) (rest : string) :
  (a0 ≠ "["%char → fst (rfc822_parse_dot_atom L (String a0 rest)) < 0 →
     ∃ c', cmd_lhlo L c (String a0 rest) = Some (c', 0)
           ∧ lhlo c' = "invalid"
           ∧ output c' = output c ++ lhlo_reply c)
  ∧ (a0 = "["%char → ∀ p, lhlo_literal_scan rest = Some p → p ≠ "]" →
     ∃ c', cmd_lhlo L c (String a0 rest) = Some (c', 0)
           ∧ lhlo c' = "invalid"
           ∧ output c' = output c ++ lhlo_reply c)
  ∧ (∀ c' ret, cmd_lhlo L c (String a0 rest) = Some (c', ret) →
     ret = 0 ∧ output c' = output c ++ lhlo_reply c
     ∧ last (output c') = Some "250 PIPELINING")
  ∧ (a0 ≠ "["%char → is_Some (cmd_lhlo L c (String a0 rest)))
  ∧ (a0 = "["%char →
     (∃ ch, In ch (list_ascii_of_string rest) ∧ literal_stop ch) →
     is_Some (cmd_lhlo L c (String a0 rest))).
Proof.
  split_and!.
  - intros Ha0 Hret.
    destruct (rfc822_parse_dot_atom L (String a0 rest)) as [ret dom] eqn:Hatom.
    destruct (cmd_lhlo_parsed L c a0 rest ret dom) as (c' & Hc & Hl & Ho).
    { unfold lhlo_parse. destruct (Ascii.eqb_spec a0 "["); [done|].
      cbn [negb]. by rewrite Hatom. }
    exists c'. split_and!; [done | | done].
    rewrite Hl. simpl in Hret. by destruct (Z.ltb_spec ret 0); [|lia].
  - intros -> p Hscan Hp.
    destruct (cmd_lhlo_parsed L c "[" rest (-1) EmptyString) as (c' & Hc & Hl & Ho).
    { unfold lhlo_parse. cbn [Ascii.eqb Bool.eqb negb]. rewrite Hscan.
      by destruct (String.eqb_spec p "]"). }
    exists c'. done.
  - intros c' ret Hc.
    destruct (lhlo_parse L (String a0 rest)) as [[r dom]|] eqn:Hparse.
    + destruct (cmd_lhlo_parsed L c a0 rest r dom Hparse) as (c1 & Hc1 & _ & Ho).
      rewrite Hc in Hc1. simplify_eq. split_and!; [done | done |].
      rewrite Ho. rewrite <- (lhlo_reply_last c). unfold lhlo_reply.
      rewrite !app_assoc.
      change ["250-8BITMIME"; "250-ENHANCEDSTATUSCODES"; "250 PIPELINING"]
        with (["250-8BITMIME"; "250-ENHANCEDSTATUSCODES"] ++ ["250 PIPELINING"]).
      by rewrite !app_assoc, !last_snoc.
    + unfold cmd_lhlo in Hc. by rewrite Hparse in Hc.
  - intros Ha0.
    destruct (rfc822_parse_dot_atom L (String a0 rest)) as [ret dom] eqn:Hatom.
    destruct (cmd_lhlo_parsed L c a0 rest ret dom) as (c' & Hc & _).
    { unfold lhlo_parse. destruct (Ascii.eqb_spec a0 "["); [done|].
      cbn [negb]. by rewrite Hatom. }
    by eexists.
  - intros -> Hstop.
    destruct (lhlo_literal_scan_defined rest Hstop) as [p Hp].
    destruct (cmd_lhlo_parsed L c "[" rest (if String.eqb p "]" then 0 else -1)
                EmptyString) as (c' & Hc & _).
    { unfold lhlo_parse. cbn [Ascii.eqb Bool.eqb negb]. by rewrite Hp. }
    by eexists.
Qed.

(** "@bad" is no dot-atom, and the literal "[a[b]" has a second opening
    bracket *)
Lemma cmd_lhlo_lenient_witness :
  (∃ c', cmd_lhlo lib0 (client0 5) "@bad" = Some (c', 0)
         ∧ lhlo c' = "invalid"
         ∧ output c' = output (client0 5) ++ lhlo_reply (client0 5))
  ∧ (∃ c', cmd_lhlo lib0 (client0 5) "[a[b]" = Some (c', 0)
           ∧ lhlo c' = "invalid"
           ∧ output c' = output (client0 5) ++ lhlo_reply (client0 5)).
Proof.
  split.
  - apply (cmd_lhlo_lenient lib0 (client0 5) "@" "bad").
    + discriminate.
    + vm_compute. reflexivity.
  - destruct (cmd_lhlo_lenient lib0 (client0 5) "[" "a[b]") as (_ & Hliteral & _).
    apply (Hliteral eq_refl "[b]").
    + vm_compute. reflexivity.
    + discriminate.
Defined.

(** C8 as stated fails: LHLO with the empty argument is answered "501
    Missing hostname"; no greeting is sent and the greeting name is not
    changed. *)
Lemma cmd_lhlo_empty_counterexample :
  cmd_lhlo lib0 (client0 5) EmptyString
  = Some (client_send_line (client0 5) "501 Missing hostname", 0)
  ∧ output (client_send_line (client0 5) "501 Missing hostname")
    = ["501 Missing hostname"]
  ∧ lhlo (client_send_line (client0 5) "501 Missing hostname") = "missing".
Proof. split_and!; vm_compute; reflexivity. Qed.

(** a literal with none of the three characters after the opening bracket
    sends the scan past the end of the argument *)
Lemma cmd_lhlo_unterminated_literal : cmd_lhlo lib0 (client0 5) "[abc" = None.
Proof. vm_compute. reflexivity. Qed.

(** ** STARTTLS *)

(** C9, as amended: STARTTLS is accepted in every state of the session,
    with or without an envelope.  When TLS is already active it is answered
    "443 5.5.1 TLS is already active." and nothing else changes.  Otherwise,
    when TLS initialization succeeds the transport is upgraded in place and
    the answer is 220, the envelope being left as it is; when it fails the
    answer is 454 and nothing else changes. *)
Theorem cmd_starttls_any_state (w : world) (c : client) :
  (∀ ssl, ssl_iostream c = Some ssl →
     cmd_starttls w c = (client_send_line c "443 5.5.1 TLS is already active.", 0))
  ∧ (∀ ssl, ssl_iostream c = None → master_service_ssl_init w = inr ssl →
     ssl_iostream (fst (cmd_starttls w c)) = Some ssl
     ∧ output (fst (cmd_starttls w c))
       = output c ++ ["220 2.0.0 Begin TLS negotiation now."]
     ∧ state (fst (cmd_starttls w c)) = state c
     ∧ proxy (fst (cmd_starttls w c)) = proxy c)
  ∧ (∀ error, ssl_iostream c = None → master_service_ssl_init w = inl error →
     cmd_starttls w c
     = (client_send_line c "454 4.7.0 Internal error, TLS not available.", 0)).
Proof.
  unfold cmd_starttls. split_and!.
  - by intros ssl ->.
  - intros ssl -> ->. by destruct (ssl_iostream_handshake w <? 0).
  - by intros error -> ->.
Qed.

(** STARTTLS during TLS, and STARTTLS after MAIL FROM *)
Lemma cmd_starttls_any_state_witness :
  cmd_starttls world1 (with_ssl_iostream (client0 5) (Some "TLSv1.2"))
  = (client_send_line (with_ssl_iostream (client0 5) (Some "TLSv1.2"))
       "443 5.5.1 TLS is already active.", 0)
  ∧ ssl_iostream (fst (cmd_starttls world1 (client_mail 5)))
    = Some "TLSv1.2 with cipher ECDHE-RSA-AES256-GCM-SHA384"
  ∧ state (fst (cmd_starttls world1 (client_mail 5))) = state (client_mail 5).
Proof.
  destruct (cmd_starttls_any_state world1
              (with_ssl_iostream (client0 5) (Some "TLSv1.2"))) as (Hactive & _).
  destruct (cmd_starttls_any_state world1 (client_mail 5)) as (_ & Hupgrade & _).
  destruct (Hupgrade "TLSv1.2 with cipher ECDHE-RSA-AES256-GCM-SHA384")
    as (Hssl & _ & Hstate & _).
  - vm_compute. reflexivity.
  - reflexivity.
  - split; [|split].
    + apply (Hactive "TLSv1.2"). reflexivity.
    + exact Hssl.
    + exact Hstate.
Defined.

(** C9 as stated fails: in a session whose envelope exists, after MAIL
    FROM, STARTTLS upgrades the transport. *)
Lemma cmd_starttls_envelope_counterexample :
  is_Some (mail_from (state (client_mail 5)))
  ∧ ssl_iostream (client_mail 5) = None
  ∧ ssl_iostream (fst (cmd_starttls world1 (client_mail 5)))
    = Some "TLSv1.2 with cipher ECDHE-RSA-AES256-GCM-SHA384"
  ∧ last (output (fst (cmd_starttls world1 (client_mail 5))))
    = Some "220 2.0.0 Begin TLS negotiation now.".
Proof.
  split; [vm_compute; by eexists|]. split_and!; vm_compute; reflexivity.
Qed.

(** ** XCLIENT *)

Section Xclient.

Variable L : library.

(** each local of [cmd_xclient] is, after one attribute, what it was or
    what that attribute converts to *)
Lemma cmd_xclient_attr_sets (x : xclient_locals) (tmp : string) :
  (x_remote_ip (cmd_xclient_attr L x tmp) = x_remote_ip x
   ∨ (strncasecmp_eq tmp "ADDR=" = true
      ∧ net_addr2ip L (xclient_addr_text tmp)
        = Some (x_remote_ip (cmd_xclient_attr L x tmp))))
  ∧ (x_remote_port (cmd_xclient_attr L x tmp) = x_remote_port x
     ∨ (strncasecmp_eq tmp "PORT=" = true
        ∧ net_str2port L (str_skip 5 tmp)
          = Some (x_remote_port (cmd_xclient_attr L x tmp))))
  ∧ (x_ttl (cmd_xclient_attr L x tmp) = x_ttl x
     ∨ (strncasecmp_eq tmp "TTL=" = true
        ∧ str_to_uint L (str_skip 4 tmp) = Some (x_ttl (cmd_xclient_attr L x tmp))))
  ∧ (x_timeout_secs (cmd_xclient_attr L x tmp) = x_timeout_secs x
     ∨ (strncasecmp_eq tmp "TIMEOUT=" = true
        ∧ str_to_uint L (str_skip 8 tmp)
          = Some (x_timeout_secs (cmd_xclient_attr L x tmp)))).
Proof.
  unfold cmd_xclient_attr, xclient_addr_text.
  destruct (strncasecmp_eq tmp "ADDR=").
  { destruct (net_addr2ip L _) eqn:Hip; simpl; split_and!; auto. }
  destruct (strncasecmp_eq tmp "PORT=").
  { destruct (net_str2port L _) eqn:Hport; simpl; split_and!; auto. }
  destruct (strncasecmp_eq tmp "TTL=").
  { destruct (str_to_uint L _) eqn:Httl; simpl; split_and!; auto. }
  destruct (strncasecmp_eq tmp "TIMEOUT=").
  { destruct (str_to_uint L _) eqn:Htmo; simpl; split_and!; auto. }
  split_and!; auto.
Qed.

(** the same after all the attributes *)
Lemma cmd_xclient_attrs_sets (tokens : list string) :
  ∀ x0 : xclient_locals,
    let x := fold_left (cmd_xclient_attr L) tokens x0 in
    (x_remote_ip x = x_remote_ip x0
     ∨ ∃ tmp, tmp ∈ tokens ∧ strncasecmp_eq tmp "ADDR=" = true
              ∧ net_addr2ip L (xclient_addr_text tmp) = Some (x_remote_ip x))
    ∧ (x_remote_port x = x_remote_port x0
       ∨ ∃ tmp, tmp ∈ tokens ∧ strncasecmp_eq tmp "PORT=" = true
                ∧ net_str2port L (str_skip 5 tmp) = Some (x_remote_port x))
    ∧ (x_ttl x = x_ttl x0
       ∨ ∃ tmp, tmp ∈ tokens ∧ strncasecmp_eq tmp "TTL=" = true
                ∧ str_to_uint L (str_skip 4 tmp) = Some (x_ttl x))
    ∧ (x_timeout_secs x = x_timeout_secs x0
       ∨ ∃ tmp, tmp ∈ tokens ∧ strncasecmp_eq tmp "TIMEOUT=" = true
                ∧ str_to_uint L (str_skip 8 tmp) = Some (x_timeout_secs x)).
Proof.
  induction tokens as [|tmp tokens IH]; intros x0; simpl.
  - auto.
  - destruct (IH (cmd_xclient_attr L x0 tmp)) as (H1 & H2 & H3 & H4).
    destruct (cmd_xclient_attr_sets x0 tmp) as (S1 & S2 & S3 & S4).
    split_and!.
    + destruct H1 as [-> | (t & Hin & Hp & Hc)].
      * destruct S1 as [-> | [Hp Hc]]; [by left|].
        right. exists tmp. split_and!; [apply list_elem_of_here | done | done].
      * right. exists t. split_and!; [by apply list_elem_of_further | done | done].
    + destruct H2 as [-> | (t & Hin & Hp & Hc)].
      * destruct S2 as [-> | [Hp Hc]]; [by left|].
        right. exists tmp. split_and!; [apply list_elem_of_here | done | done].
      * right. exists t. split_and!; [by apply list_elem_of_further | done | done].
    + destruct H3 as [-> | (t & Hin & Hp & Hc)].
      * destruct S3 as [-> | [Hp Hc]]; [by left|].
        right. exists tmp. split_and!; [apply list_elem_of_here | done | done].
      * right. exists t. split_and!; [by apply list_elem_of_further | done | done].
    + destruct H4 as [-> | (t & Hin & Hp & Hc)].
      * destruct S4 as [-> | [Hp Hc]]; [by left|].
        right. exists tmp. split_and!; [apply list_elem_of_here | done | done].
      * right. exists t. split_and!; [by apply list_elem_of_further | done | done].
Qed.

End Xclient.

(** C10: after a successful XCLIENT of a trusted client, remote_ip has
    changed only if an ADDR attribute with a valid address was given,
    remote_port only if a PORT attribute with a valid value other than 0 was
    given, proxy_ttl only if a TTL attribute was given; the proxy timeout is
    overwritten in every case and is 0 when no TIMEOUT attribute is given;
    the other fields of the connection are as they were.  (The envelope is
    reset, as by LHLO and RSET.) *)
Theorem cmd_xclient_frame (L : library) (c : client) (args : string) :
  client_is_trusted c = true →
  x_args_ok (cmd_xclient_attrs L args) = true →
  let c' := fst (cmd_xclient L c args) in
  (remote_ip c' ≠ remote_ip c →
     xclient_attr L args "ADDR=" xclient_addr_text (net_addr2ip L) (remote_ip c'))
  ∧ (remote_port c' ≠ remote_port c →
     xclient_attr L args "PORT=" (str_skip 5) (net_str2port L) (remote_port c')
     ∧ remote_port c' ≠ 0)
  ∧ (proxy_ttl c' ≠ proxy_ttl c →
     xclient_attr L args "TTL=" (str_skip 4) (str_to_uint L) (proxy_ttl c'))
  ∧ proxy_timeout_secs c' = x_timeout_secs (cmd_xclient_attrs L args)
  ∧ ((∀ tmp, tmp ∈ t_strsplit L args " " → strncasecmp_eq tmp "TIMEOUT=" = false) →
     proxy_timeout_secs c' = 0)
  ∧ (local_ip c' = local_ip c ∧ local_port c' = local_port c ∧ lhlo c' = lhlo c
     ∧ ssl_iostream c' = ssl_iostream c ∧ trusted c' = trusted c
     ∧ my_domain c' = my_domain c ∧ lmtp_set c' = lmtp_set c)
  ∧ output c'
    = output c ++ ["220 " +:+ my_domain c +:+ " " +:+ login_greeting (lmtp_set c)].
Proof.
  intros Htrusted Hok. unfold cmd_xclient. rewrite Htrusted, Hok. cbn [negb fst].
  unfold xclient_attr.
  destruct (cmd_xclient_attrs_sets L (t_strsplit L args " ") xclient_locals_init)
    as (H1 & H2 & H3 & H4).
  fold (cmd_xclient_attrs L args) in H1, H2, H3, H4.
  cbn [xclient_locals_init x_remote_ip x_remote_port x_ttl x_timeout_secs] in *.
  cbn [client_send_line with_output with_xclient remote_ip remote_port proxy_ttl
         proxy_timeout_secs local_ip local_port lhlo ssl_iostream trusted my_domain
         lmtp_set output client_state_reset with_dot_input with_proxy with_state].
  split_and!; try done.
  - destruct (Z.eqb_spec (family (x_remote_ip (cmd_xclient_attrs L args))) 0)
      as [Hfam | Hfam]; cbn [negb]; [done|].
    intros _. destruct H1 as [Hunset | H1]; [|done].
    rewrite Hunset in Hfam. done.
  - destruct (Z.eqb_spec (x_remote_port (cmd_xclient_attrs L args)) 0)
      as [Hport | Hport]; cbn [negb]; [done|].
    intros _. destruct H2 as [Hunset | H2]; [done|]. done.
  - destruct (Z.eqb_spec (x_ttl (cmd_xclient_attrs L args)) UINT_MAX)
      as [Httl | Httl]; cbn [negb]; [done|].
    intros _. destruct H3 as [Hunset | H3]; [done|]. done.
  - intros Hnone. destruct H4 as [Hunset | (tmp & Hin & Hp & _)]; [done|].
    rewrite (Hnone tmp Hin) in Hp. done.
Qed.

(** XCLIENT with an address and a TTL, in a session whose proxy timeout
    was 30: the address and the TTL change, the port stays, the timeout
    becomes 0 *)
Lemma cmd_xclient_frame_witness :
  proxy_timeout_secs client_timeout30 = 30
  ∧ remote_port (fst (cmd_xclient lib0 client_timeout30 "ADDR=1.2.3.4 TTL=7"))
    = remote_port client_timeout30
  ∧ xclient_attr lib0 "ADDR=1.2.3.4 TTL=7" "ADDR=" xclient_addr_text net_addr2ip0
      (remote_ip (fst (cmd_xclient lib0 client_timeout30 "ADDR=1.2.3.4 TTL=7")))
  ∧ xclient_attr lib0 "ADDR=1.2.3.4 TTL=7" "TTL=" (str_skip 4) str_to_uint0
      (proxy_ttl (fst (cmd_xclient lib0 client_timeout30 "ADDR=1.2.3.4 TTL=7")))
  ∧ proxy_timeout_secs (fst (cmd_xclient lib0 client_timeout30 "ADDR=1.2.3.4 TTL=7"))
    = 0.
Proof.
  destruct (cmd_xclient_frame lib0 client_timeout30 "ADDR=1.2.3.4 TTL=7")
    as (Hip & _ & Httl & _ & Htimeout & _).
  - vm_compute. reflexivity.
  - vm_compute. reflexivity.
  - split; [vm_compute; reflexivity|]. split; [vm_compute; reflexivity|].
    split; [|split].
    + apply Hip. vm_compute. discriminate.
    + apply Httl. vm_compute. discriminate.
    + apply Htimeout. intros tmp Hin. vm_compute in Hin.
      apply list_elem_of_In in Hin.
      destruct Hin as [<- | [<- | []]]; vm_compute; reflexivity.
Defined.


(** ** MAIL and the keywords *)

Lemma strncasecmp_eq_prefix (p : string) :
  ∀ kw rest, String.length kw = String.length p →
    strncasecmp_eq (kw +:+ rest) p = strncasecmp_eq kw p.
Proof.
  induction p as [|b p IH]; intros kw rest Hlen.
  - destruct kw; [|done]. by destruct rest.
  - destruct kw as [|a kw]; [done|]. simpl in *.
    rewrite IH by lia. done.
Qed.

Lemma str_skip_app (kw rest : string) :
  str_skip (String.length kw) (kw +:+ rest) = rest.
Proof. induction kw as [|a kw IH]; simpl; [by destruct rest | done]. Qed.

Lemma strncasecmp_eq_short (p : string) :
  ∀ s, (String.length s < String.length p)%nat → strncasecmp_eq s p = false.
Proof.
  induction p as [|b p IH]; intros s Hlen; simpl in *; [lia|].
  destruct s as [|a s]; [done|]. simpl in *.
  rewrite IH by lia. apply andb_false_r.
Qed.

(** X1: MAIL while an envelope exists is answered "503 5.5.1 MAIL already
    given" and changes nothing else.  Without an envelope MAIL sends exactly
    one reply; the envelope exists afterwards, with the sender set and no
    recipient, exactly when that reply is "250 2.1.0 OK", and after any
    other reply the state is what it was.  The proxy session is never
    touched. *)
Theorem cmd_mail_envelope (L : library) (w : world) (c : client) (args : string) :
  (is_Some (mail_from (state c)) →
     cmd_mail L w c args = (client_send_line c "503 5.5.1 MAIL already given", 0))
  ∧ (mail_from (state c) = None →
     ∃ reply,
       output (fst (cmd_mail L w c args)) = output c ++ [reply]
       ∧ (reply = "250 2.1.0 OK" →
          is_Some (mail_from (state (fst (cmd_mail L w c args))))
          ∧ rcpt_to (state (fst (cmd_mail L w c args))) = [])
       ∧ (reply ≠ "250 2.1.0 OK" →
          state (fst (cmd_mail L w c args)) = state c)
       ∧ proxy (fst (cmd_mail L w c args)) = proxy c).
Proof.
  unfold cmd_mail. split.
  - by intros [from ->].
  - intros ->.
    destruct (strncasecmp_eq args "FROM:"); cbn [negb].
    2:{ eexists. split; [done|]. split_and!; [by intros [=] | done | done]. }
    destruct (smtp_address_parse_path_full L _ _) as [error | [address rest]].
    { eexists. split; [done|]. split_and!; [by intros [=] | done | done]. }
    destruct (after_path rest) as [params_text|].
    2:{ eexists. split; [done|]. split_and!; [by intros [=] | done | done]. }
    destruct (smtp_params_mail_parse L params_text) as [[pperror error] | params].
    { eexists. split; [done|].
      split_and!; [by destruct pperror; intros [=] | done | done]. }
    eexists. split; [done|]. split_and!; [|done|done].
    intros _. split; [by eexists | done].
Qed.

(** MAIL in the sample session without an envelope, and again after it *)
Lemma cmd_mail_envelope_witness :
  cmd_mail lib0 world1 (client_mail 5) "FROM:<t@x>"
    = (client_send_line (client_mail 5) "503 5.5.1 MAIL already given", 0)
  ∧ ∃ reply,
      output (fst (cmd_mail lib0 world1 (client0 5) "FROM:<s@x>"))
        = output (client0 5) ++ [reply]
      ∧ (reply = "250 2.1.0 OK" →
         is_Some (mail_from (state (fst (cmd_mail lib0 world1 (client0 5) "FROM:<s@x>"))))
         ∧ rcpt_to (state (fst (cmd_mail lib0 world1 (client0 5) "FROM:<s@x>"))) = [])
      ∧ (reply ≠ "250 2.1.0 OK" →
         state (fst (cmd_mail lib0 world1 (client0 5) "FROM:<s@x>")) = state (client0 5))
      ∧ proxy (fst (cmd_mail lib0 world1 (client0 5) "FROM:<s@x>")) = proxy (client0 5).
Proof.
  split.
  - apply (cmd_mail_envelope lib0 world1 (client_mail 5) "FROM:<t@x>").
    vm_compute. eexists. reflexivity.
  - apply (cmd_mail_envelope lib0 world1 (client0 5) "FROM:<s@x>").
    vm_compute. reflexivity.
Defined.

(** X2: the keywords "FROM:" of MAIL and "TO:" of RCPT are compared without
    regard to case: with any spelling of the keyword the command does what
    it does with the capital one.  An argument shorter than the keyword is
    answered "501 5.5.4 Invalid parameters". *)
Theorem keyword_case_insensitive (L : library) (w : world) (c : client)
    (kw rest : string) :
  (String.length kw = 5%nat → strncasecmp_eq kw "FROM:" = true →
     cmd_mail L w c (kw +:+ rest) = cmd_mail L w c ("FROM:" +:+ rest))
  ∧ (String.length kw = 3%nat → strncasecmp_eq kw "TO:" = true →
     cmd_rcpt L w c (kw +:+ rest) = cmd_rcpt L w c ("TO:" +:+ rest))
  ∧ (mail_from (state c) = None → (String.length kw < 5)%nat →
     cmd_mail L w c kw = (client_send_line c "501 5.5.4 Invalid parameters", 0))
  ∧ (is_Some (mail_from (state c)) → (String.length kw < 3)%nat →
     cmd_rcpt L w c kw = (client_send_line c "501 5.5.4 Invalid parameters", 0)).
Proof.
  split_and!.
  - intros Hlen Hkw. unfold cmd_mail.
    rewrite (strncasecmp_eq_prefix "FROM:" kw rest Hlen), Hkw.
    rewrite (strncasecmp_eq_prefix "FROM:" "FROM:" rest eq_refl).
    replace (str_skip 5 (kw +:+ rest)) with rest
      by (rewrite <- Hlen; symmetry; apply str_skip_app).
    done.
  - intros Hlen Hkw. unfold cmd_rcpt, cmd_rcpt_parse.
    rewrite (strncasecmp_eq_prefix "TO:" kw rest Hlen), Hkw.
    rewrite (strncasecmp_eq_prefix "TO:" "TO:" rest eq_refl).
    replace (str_skip 3 (kw +:+ rest)) with rest
      by (rewrite <- Hlen; symmetry; apply str_skip_app).
    done.
  - intros Hfrom Hlen. unfold cmd_mail.
    by rewrite Hfrom, (strncasecmp_eq_short "FROM:" kw Hlen).
  - intros [from Hfrom] Hlen. unfold cmd_rcpt, cmd_rcpt_parse.
    by rewrite Hfrom, (strncasecmp_eq_short "TO:" kw Hlen).
Qed.

(** "from:" and "To:" in the sample session, and the argument "TO" *)
Lemma keyword_case_insensitive_witness :
  cmd_mail lib0 world1 (client0 5) "from:<s@x>"
    = cmd_mail lib0 world1 (client0 5) "FROM:<s@x>"
  ∧ cmd_rcpt lib0 world1 (client_mail 5) "To:<u@local>"
    = cmd_rcpt lib0 world1 (client_mail 5) "TO:<u@local>"
  ∧ cmd_rcpt lib0 world1 (client_mail 5) "TO"
    = (client_send_line (client_mail 5) "501 5.5.4 Invalid parameters", 0).
Proof.
  split; [|split].
  - apply (keyword_case_insensitive lib0 world1 (client0 5) "from:" "<s@x>");
      vm_compute; reflexivity.
  - apply (keyword_case_insensitive lib0 world1 (client_mail 5) "To:" "<u@local>");
      vm_compute; reflexivity.
  - apply (keyword_case_insensitive lib0 world1 (client_mail 5) "TO" EmptyString).
    + vm_compute. eexists. reflexivity.
    + vm_compute. lia.
Defined.


(** ** RCPT *)

Lemma client_proxy_rcpt_output (L : library) w c address username detail delim params
    c' b :
  client_proxy_rcpt L w c address username detail delim params = (c', b) →
  (b = true → ∃ r, output c' = output c ++ [r])
  ∧ (b = false →
     c' = c
     ∨ ∃ a, c' = client_send_line c
                   ("550 5.3.5 <" +:+ smtp_address_encode L a
                    +:+ "> Internal user lookup failure")).
Proof.
  unfold client_proxy_rcpt, client_proxy_rcpt_add. intros H.
  repeat case_match; simplify_eq/=;
    (split; [intros ?; try done; by eexists | intros ?; try done; eauto]).
Qed.

Lemma cmd_rcpt_local_output (L : library) w c address params username detail :
  ∃ r, output (fst (cmd_rcpt_local L w c address params username detail))
       = output c ++ [r].
Proof.
  unfold cmd_rcpt_local, cmd_rcpt_finish. repeat case_match; simpl; by eexists.
Qed.

(** X3: every RCPT is answered.  It sends exactly one reply, except that a
    user name from passdb that is no valid address gets the reply "550
    5.3.5 <addr> Internal user lookup failure" and then the reply of the
    local lookup as well; without [lmtp_proxy] it is always exactly one. *)
Theorem cmd_rcpt_answered (L : library) (w : world) (c : client) (args : string) :
  (∃ r, output (fst (cmd_rcpt L w c args)) = output c ++ [r])
  ∨ (lmtp_proxy_enabled (lmtp_set c) = true
     ∧ ∃ a r, output (fst (cmd_rcpt L w c args))
              = output c
                ++ ["550 5.3.5 <" +:+ smtp_address_encode L a
                    +:+ "> Internal user lookup failure"; r]).
Proof.
  unfold cmd_rcpt.
  destruct (mail_from (state c)); [|left; by eexists].
  destruct (cmd_rcpt_parse L c args) as [reply | [[[[address params] username] delim] detail]];
    [left; by eexists|].
  unfold cmd_rcpt_proxy.
  destruct (lmtp_proxy_enabled (lmtp_set c)).
  - destruct (client_proxy_rcpt L w c address username detail delim params)
      as [c1 b] eqn:Hproxy.
    apply client_proxy_rcpt_output in Hproxy as [Htrue Hfalse].
    destruct b.
    + left. by apply Htrue.
    + destruct (Hfalse eq_refl) as [-> | [a ->]].
      * left. apply cmd_rcpt_local_output.
      * right. split; [done|].
        destruct (cmd_rcpt_local_output L w
                    (client_send_line c
                       ("550 5.3.5 <" +:+ smtp_address_encode L a
                        +:+ "> Internal user lookup failure"))
                    address params username detail) as [r Hr].
        exists a, r. rewrite Hr. simpl. by rewrite <- app_assoc.
  - left. apply cmd_rcpt_local_output.
Qed.

(** ** The fields of a passdb record *)

Section Fields.

Variable L : library.

Lemma parse_fields_from_proxying fields :
  ∀ set address proxying port_set set' address',
    client_proxy_rcpt_parse_fields_from L set fields address proxying port_set
      = (true, set', address') →
    (proxying = true ∨ has_key "proxy" fields = true)
    ∧ is_Some (set_host set')
    ∧ (set_host set = None → has_key "host" fields = true).
Proof.
  induction fields as [|arg fields IH];
    intros set address proxying port_set set' address' H.
  - simpl in H. destruct proxying; [|by destruct (is_null (set_host set))].
    destruct (set_host set) as [h|] eqn:Hh; simpl in H; [|done].
    simplify_eq. split_and!; [by left | by rewrite Hh | done].
  - cbn [client_proxy_rcpt_parse_fields_from] in H.
    unfold has_key in *. cbn [existsb].
    destruct (field_key_value arg) as [key val]. cbn [fst].
    destruct (String.eqb_spec key "proxy") as [-> | Hk1].
    { apply IH in H as (H1 & H2 & H3). split_and!; [by right | done | done]. }
    destruct (String.eqb_spec key "host") as [-> | Hk2].
    { apply IH in H as (H1 & H2 & H3). split_and!; done. }
    destruct (String.eqb_spec key "hostip") as [-> | Hk3].
    { destruct (net_addr2ip L val); [|done]. apply IH in H. exact H. }
    destruct (String.eqb_spec key "port") as [-> | Hk4].
    { destruct (net_str2port L val); [|done]. apply IH in H. exact H. }
    destruct (String.eqb_spec key "proxy_timeout") as [-> | Hk5].
    { destruct (str_to_uint L val); [|done]. apply IH in H. exact H. }
    destruct (String.eqb_spec key "protocol") as [-> | Hk6].
    { destruct (String.eqb val "lmtp").
      - apply IH in H as (H1 & H2 & H3). split_and!; [done | done |].
        intros Hh. apply H3. by destruct port_set.
      - destruct (String.eqb val "smtp"); [|done].
        apply IH in H as (H1 & H2 & H3). split_and!; [done | done |].
        intros Hh. apply H3. by destruct port_set. }
    destruct (String.eqb key "user" || String.eqb key "destuser")%bool.
    + apply IH in H. exact H.
    + apply IH in H. exact H.
Qed.

Lemma parse_fields_from_no_proxy fields :
  ∀ set address port_set,
    has_key "proxy" fields = false →
    fst (fst (client_proxy_rcpt_parse_fields_from L set fields address false port_set))
    = false.
Proof.
  intros set address port_set Hkey.
  destruct (client_proxy_rcpt_parse_fields_from L set fields address false port_set)
    as [[b set'] a'] eqn:H.
  destruct b; [|done].
  apply parse_fields_from_proxying in H as ([? | Hp] & _); [done|].
  by rewrite Hkey in Hp.
Qed.

Lemma parse_fields_from_unknown f l2 :
  known_field_key (fst (field_key_value f)) = false →
  ∀ l1 set address proxying port_set,
    client_proxy_rcpt_parse_fields_from L set (l1 ++ f :: l2) address proxying port_set
    = client_proxy_rcpt_parse_fields_from L set (l1 ++ l2) address proxying port_set.
Proof.
  intros Hf. induction l1 as [|arg l1 IH]; intros set address proxying port_set.
  - cbn [app client_proxy_rcpt_parse_fields_from].
    destruct (field_key_value f) as [key val]. cbn [fst] in Hf.
    unfold known_field_key in Hf. cbn [existsb] in Hf.
    repeat (apply orb_false_elim in Hf as [-> Hf]). done.
  - cbn [app client_proxy_rcpt_parse_fields_from].
    destruct (field_key_value arg) as [key val].
    repeat case_match; try done; apply IH.
Qed.

Lemma strchr_eq_no_equals (s : string) : no_equals s = true → strchr_eq s = None.
Proof.
  induction s as [|ch s IH]; simpl; [done|].
  destruct (Ascii.eqb ch "="); [done|]. simpl. intros H. by rewrite IH.
Qed.

Lemma strchr_eq_split (k v : string) :
  no_equals k = true → strchr_eq (k +:+ String "=" v) = Some (k, v).
Proof.
  induction k as [|ch k IH]; simpl; [done|].
  destruct (Ascii.eqb ch "="); [done|]. simpl. intros H. by rewrite IH.
Qed.

Ltac parse_fields_step IH H :=
  cbn [client_proxy_rcpt_parse_fields_from last_field_value] in *;
  destruct (field_key_value _) as [key val]; cbn [fst snd] in *;
  destruct (String.eqb_spec key "proxy") as [-> | Hk1];
    [apply IH in H as [I1 I2] |
  destruct (String.eqb_spec key "host") as [-> | Hk2];
    [apply IH in H as [I1 I2] |
  destruct (String.eqb_spec key "hostip") as [-> | Hk3];
    [destruct (net_addr2ip _ val); [apply IH in H as [I1 I2] | done] |
  destruct (String.eqb_spec key "port") as [-> | Hk4];
    [destruct (net_str2port _ val) eqn:Hconv; [apply IH in H as [I1 I2] | done] |
  destruct (String.eqb_spec key "proxy_timeout") as [-> | Hk5];
    [destruct (str_to_uint _ val) eqn:Hconv; [apply IH in H as [I1 I2] | done] |
  destruct (String.eqb_spec key "protocol") as [-> | Hk6];
    [destruct (String.eqb val "lmtp");
       [apply IH in H as [I1 I2] |
        destruct (String.eqb val "smtp"); [apply IH in H as [I1 I2] | done]] |
  destruct (String.eqb key "user" || String.eqb key "destuser")%bool;
    apply IH in H as [I1 I2]]]]]]].

(** the host of the settings is the value of the last host field *)
Lemma parse_fields_from_host fields :
  ∀ set address proxying port_set set' address',
    client_proxy_rcpt_parse_fields_from L set fields address proxying port_set
      = (true, set', address') →
    (∀ v, last_field_value "host" fields = Some v → set_host set' = Some v)
    ∧ (last_field_value "host" fields = None → set_host set' = set_host set).
Proof.
  induction fields as [|arg fields IH];
    intros set address proxying port_set set' address' H.
  - simpl in H. case_match; simplify_eq. done.
  - parse_fields_step IH H;
      (destruct (last_field_value "host" fields) as [v0|];
       [split; [intros v [= <-]; by apply I1 | done]
       |split; [intros v Hv; simplify_eq; try (by rewrite (I2 eq_refl))
               |intros Hv; simplify_eq; rewrite (I2 eq_refl); try done;
                by destruct port_set]]).
Qed.

(** the timeout of the settings is that of the last proxy_timeout field,
    in milliseconds as an unsigned int *)
Lemma parse_fields_from_timeout fields :
  ∀ set address proxying port_set set' address',
    client_proxy_rcpt_parse_fields_from L set fields address proxying port_set
      = (true, set', address') →
    (∀ v, last_field_value "proxy_timeout" fields = Some v →
       ∃ t, str_to_uint L v = Some t ∧ set_timeout_msecs set' = uint (t * 1000))
    ∧ (last_field_value "proxy_timeout" fields = None →
       set_timeout_msecs set' = set_timeout_msecs set).
Proof.
  induction fields as [|arg fields IH];
    intros set address proxying port_set set' address' H.
  - simpl in H. case_match; simplify_eq. done.
  - parse_fields_step IH H;
      (destruct (last_field_value "proxy_timeout" fields) as [v0|];
       [split; [intros v [= <-]; by apply I1 | done]
       |split; [intros v Hv; simplify_eq;
                try (eexists; split; [done|]; by rewrite (I2 eq_refl))
               |intros Hv; simplify_eq; rewrite (I2 eq_refl); try done;
                by destruct port_set]]).
Qed.

(** the port of the settings is that of the last port field; once a port
    field has been read, nothing but a port field changes the port *)
Lemma parse_fields_from_port fields :
  ∀ set address proxying port_set set' address',
    client_proxy_rcpt_parse_fields_from L set fields address proxying port_set
      = (true, set', address') →
    (∀ v, last_field_value "port" fields = Some v →
       net_str2port L v = Some (set_port set'))
    ∧ (last_field_value "port" fields = None → port_set = true →
       set_port set' = set_port set).
Proof.
  induction fields as [|arg fields IH];
    intros set address proxying port_set set' address' H.
  - simpl in H. case_match; simplify_eq. done.
  - parse_fields_step IH H;
      (destruct (last_field_value "port" fields) as [v0|];
       [split; [intros v [= <-]; by apply I1 | done]
       |split; [intros v Hv; simplify_eq; try (by rewrite (I2 eq_refl eq_refl))
               |intros Hv Hps; simplify_eq; rewrite (I2 eq_refl eq_refl); done]]).
Qed.

(** the user name after the fields is the one looked up or the value of a
    user or destuser field *)
Lemma parse_fields_from_username fields :
  ∀ set address proxying port_set,
    let a' := snd (client_proxy_rcpt_parse_fields_from L set fields address
                     proxying port_set) in
    a' = address
    ∨ ∃ f, f ∈ fields
           ∧ (fst (field_key_value f) = "user" ∨ fst (field_key_value f) = "destuser")
           ∧ a' = snd (field_key_value f).
Proof.
  induction fields as [|arg fields IH]; intros set address proxying port_set; simpl.
  - left. by case_match.
  - destruct (field_key_value arg) as [key val] eqn:Hkv.
    assert (Hstep : ∀ set1 pr1 ps1,
      snd (client_proxy_rcpt_parse_fields_from L set1 fields address pr1 ps1) = address
      ∨ ∃ f, f ∈ arg :: fields
             ∧ (fst (field_key_value f) = "user" ∨ fst (field_key_value f) = "destuser")
             ∧ snd (client_proxy_rcpt_parse_fields_from L set1 fields address pr1 ps1)
               = snd (field_key_value f)).
    { intros set1 pr1 ps1. destruct (IH set1 address pr1 ps1) as [Ha | (f & Hin & Hk & Ha)].
      - by left.
      - right. exists f. split_and!; [by apply list_elem_of_further | done | done]. }
    repeat case_match; simplify_eq; try apply Hstep; try (by left).
    destruct (IH set val proxying port_set) as [Ha | (f & Hin & Hk & Ha)].
    + right. exists arg. rewrite Hkv. split_and!; [apply list_elem_of_here | | done].
      cbn [fst].
      match goal with
      | H : (String.eqb key "user" || String.eqb key "destuser")%bool = true |- _ =>
          apply orb_true_iff in H as [H | H]; apply String.eqb_eq in H; auto
      end.
    + right. exists f. split_and!; [by apply list_elem_of_further | done | done].
Qed.

End Fields.


Lemma last_field_value_has_key (key : string) (fields : list string) :
  has_key key fields = true → is_Some (last_field_value key fields).
Proof.
  unfold has_key. induction fields as [|f fields IH]; simpl; [done|].
  intros [Hf | Hrest]%orb_true_iff.
  - rewrite Hf. destruct (last_field_value key fields); by eexists.
  - destruct (IH Hrest) as [v ->]. by eexists.
Qed.

(** X4: a passdb record enables proxying only if it has a proxy field and a
    host field; the host of the settings is then the value of the last host
    field, so the host that [client_proxy_is_ourself] reads is never NULL.
    A record without a proxy field, or without a host field, is not
    proxied. *)
Theorem passdb_fields_proxying (L : library) (set : lmtp_proxy_rcpt_settings)
    (fields : list string) (username : string) :
  set_host set = None →
  (∀ set' username',
     client_proxy_rcpt_parse_fields L set fields username = (true, set', username') →
     has_key "proxy" fields = true
     ∧ has_key "host" fields = true
     ∧ ∃ h, last_field_value "host" fields = Some h ∧ set_host set' = Some h)
  ∧ (has_key "proxy" fields = false →
     fst (fst (client_proxy_rcpt_parse_fields L set fields username)) = false)
  ∧ (has_key "host" fields = false →
     fst (fst (client_proxy_rcpt_parse_fields L set fields username)) = false).
Proof.
  intros Hset. unfold client_proxy_rcpt_parse_fields. split_and!.
  - intros set' username' H.
    destruct (parse_fields_from_proxying L fields _ _ _ _ _ _ H) as ([? | Hp] & _ & Hh);
      [done|].
    specialize (Hh Hset).
    destruct (last_field_value_has_key "host" fields Hh) as [h Hlast].
    split_and!; [done | done |]. exists h. split; [done|].
    by apply (parse_fields_from_host L fields _ _ _ _ _ _ H).
  - apply parse_fields_from_no_proxy.
  - intros Hkey.
    destruct (client_proxy_rcpt_parse_fields_from L set fields username false false)
      as [[b set'] a'] eqn:H.
    destruct b; [|done].
    apply parse_fields_from_proxying in H as (_ & _ & Hh).
    by rewrite (Hh Hset) in Hkey.
Qed.

(** a record with proxy and host, one with proxy only, one with host only *)
Lemma passdb_fields_proxying_witness :
  (∃ set', client_proxy_rcpt_parse_fields lib0
             (proxy_rcpt_defaults (client_mail 5) no_rcpt_params)
             ["proxy"; "host=10.0.0.2"] "p@x" = (true, set', "p@x")
           ∧ set_host set' = Some "10.0.0.2")
  ∧ fst (fst (client_proxy_rcpt_parse_fields lib0
                (proxy_rcpt_defaults (client_mail 5) no_rcpt_params)
                ["host=10.0.0.2"; "port=24"] "p@x")) = false
  ∧ fst (fst (client_proxy_rcpt_parse_fields lib0
                (proxy_rcpt_defaults (client_mail 5) no_rcpt_params)
                ["proxy"; "port=24"] "p@x")) = false.
Proof.
  split; [|split].
  - exists (set_with_host (proxy_rcpt_defaults (client_mail 5) no_rcpt_params)
              "10.0.0.2").
    split; [vm_compute; reflexivity|].
    destruct (passdb_fields_proxying lib0
                (proxy_rcpt_defaults (client_mail 5) no_rcpt_params)
                ["proxy"; "host=10.0.0.2"] "p@x" eq_refl) as (Hon & _).
    destruct (Hon _ "p@x" ltac:(vm_compute; reflexivity)) as (_ & _ & h & Hlast & Hhost).
    vm_compute in Hlast. simplify_eq. exact Hhost.
  - destruct (passdb_fields_proxying lib0
                (proxy_rcpt_defaults (client_mail 5) no_rcpt_params)
                ["host=10.0.0.2"; "port=24"] "p@x" eq_refl) as (_ & Hoff & _).
    apply Hoff. vm_compute. reflexivity.
  - destruct (passdb_fields_proxying lib0
                (proxy_rcpt_defaults (client_mail 5) no_rcpt_params)
                ["proxy"; "port=24"] "p@x" eq_refl) as (_ & _ & Hoff).
    apply Hoff. vm_compute. reflexivity.
Defined.

(** X5: a field of a passdb record whose key is none of proxy, host, hostip,
    port, proxy_timeout, protocol, user and destuser is ignored: wherever it
    stands in the record, the result is that of the record without it. *)
Theorem passdb_fields_unknown_ignored (L : library) (set : lmtp_proxy_rcpt_settings)
    (l1 l2 : list string) (f username : string) :
  known_field_key (fst (field_key_value f)) = false →
  client_proxy_rcpt_parse_fields L set (l1 ++ f :: l2) username
  = client_proxy_rcpt_parse_fields L set (l1 ++ l2) username.
Proof.
  intros Hf. unfold client_proxy_rcpt_parse_fields.
  by apply parse_fields_from_unknown.
Qed.

(** a record with the field "nopassword=y" between proxy and host *)
Lemma passdb_fields_unknown_ignored_witness :
  client_proxy_rcpt_parse_fields lib0
    (proxy_rcpt_defaults (client_mail 5) no_rcpt_params)
    (["proxy"] ++ "nopassword=y" :: ["host=10.0.0.2"]) "p@x"
  = client_proxy_rcpt_parse_fields lib0
      (proxy_rcpt_defaults (client_mail 5) no_rcpt_params)
      (["proxy"] ++ ["host=10.0.0.2"]) "p@x".
Proof.
  apply (passdb_fields_unknown_ignored lib0 _ ["proxy"] ["host=10.0.0.2"]
           "nopassword=y" "p@x").
  vm_compute. reflexivity.
Defined.

(** X6: a field is split at its first '=': a key without '=' followed by
    '=' and any value, which may have further '=' in it, gives back that key
    and that value, and a field without '=' is a key with the empty value.
    The value of a proxy field is not looked at: "proxy=" with any value
    enables proxying as "proxy" does. *)
Theorem passdb_field_split (L : library) (key value : string) :
  (no_equals key = true →
     field_key_value (key +:+ String "=" value) = (key, value))
  ∧ (no_equals key = true → field_key_value key = (key, EmptyString))
  ∧ (∀ set fields username,
       client_proxy_rcpt_parse_fields L set (("proxy" +:+ String "=" value) :: fields)
         username
       = client_proxy_rcpt_parse_fields L set ("proxy" :: fields) username).
Proof.
  unfold field_key_value. split_and!.
  - intros Hk. by rewrite strchr_eq_split.
  - intros Hk. by rewrite strchr_eq_no_equals.
  - intros set fields username.
    unfold client_proxy_rcpt_parse_fields.
    cbn [client_proxy_rcpt_parse_fields_from].
    unfold field_key_value.
    rewrite (strchr_eq_split "proxy" value eq_refl).
    rewrite (strchr_eq_no_equals "proxy" eq_refl). done.
Qed.

(** the field "host=a=b", the field "proxy", and "proxy=no" *)
Lemma passdb_field_split_witness :
  field_key_value "host=a=b" = ("host", "a=b")
  ∧ field_key_value "proxy" = ("proxy", EmptyString)
  ∧ fst (fst (client_proxy_rcpt_parse_fields lib0
                (proxy_rcpt_defaults (client_mail 5) no_rcpt_params)
                ["proxy=no"; "host=10.0.0.2"] "p@x")) = true.
Proof.
  destruct (passdb_field_split lib0 "host" "a=b") as (Hsplit & _ & _).
  destruct (passdb_field_split lib0 "proxy" "no") as (_ & Hbare & Hvalue).
  split; [|split].
  - apply Hsplit. vm_compute. reflexivity.
  - apply Hbare. vm_compute. reflexivity.
  - change ["proxy=no"; "host=10.0.0.2"]
      with (("proxy" +:+ String "=" "no") :: ["host=10.0.0.2"]).
    rewrite Hvalue. vm_compute. reflexivity.
Defined.

(** X7: when a record enables proxying, what it says last counts: the port
    of the settings is the converted value of the last port field, whether a
    protocol field stands before or after it, so the default port of a
    protocol never replaces a port that was given; the timeout is the value
    of the last proxy_timeout field times 1000, as an unsigned int; the host
    is the value of the last host field. *)
Theorem passdb_fields_last_wins (L : library) (set : lmtp_proxy_rcpt_settings)
    (fields : list string) (username : string) set' username' :
  client_proxy_rcpt_parse_fields L set fields username = (true, set', username') →
  (∀ v, last_field_value "port" fields = Some v →
     net_str2port L v = Some (set_port set'))
  ∧ (∀ v, last_field_value "proxy_timeout" fields = Some v →
     ∃ t, str_to_uint L v = Some t ∧ set_timeout_msecs set' = uint (t * 1000))
  ∧ (∀ v, last_field_value "host" fields = Some v → set_host set' = Some v).
Proof.
  unfold client_proxy_rcpt_parse_fields. intros H. split_and!.
  - by apply (parse_fields_from_port L fields _ _ _ _ _ _ H).
  - by apply (parse_fields_from_timeout L fields _ _ _ _ _ _ H).
  - by apply (parse_fields_from_host L fields _ _ _ _ _ _ H).
Qed.

(** a port given before the protocol, and a timeout of 30 seconds *)
Lemma passdb_fields_last_wins_witness :
  ∃ set',
    client_proxy_rcpt_parse_fields lib0
      (proxy_rcpt_defaults (client_mail 5) no_rcpt_params)
      ["proxy"; "host=10.0.0.2"; "port=2525"; "protocol=smtp"; "proxy_timeout=30"]
      "p@x" = (true, set', "p@x")
    ∧ set_protocol set' = SMTP_PROTOCOL_SMTP
    ∧ net_str2port lib0 "2525" = Some (set_port set')
    ∧ ∃ t, str_to_uint lib0 "30" = Some t ∧ set_timeout_msecs set' = uint (t * 1000).
Proof.
  eexists. split; [vm_compute; reflexivity|]. split; [vm_compute; reflexivity|].
  match goal with
  | |- net_str2port lib0 _ = Some (set_port ?s) ∧ _ =>
      destruct (passdb_fields_last_wins lib0
                  (proxy_rcpt_defaults (client_mail 5) no_rcpt_params)
                  ["proxy"; "host=10.0.0.2"; "port=2525"; "protocol=smtp";
                   "proxy_timeout=30"] "p@x" s "p@x")
        as (Hport & Htimeout & _); [vm_compute; reflexivity|]
  end.
  split.
  - apply Hport. vm_compute. reflexivity.
  - apply Htimeout. vm_compute. reflexivity.
Defined.

(** X8: the user name a record ends with is the one that was looked up, or
    the value of one of its user or destuser fields; so a record without
    such a field leaves the user name unchanged. *)
Theorem passdb_fields_username (L : library) (set : lmtp_proxy_rcpt_settings)
    (fields : list string) (username : string) :
  snd (client_proxy_rcpt_parse_fields L set fields username) = username
  ∨ ∃ f, f ∈ fields
         ∧ (fst (field_key_value f) = "user" ∨ fst (field_key_value f) = "destuser")
         ∧ snd (client_proxy_rcpt_parse_fields L set fields username)
           = snd (field_key_value f).
Proof. apply parse_fields_from_username. Qed.

(** ** The target of a proxied recipient *)

(** X9: [client_proxy_is_ourself] is false whenever the port of the target
    is not the local port; whenever no hostip is given and the host does not
    convert to an IP address, so a host given by name is never taken for
    this server; and whenever a hostip is given that is not the local
    address, whatever the host is. *)
Theorem client_proxy_is_ourself_false (L : library) (c : client)
    (set : lmtp_proxy_rcpt_settings) :
  (set_port set ≠ local_port c → client_proxy_is_ourself L c set = false)
  ∧ (family (set_hostip set) = 0 →
     (∀ host, set_host set = Some host → net_addr2ip L host = None) →
     client_proxy_is_ourself L c set = false)
  ∧ (family (set_hostip set) ≠ 0 → set_hostip set ≠ local_ip c →
     client_proxy_is_ourself L c set = false).
Proof.
  unfold client_proxy_is_ourself, proxy_target_ip. split_and!.
  - intros Hport. by destruct (Z.eqb_spec (set_port set) (local_port c)).
  - intros Hfam Hhost. rewrite Hfam. cbn [Z.eqb negb].
    destruct (negb (set_port set =? local_port c)); [done|].
    destruct (set_host set) as [host|]; [|done]. by rewrite (Hhost host eq_refl).
  - intros Hfam Hip.
    destruct (negb (set_port set =? local_port c)); [done|].
    destruct (Z.eqb_spec (family (set_hostip set)) 0); [done|]. cbn [negb].
    destruct (net_ip_compare (set_hostip set) (local_ip c)) eqn:Hcmp; [|done].
    by apply net_ip_compare_eq in Hcmp.
Qed.

(** a target on another port, a host given by name, a hostip elsewhere *)
Lemma client_proxy_is_ourself_false_witness :
  client_proxy_is_ourself lib0 (client_mail 5)
    (set_with_port
       (set_with_host (proxy_rcpt_defaults (client_mail 5) no_rcpt_params) "10.0.0.1")
       24) = false
  ∧ client_proxy_is_ourself lib0 (client_mail 5)
      (set_with_host (proxy_rcpt_defaults (client_mail 5) no_rcpt_params)
         "mx.example.org") = false
  ∧ client_proxy_is_ourself lib0 (client_mail 5)
      (set_with_hostip
         (set_with_host (proxy_rcpt_defaults (client_mail 5) no_rcpt_params)
            "10.0.0.1")
         {| family := AF_INET; ip_bits := 167772162 |}) = false.
Proof.
  split; [|split].
  - destruct (client_proxy_is_ourself_false lib0 (client_mail 5)
                (set_with_port
                   (set_with_host (proxy_rcpt_defaults (client_mail 5) no_rcpt_params)
                      "10.0.0.1") 24)) as (Hport & _ & _).
    apply Hport. vm_compute. discriminate.
  - destruct (client_proxy_is_ourself_false lib0 (client_mail 5)
                (set_with_host (proxy_rcpt_defaults (client_mail 5) no_rcpt_params)
                   "mx.example.org")) as (_ & Hname & _).
    apply Hname.
    + vm_compute. reflexivity.
    + intros host [= <-]. vm_compute. reflexivity.
  - destruct (client_proxy_is_ourself_false lib0 (client_mail 5)
                (set_with_hostip
                   (set_with_host (proxy_rcpt_defaults (client_mail 5) no_rcpt_params)
                      "10.0.0.1")
                   {| family := AF_INET; ip_bits := 167772162 |})) as (_ & _ & Hip).
    apply Hip.
    + vm_compute. discriminate.
    + vm_compute. discriminate.
Defined.

(** X10: when the first recipient routed to a proxy is not taken by the
    proxy, the reply is "451 4.4.0 Remote server not answering" and no
    recipient is added, but the proxy session has been created; DATA tests
    for that session, so it is then answered "354 OK" although the envelope
    has no recipient. *)
Theorem proxy_add_failure_opens_data (L : library) (w w' : world) (c : client)
    (address : smtp_address) (set : lmtp_proxy_rcpt_settings) :
  is_Some (mail_from (state c)) →
  rcpt_to (state c) = [] →
  proxy c = None →
  lmtp_proxy_add_rcpt w address set < 0 →
  ∃ c' p,
    client_proxy_rcpt_add L w c address set = (c', true)
    ∧ output c' = output c ++ ["451 4.4.0 Remote server not answering"]
    ∧ rcpt_to (state c') = []
    ∧ proxy c' = Some p
    ∧ proxy_rcpt_to p = []
    ∧ output (fst (cmd_data L w' c')) = output c' ++ ["354 OK"].
Proof.
  intros [from Hfrom] Hrcpt Hproxy Hadd.
  unfold client_proxy_rcpt_add, array_count. rewrite Hrcpt, Hproxy.
  cbn [length Z.of_nat Z.eqb negb].
  destruct (Z.ltb_spec (lmtp_proxy_add_rcpt w address set) 0); [|lia].
  eexists _, _. split; [done|]. split_and!; try done.
  unfold cmd_data, array_count. cbn [state client_send_line with_output with_proxy proxy].
  by rewrite Hfrom, Hrcpt.
Qed.

(** the sample session when the proxy does not take [p@x] *)
Lemma proxy_add_failure_opens_data_witness :
  ∃ c' p,
    cmd_rcpt lib0 world_add_fails (client_mail 5) "TO:<p@x>" = (c', 0)
    ∧ output c' = output (client_mail 5) ++ ["451 4.4.0 Remote server not answering"]
    ∧ rcpt_to (state c') = []
    ∧ proxy c' = Some p
    ∧ proxy_rcpt_to p = []
    ∧ output (fst (cmd_data lib0 world1 c')) = output c' ++ ["354 OK"].
Proof.
  destruct (proxy_add_failure_opens_data lib0 world_add_fails world1 (client_mail 5)
              (address_of "p" "x")
              (set_with_host (proxy_rcpt_defaults (client_mail 5) no_rcpt_params)
                 "10.0.0.2"))
    as (c' & p & Hadd & Hout & Hrcpt & Hproxy & Hnone & Hdata).
  - vm_compute. eexists. reflexivity.
  - vm_compute. reflexivity.
  - vm_compute. reflexivity.
  - vm_compute. reflexivity.
  - exists c', p. split_and!; try done.
    vm_compute in Hadd. simplify_eq. vm_compute. reflexivity.
Defined.


(** ** More of LHLO, STARTTLS and XCLIENT *)

Lemma lhlo_literal_scan_stop (body rest : string) :
  no_literal_stop body = true →
  lhlo_literal_scan (body +:+ String "]" rest) = Some (String "]" rest).
Proof.
  induction body as [|a body IH]; [done|].
  simpl.
  intros [Ha Hb]%andb_true_iff. apply negb_true_iff in Ha.
  apply orb_false_iff in Ha as [[H1 H2]%orb_false_iff H3].
  rewrite H1, H2, H3. simpl. by apply IH.
Qed.

Lemma lhlo_literal_scan_none (body : string) :
  no_literal_stop body = true → lhlo_literal_scan body = None.
Proof.
  induction body as [|a body IH]; [done|].
  simpl.
  intros [Ha Hb]%andb_true_iff. apply negb_true_iff in Ha.
  apply orb_false_iff in Ha as [[H1 H2]%orb_false_iff H3].
  rewrite H1, H2, H3. simpl. by apply IH.
Qed.

(** X11: for a text without closing bracket, backslash and opening
    bracket: LHLO with that text in brackets is accepted with the whole
    greeting, and the greeting name it stores is empty, not the literal;
    with anything after the closing bracket the name stored is "invalid";
    without the closing bracket the scan of [cmd_lhlo] reads past the end of
    the argument. *)
Theorem cmd_lhlo_literal (L : library) (c : client) (body : string) :
  no_literal_stop body = true →
  (∃ c', cmd_lhlo L c ("[" +:+ body +:+ "]") = Some (c', 0)
         ∧ lhlo c' = EmptyString
         ∧ output c' = output c ++ lhlo_reply c)
  ∧ (∀ a t, ∃ c', cmd_lhlo L c ("[" +:+ body +:+ String "]" (String a t)) = Some (c', 0)
                  ∧ lhlo c' = "invalid"
                  ∧ output c' = output c ++ lhlo_reply c)
  ∧ cmd_lhlo L c ("[" +:+ body) = None.
Proof.
  intros Hbody. split_and!.
  - destruct (cmd_lhlo_parsed L c "[" (body +:+ "]") 0 EmptyString) as (c' & Hc & Hl & Ho).
    { unfold lhlo_parse. cbn [Ascii.eqb Bool.eqb negb].
      by rewrite (lhlo_literal_scan_stop body EmptyString Hbody). }
    exists c'. done.
  - intros a t.
    destruct (cmd_lhlo_parsed L c "[" (body +:+ String "]" (String a t)) (-1) EmptyString)
      as (c' & Hc & Hl & Ho).
    { unfold lhlo_parse. cbn [Ascii.eqb Bool.eqb negb].
      by rewrite (lhlo_literal_scan_stop body (String a t) Hbody). }
    exists c'. done.
  - change ("[" +:+ body) with (String "[" body).
    unfold cmd_lhlo, lhlo_parse. cbn [Ascii.eqb Bool.eqb negb].
    by rewrite (lhlo_literal_scan_none body Hbody).
Qed.

(** the literal of 10.0.0.9 *)
Lemma cmd_lhlo_literal_witness :
  (∃ c', cmd_lhlo lib0 (client0 5) "[10.0.0.9]" = Some (c', 0)
         ∧ lhlo c' = EmptyString
         ∧ output c' = output (client0 5) ++ lhlo_reply (client0 5))
  ∧ cmd_lhlo lib0 (client0 5) "[10.0.0.9" = None.
Proof.
  destruct (cmd_lhlo_literal lib0 (client0 5) "10.0.0.9") as (Hok & _ & Hpast).
  - vm_compute. reflexivity.
  - split; [exact Hok | exact Hpast].
Defined.

(** X12: what LHLO advertises is what the handlers do.  The XCLIENT line is
    in the greeting exactly when no XCLIENT of this client is answered "550
    You are not from trusted IP".  When the STARTTLS line is in the greeting,
    STARTTLS is not answered "443 5.5.1 TLS is already active.", and once
    TLS is active the greeting no longer has the line. *)
Theorem lhlo_advertises_handlers (L : library) (w : world) (c : client) :
  (In "250-XCLIENT ADDR PORT TTL TIMEOUT" (tl (lhlo_reply c))
   ↔ ∀ args, last (output (fst (cmd_xclient L c args)))
             ≠ Some "550 You are not from trusted IP")
  ∧ (In "250-STARTTLS" (tl (lhlo_reply c)) →
     last (output (fst (cmd_starttls w c))) ≠ Some "443 5.5.1 TLS is already active.")
  ∧ (is_Some (ssl_iostream c) → ¬ In "250-STARTTLS" (tl (lhlo_reply c))).
Proof.
  unfold lhlo_reply, client_is_trusted. cbn [app tl]. split_and!.
  - unfold cmd_xclient, client_is_trusted. split.
    + intros Hin args. destruct (trusted c) eqn:Ht.
      * cbn [negb]. destruct (negb (x_args_ok (cmd_xclient_attrs L args)));
          cbn [fst client_send_line with_output output]; rewrite last_snoc;
          intros [= H]; discriminate.
      * exfalso. destruct (ssl_enabled c && is_null (ssl_iostream c))%bool;
          cbn [app] in Hin; simpl in Hin; intuition discriminate.
    + intros Hall. destruct (trusted c) eqn:Ht.
      * apply in_or_app. right. by left.
      * exfalso. apply (Hall EmptyString). cbn [negb fst client_send_line with_output output].
        by rewrite last_snoc.
  - intros Hin. unfold cmd_starttls.
    destruct (ssl_iostream c) as [ssl|] eqn:Hssl.
    + exfalso. rewrite andb_false_r in Hin. cbn [app] in Hin.
      destruct (trusted c); simpl in Hin; intuition discriminate.
    + destruct (master_service_ssl_init w) as [e | ssl].
      * cbn [fst client_send_line with_output output]. rewrite last_snoc.
        intros [= H]; discriminate.
      * destruct (ssl_iostream_handshake w <? 0);
          cbn [fst client_destroy with_destroyed client_send_line with_output output
                 with_ssl_iostream];
          rewrite last_snoc; intros [= H]; discriminate.
  - intros [ssl Hssl] Hin. rewrite Hssl, andb_false_r in Hin. cbn [app] in Hin.
    destruct (trusted c); simpl in Hin; intuition discriminate.
Qed.

(** the greeting of the trusted sample client has both lines *)
Lemma lhlo_advertises_handlers_witness :
  (∀ args, last (output (fst (cmd_xclient lib0 (client0 5) args)))
           ≠ Some "550 You are not from trusted IP")
  ∧ last (output (fst (cmd_starttls world1 (client0 5))))
    ≠ Some "443 5.5.1 TLS is already active."
  ∧ ¬ In "250-STARTTLS"
        (tl (lhlo_reply (with_ssl_iostream (client0 5) (Some "TLSv1.2")))).
Proof.
  destruct (lhlo_advertises_handlers lib0 world1 (client0 5)) as (Hx & Htls & _).
  destruct (lhlo_advertises_handlers lib0 world1
              (with_ssl_iostream (client0 5) (Some "TLSv1.2"))) as (_ & _ & Hactive).
  split; [|split].
  - apply Hx. vm_compute. right. left. reflexivity.
  - apply Htls. vm_compute. left. reflexivity.
  - apply Hactive. vm_compute. eexists. reflexivity.
Defined.

(** X13: STARTTLS returns 0 or -1.  It returns -1 exactly when TLS was not
    active, TLS initialization succeeded and the handshake failed; the 220
    reply has then been sent and the client is destroyed.  When it returns 0
    the client is not destroyed by it, and when it returns 0 after the 220
    reply, any further STARTTLS is answered "443 5.5.1 TLS is already
    active." and changes nothing else. *)
Theorem cmd_starttls_handshake (w : world) (c : client) :
  let c' := fst (cmd_starttls w c) in
  let ret := snd (cmd_starttls w c) in
  (ret = 0 ∨ ret = -1)
  ∧ (ret = -1 ↔ ssl_iostream c = None
                ∧ (∃ ssl, master_service_ssl_init w = inr ssl)
                ∧ ssl_iostream_handshake w < 0)
  ∧ (ret = -1 →
     destroyed c' = true
     ∧ output c' = output c ++ ["220 2.0.0 Begin TLS negotiation now."])
  ∧ (ret = 0 → destroyed c' = destroyed c)
  ∧ (ret = 0 → last (output c') = Some "220 2.0.0 Begin TLS negotiation now." →
     ∀ w', cmd_starttls w' c' = (client_send_line c' "443 5.5.1 TLS is already active.", 0)).
Proof.
  unfold cmd_starttls.
  destruct (ssl_iostream c) as [ssl|] eqn:Hssl.
  { cbn [fst snd]. split_and!; try done; auto.
    - split; [done | by intros [? _]].
    - intros _ _ w'. cbn [client_send_line with_output ssl_iostream]. by rewrite Hssl. }
  destruct (master_service_ssl_init w) as [e | ssl] eqn:Hinit.
  { cbn [fst snd]. split_and!; try done; auto.
    - split; [done | by intros (_ & [? ?] & _)].
    - intros _. cbn [client_send_line with_output output]. rewrite last_snoc.
      intros [= H]; discriminate. }
  destruct (Z.ltb_spec (ssl_iostream_handshake w) 0) as [Hh | Hh]; cbn [fst snd].
  - split_and!; try done; auto. split; [|done]. intros _. split_and!; [done | by eexists | done].
  - split_and!; try done; auto.
    split; [done | intros (_ & _ & ?); lia].
Qed.

(** a failing handshake, and STARTTLS after a successful STARTTLS *)
Lemma cmd_starttls_handshake_witness :
  destroyed (fst (cmd_starttls world_handshake_fails (client0 5))) = true
  ∧ output (fst (cmd_starttls world_handshake_fails (client0 5)))
    = output (client0 5) ++ ["220 2.0.0 Begin TLS negotiation now."]
  ∧ cmd_starttls world1 (fst (cmd_starttls world1 (client0 5)))
    = (client_send_line (fst (cmd_starttls world1 (client0 5)))
         "443 5.5.1 TLS is already active.", 0).
Proof.
  destruct (cmd_starttls_handshake world_handshake_fails (client0 5))
    as (_ & _ & Hfail & _).
  destruct (cmd_starttls_handshake world1 (client0 5)) as (_ & _ & _ & _ & Hagain).
  destruct Hfail as [Hd Ho]; [vm_compute; reflexivity|].
  split; [exact Hd|]. split; [exact Ho|].
  apply Hagain; vm_compute; reflexivity.
Defined.

Lemma strncasecmp_eq_head (s : string) (a b : ascii) (p q : string) :
  ascii_tolower a ≠ ascii_tolower b →
  strncasecmp_eq s (String a p) = true → strncasecmp_eq s (String b q) = false.
Proof.
  intros Hab. destruct s as [|x s]; [done|]. cbn [strncasecmp_eq].
  intros [Hx _]%andb_true_iff. apply Ascii.eqb_eq in Hx.
  destruct (Ascii.eqb_spec (ascii_tolower x) (ascii_tolower b)); [congruence | done].
Qed.

Section XclientArgs.

Variable L : library.

(** one attribute makes [args_ok] false exactly when it was false or the
    attribute is invalid *)
Lemma cmd_xclient_attr_ok (x : xclient_locals) (tmp : string) :
  x_args_ok (cmd_xclient_attr L x tmp) = false
  ↔ x_args_ok x = false ∨ xclient_attr_invalid L tmp.
Proof.
  unfold cmd_xclient_attr, xclient_attr_invalid, xclient_addr_text.
  destruct (strncasecmp_eq tmp "ADDR=") eqn:Haddr.
  { assert (Hp : strncasecmp_eq tmp "PORT=" = false)
      by (eapply strncasecmp_eq_head; [|exact Haddr]; vm_compute; discriminate).
    assert (Ht : strncasecmp_eq tmp "TTL=" = false)
      by (eapply strncasecmp_eq_head; [|exact Haddr]; vm_compute; discriminate).
    assert (Hm : strncasecmp_eq tmp "TIMEOUT=" = false)
      by (eapply strncasecmp_eq_head; [|exact Haddr]; vm_compute; discriminate).
    rewrite Hp, Ht, Hm.
    destruct (strncasecmp_eq (str_skip 5 tmp) "IPV6:") eqn:H6.
    - destruct (net_addr2ip L (str_skip 5 (str_skip 5 tmp))) as [ip|] eqn:Hip;
        cbn [x_args_ok andb].
      + destruct (Z.eqb_spec (family ip) AF_INET6) as [Hf | Hf]; cbn [negb].
        * split; [by left|]. intros [? | [[_ [? | (ip' & ? & _ & ?)]] | H]]; try done.
          -- by simplify_eq.
          -- destruct H as [[? _] | [[? _] | [? _]]]; done.
        * split; [|done]. intros _. right. left. split; [done|]. right. by exists ip.
      + split; [|done]. intros _. right. left. split; [done|]. by left.
    - destruct (net_addr2ip L (str_skip 5 tmp)) as [ip|] eqn:Hip; cbn [x_args_ok andb].
      + split; [by left|]. intros [? | [[_ [? | (ip' & ? & ? & ?)]] | H]]; try done.
        destruct H as [[? _] | [[? _] | [? _]]]; done.
      + split; [|done]. intros _. right. left. split; [done|]. by left. }
  destruct (strncasecmp_eq tmp "PORT=") eqn:Hport.
  { assert (Ht : strncasecmp_eq tmp "TTL=" = false)
      by (eapply strncasecmp_eq_head; [|exact Hport]; vm_compute; discriminate).
    rewrite Ht.
    destruct (net_str2port L (str_skip 5 tmp)) eqn:Hconv; cbn [x_args_ok].
    - split; [by left|]. intros [? | [[? _] | [[_ ?] | [[? _] | [H _]]]]]; try done.
      eapply strncasecmp_eq_head in Hport; [by rewrite Hport in H|].
      vm_compute. discriminate.
    - split; [|done]. intros _. right. right. by left. }
  destruct (strncasecmp_eq tmp "TTL=") eqn:Httl.
  { destruct (str_to_uint L (str_skip 4 tmp)) eqn:Hconv; cbn [x_args_ok].
    - split; [by left|]. intros [? | [[? _] | [[? _] | [[_ ?] | [H _]]]]]; try done.
      destruct tmp as [|t0 tmp]; [done|]. cbn [strncasecmp_eq] in Httl, H.
      apply andb_true_iff in Httl as [_ Httl].
      apply andb_true_iff in H as [_ H].
      eapply strncasecmp_eq_head in Httl; [by rewrite Httl in H|].
      vm_compute. discriminate.
    - split; [|done]. intros _. right. right. right. by left. }
  destruct (strncasecmp_eq tmp "TIMEOUT=") eqn:Htmo.
  { destruct (str_to_uint L (str_skip 8 tmp)) eqn:Hconv; cbn [x_args_ok].
    - split; [by left|]. intros [? | [[? _] | [[? _] | [[? _] | [_ ?]]]]]; done.
    - split; [|done]. intros _. right. right. right. by right. }
  split; [by left|]. intros [? | [[? _] | [[? _] | [[? _] | [? _]]]]]; done.
Qed.

Lemma cmd_xclient_attrs_ok (tokens : list string) :
  ∀ x0 : xclient_locals,
    x_args_ok (fold_left (cmd_xclient_attr L) tokens x0) = false
    ↔ x_args_ok x0 = false ∨ ∃ tmp, tmp ∈ tokens ∧ xclient_attr_invalid L tmp.
Proof.
  induction tokens as [|tmp tokens IH]; intros x0; cbn [fold_left].
  - split; [by left|]. intros [? | (tmp & Hin & _)]; [done|]. by apply elem_of_nil in Hin.
  - rewrite IH, cmd_xclient_attr_ok. split.
    + intros [[? | ?] | (t & Hin & Ht)].
      * by left.
      * right. exists tmp. split; [apply list_elem_of_here | done].
      * right. exists t. split; [by apply list_elem_of_further | done].
    + intros [? | (t & Hin & Ht)]; [by left; left|].
      apply elem_of_cons in Hin as [-> | Hin].
      * left. by right.
      * right. by exists t.
Qed.

End XclientArgs.

(** X14: XCLIENT of a client that is not trusted is answered "550 You are
    not from trusted IP".  XCLIENT of a trusted client is answered "501
    Invalid parameters" exactly when one of its attributes is invalid,
    wherever it stands among the others; attributes with other names are
    ignored.  In both cases nothing else of the client changes. *)
Theorem cmd_xclient_refused (L : library) (c : client) (args : string) :
  (client_is_trusted c = false →
     cmd_xclient L c args = (client_send_line c "550 You are not from trusted IP", 0))
  ∧ (client_is_trusted c = true →
     (cmd_xclient L c args = (client_send_line c "501 Invalid parameters", 0)
      ↔ ∃ tmp, tmp ∈ t_strsplit L args " " ∧ xclient_attr_invalid L tmp)).
Proof.
  unfold cmd_xclient. split.
  - by intros ->.
  - intros ->. cbn [negb].
    pose proof (cmd_xclient_attrs_ok L (t_strsplit L args " ") xclient_locals_init) as Hok.
    fold (cmd_xclient_attrs L args) in Hok.
    destruct (x_args_ok (cmd_xclient_attrs L args)) eqn:Hargs; cbn [negb].
    + split.
      * intros H. exfalso. apply (f_equal (λ r, output (fst r))) in H.
        cbn [fst client_send_line with_output output with_xclient client_state_reset
               with_dot_input with_proxy with_state] in H.
        apply app_inv_head in H. simpl in H. discriminate.
      * intros Hbad. exfalso.
        assert (true = false); [|done]. apply Hok. by right.
    + split; [|done]. intros _.
      destruct (proj1 Hok eq_refl) as [? | ?]; done.
Qed.

(** a port that is no number after a valid address; a client not trusted *)
Lemma cmd_xclient_refused_witness :
  cmd_xclient lib0 client_untrusted "ADDR=1.2.3.4"
  = (client_send_line client_untrusted "550 You are not from trusted IP", 0)
  ∧ cmd_xclient lib0 (client0 5) "ADDR=1.2.3.4 PORT=x TTL=3"
    = (client_send_line (client0 5) "501 Invalid parameters", 0).
Proof.
  destruct (cmd_xclient_refused lib0 client_untrusted "ADDR=1.2.3.4") as (Hno & _).
  destruct (cmd_xclient_refused lib0 (client0 5) "ADDR=1.2.3.4 PORT=x TTL=3")
    as (_ & Hbad).
  split.
  - apply Hno. vm_compute. reflexivity.
  - apply Hbad; [vm_compute; reflexivity|].
    exists "PORT=x". split.
    + vm_compute. apply list_elem_of_further, list_elem_of_here.
    + right. left. split; vm_compute; reflexivity.
Defined.


(** ** The added headers and the replies after DATA *)

Lemma string_append_assoc (s1 s2 s3 : string) :
  (s1 +:+ s2) +:+ s3 = s1 +:+ (s2 +:+ s3).
Proof.
  induction s1 as [|a s1 IH]; [done|].
  change (String a ((s1 +:+ s2) +:+ s3) = String a (s1 +:+ (s2 +:+ s3))).
  by f_equal.
Qed.

(** X15: the headers added to the mail start with the Return-Path line of
    the envelope sender exactly when the envelope has local recipients;
    with none, as when all recipients are proxied, they start with the
    Received line.  With two or more local recipients the headers name no
    recipient: they are the same for any two such lists of recipients. *)
Theorem client_get_added_headers_recipients (L : library) (w : world) (c : client) :
  (rcpt_to (state c) = [] →
     ∃ rest, client_get_added_headers L w c = "Received: from " +:+ lhlo c +:+ rest)
  ∧ (rcpt_to (state c) ≠ [] →
     ∃ rest, client_get_added_headers L w c
             = "Return-Path: <" +:+ encode_opt L (mail_from (state c)) +:+ ">"
               +:+ CRLF +:+ rest)
  ∧ (∀ l1 l2, 2 ≤ array_count l1 → 2 ≤ array_count l2 →
       client_get_added_headers L w (with_rcpt_to c l1)
       = client_get_added_headers L w (with_rcpt_to c l2)).
Proof.
  split_and!.
  - intros Hnone. unfold client_get_added_headers, array_count. rewrite Hnone.
    cbn [length Z.of_nat Z.ltb Z.compare]. eexists. reflexivity.
  - intros Hsome. unfold client_get_added_headers, array_count.
    destruct (rcpt_to (state c)) as [|r l]; [done|].
    replace (0 <? Z.of_nat (length (r :: l))) with true
      by (symmetry; apply Z.ltb_lt; simpl; lia).
    eexists. rewrite !string_append_assoc. reflexivity.
  - intros l1 l2 H1 H2. unfold client_get_added_headers, with_rcpt_to, array_count in *.
    cbn [state with_state rcpt_to st_with_rcpt_to mail_from lhlo remote_ip ssl_iostream
           my_domain session_id].
    destruct l1 as [|a1 [|b1 l1]]; [simpl in H1; lia | simpl in H1; lia |].
    destruct l2 as [|a2 [|b2 l2]]; [simpl in H2; lia | simpl in H2; lia |].
    replace (0 <? Z.of_nat (length (a1 :: b1 :: l1))) with true
      by (symmetry; apply Z.ltb_lt; simpl; lia).
    replace (0 <? Z.of_nat (length (a2 :: b2 :: l2))) with true
      by (symmetry; apply Z.ltb_lt; simpl; lia).
    reflexivity.
Qed.

(** the session with two local recipients and the one with none *)
Lemma client_get_added_headers_recipients_witness :
  (∃ rest, client_get_added_headers lib0 world1 (client_proxied 5)
           = "Received: from " +:+ lhlo (client_proxied 5) +:+ rest)
  ∧ (∃ rest, client_get_added_headers lib0 world1 (client_local2 5)
             = "Return-Path: <" +:+ encode_opt lib0 (mail_from (state (client_local2 5)))
               +:+ ">" +:+ CRLF +:+ rest)
  ∧ client_get_added_headers lib0 world1
      (with_rcpt_to (client_mail 5) (rcpt_to (state (client_local2 5))))
    = client_get_added_headers lib0 world1
        (with_rcpt_to (client_mail 5) (rev (rcpt_to (state (client_local2 5))))).
Proof.
  destruct (client_get_added_headers_recipients lib0 world1 (client_proxied 5))
    as (Hnone & _ & _).
  destruct (client_get_added_headers_recipients lib0 world1 (client_local2 5))
    as (_ & Hsome & _).
  destruct (client_get_added_headers_recipients lib0 world1 (client_mail 5))
    as (_ & _ & Hmany).
  split; [|split].
  - apply Hnone. vm_compute. reflexivity.
  - apply Hsome. vm_compute. discriminate.
  - apply Hmany; vm_compute; discriminate.
Defined.

(** X16: when the mail cannot be opened as a raw mail, every local
    recipient of the envelope is answered once, in the order of the
    envelope, with the temporary failure reply for its address, and nothing
    else of the client changes; [client_open_raw_mail] then returns -1.
    Otherwise it returns 0 and sends nothing. *)
Theorem client_open_raw_mail_replies (L : library) (alloc_ret : Z) (c : client) :
  (alloc_ret < 0 →
     client_open_raw_mail L alloc_ret c
     = (with_output c
          (output c
           ++ map (λ rcpt, temp_mailbox_fail_reply L (rcpt_address rcpt))
                (rcpt_to (state c))), -1)
     ∧ length (output (fst (client_open_raw_mail L alloc_ret c)))
       = (length (output c) + length (rcpt_to (state c)))%nat)
  ∧ (0 ≤ alloc_ret → client_open_raw_mail L alloc_ret c = (c, 0)).
Proof.
  unfold client_open_raw_mail, client_rcpt_fail_all. split.
  - intros Hret. destruct (Z.ltb_spec alloc_ret 0); [|lia].
    assert (Hfold : ∀ l c0,
      fold_left (λ c rcpt, client_send_line c (temp_mailbox_fail_reply L (rcpt_address rcpt)))
        l c0
      = with_output c0
          (output c0 ++ map (λ rcpt, temp_mailbox_fail_reply L (rcpt_address rcpt)) l)).
    { induction l as [|r l IH]; intros c0; cbn [fold_left map].
      - rewrite app_nil_r. by destruct c0.
      - rewrite IH. unfold client_send_line. cbn [with_output output].
        by rewrite <- app_assoc. }
    rewrite Hfold. split; [done|].
    cbn [fst with_output output]. by rewrite length_app, length_map.
  - intros Hret. by destruct (Z.ltb_spec alloc_ret 0); [lia|].
Qed.

(** the session with two local recipients *)
Lemma client_open_raw_mail_replies_witness :
  output (fst (client_open_raw_mail lib0 (-1) (client_local2 5)))
  = output (client_local2 5)
    ++ ["451 4.3.0 <u@local> Temporary internal error";
        "451 4.3.0 <v+d@local> Temporary internal error"]
  ∧ client_open_raw_mail lib0 0 (client_local2 5) = (client_local2 5, 0).
Proof.
  destruct (client_open_raw_mail_replies lib0 (-1) (client_local2 5)) as (Hfail & _).
  destruct (client_open_raw_mail_replies lib0 0 (client_local2 5)) as (_ & Hok).
  split.
  - destruct Hfail as [-> _]; [lia|]. vm_compute. reflexivity.
  - apply Hok. lia.
Defined.


(** ** The payload sink, whatever the file system does *)

Section SinkOutcome.

Variable MAX : Z.

Local Arguments array_count : simpl never.

(** one [client_input_add], whatever its result *)
Lemma client_input_add_outcome io c fs data c' fs' ret :
  client_input_add MAX io c fs data = (c', fs', ret) →
  array_count (mail_data_buf (state c)) ≤ MAX →
  array_count data + MAX < 2 ^ 64 →
  array_count (mail_data_buf (state c')) ≤ MAX
  ∧ output c' = output c ∧ destroyed c' = destroyed c
  ∧ temp_prefix c' = temp_prefix c
  ∧ (ret = 0 ∨ ret = -1)
  ∧ (is_Some (io_mkstemp io) → io_unlink_ok io = true → io_write_ok io = true → ret = 0)
  ∧ ((∀ suffix fd, io_mkstemp io = Some (suffix, fd) → temp_prefix c +:+ suffix ∉ fs) →
     io_unlink_ok io = true → fs' = fs).
Proof.
  unfold client_input_add, client_input_add_file, size_add.
  intros H Hbuf Hsize.
  pose proof (array_count_nonneg data) as Hd.
  pose proof (array_count_nonneg (mail_data_buf (state c))) as Hb.
  destruct (mail_data_output (state c)) as [o|] eqn:Ho.
  - rewrite andb_false_r in H.
    destruct (io_write_ok io) eqn:Hw; simplify_eq; cbn [state with_state st_with_file
      mail_data_buf mail_data output destroyed temp_prefix];
      split_and!; try done; auto.
  - rewrite andb_true_r in H. rewrite Z.mod_small in H by lia.
    destruct (Z.leb_spec (array_count (mail_data_buf (state c)) + array_count data) MAX).
    + simplify_eq. cbn [state with_state output destroyed temp_prefix].
      rewrite mail_data_buf_payload, array_count_app. split_and!; try done; auto.
    + destruct (io_mkstemp io) as [[suffix fd]|] eqn:Hmk.
      * destruct (io_unlink_ok io) eqn:Hul; cbn [negb] in H.
        -- assert (Hfs : temp_prefix c +:+ suffix ∉ fs →
                         ({[temp_prefix c +:+ suffix]} ∪ fs) ∖ {[temp_prefix c +:+ suffix]}
                         = fs).
           { intros Hn. apply set_eq. intros x.
             rewrite elem_of_difference, elem_of_union, elem_of_singleton.
             split; [by intros [[? | ?] ?] | intros ?; split; [by right | by intros ->]]. }
           destruct (io_write_ok io) eqn:Hw; simplify_eq;
             cbn [state with_state st_with_file mail_data_buf mail_data output destroyed
                    temp_prefix];
             split_and!; try done; auto.
           all: intros Hfresh _; apply Hfs; by eapply Hfresh.
        -- simplify_eq. split_and!; try done; auto.
      * simplify_eq. split_and!; try done; auto.
Qed.

(** all the chunks of a body, whatever the result *)
Lemma client_input_add_all_outcome body :
  ∀ c fs c' fs' ret,
    client_input_add_all MAX c fs body = (c', fs', ret) →
    array_count (mail_data_buf (state c)) ≤ MAX →
    Forall (λ chunk, array_count (snd chunk) + MAX < 2 ^ 64) body →
    array_count (mail_data_buf (state c')) ≤ MAX
    ∧ output c' = output c ∧ destroyed c' = destroyed c
    ∧ temp_prefix c' = temp_prefix c
    ∧ (ret = 0 ∨ ret = -1)
    ∧ (Forall (λ chunk, is_Some (io_mkstemp (fst chunk))
                        ∧ io_unlink_ok (fst chunk) = true
                        ∧ io_write_ok (fst chunk) = true) body → ret = 0)
    ∧ (Forall (λ chunk, (∀ suffix fd, io_mkstemp (fst chunk) = Some (suffix, fd) →
                           temp_prefix c +:+ suffix ∉ fs)
                        ∧ io_unlink_ok (fst chunk) = true) body → fs' = fs).
Proof.
  induction body as [|[io data] body IH]; intros c fs c' fs' ret H Hbuf Hall;
    cbn [client_input_add_all] in H.
  - simplify_eq. split_and!; try done; auto.
  - destruct (client_input_add MAX io c fs data) as [[c1 fs1] r1] eqn:Hadd.
    apply Forall_cons in Hall as [Hdata Hall]. cbn [snd] in Hdata.
    apply client_input_add_outcome in Hadd
      as (Hb1 & Ho1 & Hd1 & Ht1 & Hr1 & Hfine1 & Hfs1); [|done..].
    destruct (Z.ltb_spec r1 0) as [Hneg | Hpos].
    + simplify_eq. split_and!; try done.
      * intros [(Hmk & Hul & Hw) _]%Forall_cons. cbn [fst] in *.
        specialize (Hfine1 Hmk Hul Hw). lia.
      * intros [(Hfresh & Hul) _]%Forall_cons. cbn [fst] in *. by apply Hfs1.
    + apply IH in H as (Hb2 & Ho2 & Hd2 & Ht2 & Hr2 & Hfine2 & Hfs2); [|done..].
      split_and!; try done; try congruence.
      * intros [_ Hrest]%Forall_cons. by apply Hfine2.
      * intros [(Hfresh & Hul) Hrest]%Forall_cons. cbn [fst] in *.
        specialize (Hfs1 Hfresh Hul). subst fs1.
        apply Hfs2. rewrite Ht1. exact Hrest.
Qed.

End SinkOutcome.

Lemma fold_send_destroyed (ls : list string) (c : client) :
  destroyed (fold_left client_send_line ls c) = destroyed c.
Proof.
  revert c. induction ls as [|l ls IH]; intros c; [done|].
  cbn [fold_left]. by rewrite IH.
Qed.

(** X17: for a DATA body, starting from the empty buffer that [cmd_data]
    creates, and whatever the file system does: adding the chunks returns 0
    or -1, sends no reply and does not destroy the client; the in-memory
    buffer never holds more than the ceiling, also after a failure; when
    the file system does all it is asked the result is 0; and when every
    unlink succeeds and the temp file names are new, no name is left in the
    file system, also after a failure.  The size hypothesis keeps the size_t
    sum of the test from wrapping. *)
Theorem client_input_add_any_outcome (MAX : Z) (c : client) (fs : gset string)
    (body : list (io_outcome * list byte)) c' fs' ret :
  0 ≤ MAX →
  mail_data (state c) = Some [] →
  Forall (λ chunk, array_count (snd chunk) + MAX < 2 ^ 64) body →
  client_input_add_all MAX c fs body = (c', fs', ret) →
  (ret = 0 ∨ ret = -1)
  ∧ array_count (mail_data_buf (state c')) ≤ MAX
  ∧ output c' = output c
  ∧ destroyed c' = destroyed c
  ∧ (Forall (λ chunk, is_Some (io_mkstemp (fst chunk))
                      ∧ io_unlink_ok (fst chunk) = true
                      ∧ io_write_ok (fst chunk) = true) body → ret = 0)
  ∧ (Forall (λ chunk, (∀ suffix fd, io_mkstemp (fst chunk) = Some (suffix, fd) →
                         temp_prefix c +:+ suffix ∉ fs)
                      ∧ io_unlink_ok (fst chunk) = true) body → fs' = fs).
Proof.
  intros HMAX Hdata Hall Hrun.
  destruct (client_input_add_all_outcome MAX body c fs c' fs' ret Hrun)
    as (Hb & Ho & Hd & _ & Hr & Hfine & Hfs); [|done|done].
  unfold mail_data_buf. by rewrite Hdata.
Qed.

(** the body of 14 bytes when the temp file cannot be created: the first
    chunk is in the buffer, the second fails *)
Lemma client_input_add_any_outcome_witness :
  ∃ c' fs',
    client_input_add_all MAX0 (client_data 5) ∅
      [(io_fine, bytes_of "Hello"); (io_no_tempfile, bytes_of ", worl")]
    = (c', fs', -1)
    ∧ array_count (mail_data_buf (state c')) ≤ MAX0
    ∧ output c' = output (client_data 5)
    ∧ fs' = ∅.
Proof.
  destruct (client_input_add_all MAX0 (client_data 5) ∅
              [(io_fine, bytes_of "Hello"); (io_no_tempfile, bytes_of ", worl")])
    as [[c' fs'] ret] eqn:Hrun.
  destruct (client_input_add_any_outcome MAX0 (client_data 5) ∅
              [(io_fine, bytes_of "Hello"); (io_no_tempfile, bytes_of ", worl")]
              c' fs' ret)
    as (_ & Hbuf & Hout & _ & _ & Hfs).
  - vm_compute. discriminate.
  - vm_compute. reflexivity.
  - repeat constructor; vm_compute; reflexivity.
  - exact Hrun.
  - exists c', fs'. split_and!; [|done|done|].
    + f_equal. apply (f_equal snd) in Hrun. vm_compute in Hrun. congruence.
    + apply Hfs. repeat constructor; try (vm_compute; reflexivity).
      * intros suffix fd _. apply not_elem_of_empty.
      * intros suffix fd _. apply not_elem_of_empty.
Defined.

(** X18: how DATA ends, for a body added to the empty buffer that
    [cmd_data] creates.  When adding a chunk fails, the client is destroyed
    after the single reply "451 4.3.0 Temporary internal failure" and
    nothing is delivered.  When the body stream ends in an error, the client
    is destroyed without a reply.  When the "." line is seen, the replies
    are those of local delivery to the local recipients, if there are any,
    then those of the proxy session, if there is one, each given the added
    headers followed by the bytes of the body; the envelope and the payload
    state are then reset and the client is not destroyed by it. *)
Theorem client_input_data_handle_outcomes (MAX : Z) (w : world) (c : client)
    (fs : gset string) (body : list (io_outcome * list byte)) (fin : dot_end)
    c1 fs1 ret :
  0 ≤ MAX →
  mail_data (state c) = Some [] →
  mail_data_output (state c) = None →
  Forall (λ chunk, array_count (snd chunk) + MAX < 2 ^ 64) body →
  client_input_add_all MAX c fs body = (c1, fs1, ret) →
  let c' := fst (client_input_data_handle MAX w c fs body fin) in
  let input := added_header_bytes c ++ body_bytes body in
  (ret < 0 →
     destroyed c' = true
     ∧ output c' = output c ++ ["451 4.3.0 Temporary internal failure"])
  ∧ (ret = 0 → fin = DotError → destroyed c' = true ∧ output c' = output c)
  ∧ (ret = 0 → fin = DotLine →
     destroyed c' = destroyed c
     ∧ output c'
       = output c
         ++ (if array_count (rcpt_to (state c)) =? 0 then []
             else local_delivery w (rcpt_to (state c)) input)
         ++ match proxy c with
            | Some p => proxy_delivery w p input
            | None => []
            end
     ∧ mail_from (state c') = None ∧ rcpt_to (state c') = [] ∧ proxy c' = None
     ∧ mail_data (state c') = None ∧ mail_data_output (state c') = None
     ∧ dot_input c' = false).
Proof.
  intros HMAX Hdata Hout Hall Hrun c' input. subst c' input.
  unfold client_input_data_handle. rewrite Hrun.
  assert (Hbuf : array_count (mail_data_buf (state c)) ≤ MAX).
  { unfold mail_data_buf. by rewrite Hdata. }
  destruct (client_input_add_all_outcome MAX body c fs c1 fs1 ret Hrun Hbuf Hall)
    as (_ & Ho & Hd & _ & Hr & _).
  destruct (client_input_add_all_effect MAX body c fs c1 fs1 ret Hrun) as (_ & Hrc & Hpx).
  split_and!.
  - intros Hneg. destruct (Z.ltb_spec ret 0); [|lia].
    cbn [fst client_destroy with_destroyed client_send_line with_output destroyed output].
    by rewrite Ho.
  - intros -> ->. cbn [Z.ltb Z.compare fst client_destroy with_destroyed destroyed output].
    done.
  - intros -> ->. cbn [Z.ltb Z.compare fst].
    assert (Hok : sink_ok MAX c fs).
    { unfold sink_ok. rewrite Hout. split; [by eexists | done]. }
    destruct (client_input_add_all_ok MAX body c fs c1 fs1 Hrun Hok Hall)
      as (_ & Hbytes & Hhdr & _).
    assert (Hinput : client_get_input
                       (with_state (with_dot_input c1 false)
                          (st_with_data_end (state (with_dot_input c1 false))
                             (ioloop_time w)))
                     = added_header_bytes c ++ body_bytes body).
    { unfold client_get_input, added_header_bytes.
      cbn [state with_state with_dot_input st_with_data_end added_headers
             mail_data_output mail_data_buf mail_data].
      rewrite Hhdr. f_equal.
      unfold sink_bytes, mail_data_buf in Hbytes. rewrite Hout, Hdata in Hbytes.
      exact Hbytes. }
    unfold client_input_data_write. rewrite Hinput.
    cbn [state with_state with_dot_input st_with_data_end rcpt_to proxy].
    rewrite Hrc.
    set (c2 := with_state (with_dot_input c1 false)
                 (st_with_data_end (state c1) (ioloop_time w))).
    set (c3 := if negb (array_count (rcpt_to (state c)) =? 0)
               then fold_left client_send_line
                      (local_delivery w (rcpt_to (state c))
                         (added_header_bytes c ++ body_bytes body)) c2
               else c2).
    assert (H3 : proxy c3 = proxy c ∧ destroyed c3 = destroyed c
                 ∧ output c3 = output c
                     ++ (if array_count (rcpt_to (state c)) =? 0 then []
                         else local_delivery w (rcpt_to (state c))
                                (added_header_bytes c ++ body_bytes body))).
    { subst c3. destruct (array_count (rcpt_to (state c)) =? 0); cbn [negb].
      - subst c2. cbn [proxy destroyed output with_state with_dot_input].
        rewrite app_nil_r. done.
      - destruct (fold_send_state
                    (local_delivery w (rcpt_to (state c))
                       (added_header_bytes c ++ body_bytes body)) c2) as (_ & -> & ->).
        split_and!; [done | | by rewrite <- Ho].
        rewrite fold_send_destroyed. by rewrite <- Hd. }
    destruct H3 as (Hp3 & Hd3 & Ho3). rewrite Hp3.
    destruct (proxy c) as [p|].
    + destruct (fold_send_state
                  (proxy_delivery w p (added_header_bytes c ++ body_bytes body)) c3)
        as (_ & _ & Hof).
      cbn [client_state_reset with_dot_input with_proxy with_state destroyed output state
             mail_from rcpt_to proxy mail_data mail_data_output dot_input].
      rewrite Hof, Ho3, <- app_assoc, fold_send_destroyed. split_and!; done.
    + cbn [client_state_reset with_dot_input with_proxy with_state destroyed output state
             mail_from rcpt_to proxy mail_data mail_data_output dot_input].
      rewrite Ho3, app_nil_r. split_and!; done.
Qed.

(** the body of 14 bytes for one local recipient, with a ceiling of 8, and
    the same body when the temp file cannot be created *)
Lemma client_input_data_handle_outcomes_witness :
  output (fst (client_input_data_handle MAX0 world1 (client_data 5) ∅ body0 DotLine))
  = output (client_data 5) ++ ["250 2.0.0 <u@local> Saved"]
  ∧ rcpt_to (state (fst (client_input_data_handle MAX0 world1 (client_data 5) ∅ body0
                           DotLine))) = []
  ∧ destroyed (fst (client_input_data_handle MAX0 world1 (client_data 5) ∅
                      [(io_fine, bytes_of "Hello"); (io_no_tempfile, bytes_of ", worl")]
                      DotLine)) = true.
Proof.
  destruct (client_input_add_all MAX0 (client_data 5) ∅ body0) as [[c1 fs1] r1] eqn:Hrun1.
  destruct (client_input_add_all MAX0 (client_data 5) ∅
              [(io_fine, bytes_of "Hello"); (io_no_tempfile, bytes_of ", worl")])
    as [[c2 fs2] r2] eqn:Hrun2.
  destruct (client_input_data_handle_outcomes MAX0 world1 (client_data 5) ∅ body0 DotLine
              c1 fs1 r1) as (_ & _ & Hline);
    [vm_compute; discriminate | vm_compute; reflexivity | vm_compute; reflexivity
     | repeat constructor; vm_compute; reflexivity | exact Hrun1 |].
  destruct (client_input_data_handle_outcomes MAX0 world1 (client_data 5) ∅
              [(io_fine, bytes_of "Hello"); (io_no_tempfile, bytes_of ", worl")] DotLine
              c2 fs2 r2) as (Hfail & _ & _);
    [vm_compute; discriminate | vm_compute; reflexivity | vm_compute; reflexivity
     | repeat constructor; vm_compute; reflexivity | exact Hrun2 |].
  assert (Hr1 : r1 = 0).
  { apply (f_equal snd) in Hrun1. vm_compute in Hrun1. congruence. }
  assert (Hr2 : r2 = -1).
  { apply (f_equal snd) in Hrun2. vm_compute in Hrun2. congruence. }
  destruct (Hline Hr1 eq_refl) as (_ & Hout & _ & Hrcpt & _).
  destruct Hfail as [Hdestroyed _]; [lia|].
  split; [|split].
  - rewrite Hout. vm_compute. reflexivity.
  - exact Hrcpt.
  - exact Hdestroyed.
Defined.


(** ** What holds along every session *)

Lemma fold_send_with_output (ls : list string) (c : client) :
  fold_left client_send_line ls c = with_output c (output c ++ ls).
Proof.
  revert c. induction ls as [|l ls IH]; intros c; cbn [fold_left].
  - rewrite app_nil_r. by destruct c.
  - rewrite IH. unfold client_send_line. cbn [with_output output].
    by rewrite <- app_assoc.
Qed.

Section Along.

Variable L : library.
Variable MAX : Z.

(** what the payload sink leaves as it is *)
Lemma client_input_add_all_frame body :
  ∀ c fs c' fs' ret,
    client_input_add_all MAX c fs body = (c', fs', ret) →
    mail_from (state c') = mail_from (state c)
    ∧ rcpt_to (state c') = rcpt_to (state c)
    ∧ session_id (state c') = session_id (state c)
    ∧ proxy c' = proxy c
    ∧ my_domain c' = my_domain c
    ∧ remote_ip c' = remote_ip c
    ∧ remote_port c' = remote_port c
    ∧ proxy_ttl c' = proxy_ttl c.
Proof.
  induction body as [|[io data] body IH]; intros c fs c' fs' ret H;
    cbn [client_input_add_all] in H.
  - by simplify_eq.
  - destruct (client_input_add MAX io c fs data) as [[c1 fs1] r1] eqn:Hadd.
    assert (Hone : mail_from (state c1) = mail_from (state c)
                   ∧ rcpt_to (state c1) = rcpt_to (state c)
                   ∧ session_id (state c1) = session_id (state c)
                   ∧ proxy c1 = proxy c
                   ∧ my_domain c1 = my_domain c
                   ∧ remote_ip c1 = remote_ip c
                   ∧ remote_port c1 = remote_port c
                   ∧ proxy_ttl c1 = proxy_ttl c).
    { revert Hadd. unfold client_input_add, client_input_add_file. intros Hadd.
      repeat case_match; simplify_eq; done. }
    destruct (r1 <? 0).
    + by simplify_eq.
    + apply IH in H. destruct Hone as (? & ? & ? & ? & ? & ? & ? & ?).
      destruct H as (? & ? & ? & ? & ? & ? & ? & ?). split_and!; congruence.
Qed.

(** a change that keeps the envelope sender, the session id, the proxy
    session and the identity of the connection keeps what holds of the
    proxy session *)
Lemma proxy_session_inv_kept (c c' : client) :
  mail_from (state c') = mail_from (state c) →
  session_id (state c') = session_id (state c) →
  proxy c' = proxy c →
  my_domain c' = my_domain c →
  remote_ip c' = remote_ip c →
  remote_port c' = remote_port c →
  proxy_ttl c' = proxy_ttl c →
  proxy_session_inv c → proxy_session_inv c'.
Proof.
  unfold proxy_session_inv, proxy_session_settings.
  intros -> -> -> -> -> -> -> H. done.
Qed.

Lemma proxy_session_inv_none (c : client) : proxy c = None → proxy_session_inv c.
Proof. unfold proxy_session_inv. by intros ->. Qed.

Lemma client_proxy_rcpt_add_inv w c address set c' b :
  client_proxy_rcpt_add L w c address set = (c', b) →
  is_Some (mail_from (state c)) → 1 < proxy_ttl c →
  proxy_session_inv c → proxy_session_inv c'.
Proof.
  unfold client_proxy_rcpt_add. intros H Hfrom Httl Hinv.
  destruct (negb (array_count (rcpt_to (state c)) =? 0)).
  { simplify_eq. by apply (proxy_session_inv_kept c). }
  destruct (proxy c) as [p|] eqn:Hp.
  - destruct (Hinv p Hp) as (H1 & H2 & H3 & H4).
    destruct (lmtp_proxy_add_rcpt w address set <? 0); simplify_eq;
      unfold proxy_session_inv;
      cbn [client_send_line with_output with_proxy proxy state proxy_ttl];
      intros p' [= <-]; done.
  - destruct (lmtp_proxy_add_rcpt w address set <? 0); simplify_eq;
      unfold proxy_session_inv;
      cbn [client_send_line with_output with_proxy proxy state proxy_ttl];
      intros p' [= <-]; done.
Qed.

Lemma client_proxy_rcpt_inv w c address username detail delim params c' b :
  client_proxy_rcpt L w c address username detail delim params = (c', b) →
  is_Some (mail_from (state c)) →
  proxy_session_inv c →
  proxy_session_inv c'
  ∧ state c' = state c ∧ destroyed c' = destroyed c ∧ dot_input c' = dot_input c
  ∧ my_domain c' = my_domain c ∧ remote_ip c' = remote_ip c
  ∧ remote_port c' = remote_port c ∧ proxy_ttl c' = proxy_ttl c
  ∧ (b = false → proxy c' = proxy c).
Proof.
  unfold client_proxy_rcpt. intros H Hfrom Hinv.
  assert (Hadd : ∀ a set,
    client_proxy_rcpt_add L w c a set = (c', b) → 1 < proxy_ttl c →
    proxy_session_inv c'
    ∧ state c' = state c ∧ destroyed c' = destroyed c ∧ dot_input c' = dot_input c
    ∧ my_domain c' = my_domain c ∧ remote_ip c' = remote_ip c
    ∧ remote_port c' = remote_port c ∧ proxy_ttl c' = proxy_ttl c
    ∧ (b = false → proxy c' = proxy c)).
  { intros a set Ha Httl. split; [by eapply client_proxy_rcpt_add_inv|].
    revert Ha. unfold client_proxy_rcpt_add. intros Ha.
    repeat case_match; simplify_eq; done. }
  destruct (auth_master_pass_lookup w username (pass_lookup_info w c)) as [e | | fields].
  - simplify_eq. split; [by apply (proxy_session_inv_kept c)|]. done.
  - simplify_eq. done.
  - destruct (client_proxy_rcpt_parse_fields L (proxy_rcpt_defaults c params) fields
                username) as [[proxying set] username'].
    destruct proxying; cbn [negb] in H; [|simplify_eq; done].
    destruct (negb (String.eqb username' username)).
    + destruct (smtp_address_parse_username L username') as [user|].
      * destruct (Z.leb_spec (proxy_ttl c) 1).
        -- simplify_eq. split; [by apply (proxy_session_inv_kept c)|]. done.
        -- by eapply Hadd.
      * simplify_eq. split; [by apply (proxy_session_inv_kept c)|]. done.
    + destruct (client_proxy_is_ourself L c set).
      * simplify_eq. split; [by apply (proxy_session_inv_kept c)|]. done.
      * destruct (Z.leb_spec (proxy_ttl c) 1).
        -- simplify_eq. split; [by apply (proxy_session_inv_kept c)|]. done.
        -- by eapply Hadd.
Qed.

Lemma cmd_rcpt_local_frame w c address params username detail :
  let c' := fst (cmd_rcpt_local L w c address params username detail) in
  mail_from (state c') = mail_from (state c)
  ∧ session_id (state c') = session_id (state c)
  ∧ proxy c' = proxy c
  ∧ my_domain c' = my_domain c ∧ remote_ip c' = remote_ip c
  ∧ remote_port c' = remote_port c ∧ proxy_ttl c' = proxy_ttl c
  ∧ destroyed c' = destroyed c ∧ dot_input c' = dot_input c
  ∧ mail_data (state c') = mail_data (state c)
  ∧ mail_data_output (state c') = mail_data_output (state c)
  ∧ added_headers (state c') = added_headers (state c).
Proof.
  unfold cmd_rcpt_local, cmd_rcpt_finish. repeat case_match; done.
Qed.

Lemma proxy_session_inv_step w cmd c fs c' fs' :
  step L MAX w cmd (c, fs) = Some (c', fs') →
  proxy_session_inv c → proxy_session_inv c'.
Proof.
  unfold step. intros H Hinv. destruct (destroyed c); [by simplify_eq|].
  destruct cmd; cbv beta iota in H.
  - (* LHLO *)
    unfold cmd_lhlo in H. destruct args as [|a0 rest].
    + simplify_eq. by apply (proxy_session_inv_kept c).
    + destruct (lhlo_parse L (String a0 rest)) as [[r dom]|]; simplify_eq.
      apply proxy_session_inv_none. by rewrite fold_send_with_output.
  - (* STARTTLS *)
    simplify_eq. unfold cmd_starttls.
    repeat case_match; by apply (proxy_session_inv_kept c).
  - (* MAIL *)
    simplify_eq. unfold cmd_mail.
    destruct (mail_from (state c)) eqn:Hfrom; [by apply (proxy_session_inv_kept c)|].
    assert (Hnone : proxy c = None).
    { destruct (proxy c) as [p|] eqn:Hp; [|done].
      destruct (Hinv p Hp) as ([? Hsome] & _). congruence. }
    repeat case_match; by apply proxy_session_inv_none.
  - (* RCPT *)
    simplify_eq. unfold cmd_rcpt.
    destruct (mail_from (state c)) as [from|] eqn:Hfrom;
      [|by apply (proxy_session_inv_kept c)].
    destruct (cmd_rcpt_parse L c args) as [reply | [[[[address params] username] delim] detail]];
      [by apply (proxy_session_inv_kept c)|].
    destruct (cmd_rcpt_proxy L w c address params username delim detail) as [c1 answered]
      eqn:Hproxy.
    assert (H1 : proxy_session_inv c1 ∧ mail_from (state c1) = mail_from (state c)).
    { unfold cmd_rcpt_proxy in Hproxy.
      destruct (lmtp_proxy_enabled (lmtp_set c)); [|by simplify_eq].
      apply client_proxy_rcpt_inv in Hproxy as (? & -> & _); [done | by eexists | done]. }
    destruct H1 as [Hinv1 Hfrom1].
    destruct answered; [done|].
    destruct (cmd_rcpt_local_frame w c1 address params username detail)
      as (Ha & Hb & Hc & Hd & He & Hf & Hg & _).
    by apply (proxy_session_inv_kept c1).
  - (* DATA *)
    assert (Hdata : proxy_session_inv (fst (cmd_data L w c))).
    { unfold cmd_data. repeat case_match; by apply (proxy_session_inv_kept c). }
    destruct (dot_input (fst (cmd_data L w c))); [|by simplify_eq].
    simplify_eq. unfold client_input_data_handle in H.
    destruct (client_input_add_all MAX (fst (cmd_data L w c)) fs body)
      as [[c1 fs1] r1] eqn:Hall.
    apply client_input_add_all_frame in Hall as (Ha & Hb & Hc & Hd & He & Hf & Hg & Hh).
    destruct (r1 <? 0).
    + simplify_eq. by apply (proxy_session_inv_kept (fst (cmd_data L w c))).
    + destruct fin; simplify_eq.
      * by apply proxy_session_inv_none.
      * by apply (proxy_session_inv_kept (fst (cmd_data L w c))).
  - (* RSET *) simplify_eq. by apply proxy_session_inv_none.
  - (* NOOP *) simplify_eq. by apply (proxy_session_inv_kept c).
  - (* VRFY *) simplify_eq. by apply (proxy_session_inv_kept c).
  - (* QUIT *) simplify_eq. by apply (proxy_session_inv_kept c).
  - (* XCLIENT *)
    simplify_eq. unfold cmd_xclient.
    repeat case_match; try (by apply (proxy_session_inv_kept c)).
    all: by apply proxy_session_inv_none.
Qed.

Lemma between_commands_inv_reset (c : client) :
  between_commands_inv (client_state_reset c).
Proof. unfold between_commands_inv. split; [done | by intros _]. Qed.

Lemma between_commands_inv_kept (c c' : client) :
  mail_from (state c') = mail_from (state c) →
  rcpt_to (state c') = rcpt_to (state c) →
  mail_data (state c') = mail_data (state c) →
  mail_data_output (state c') = mail_data_output (state c) →
  added_headers (state c') = added_headers (state c) →
  dot_input c' = dot_input c →
  (destroyed c' = destroyed c ∨ destroyed c' = true) →
  between_commands_inv c → between_commands_inv c'.
Proof.
  unfold between_commands_inv. intros -> -> -> -> -> -> Hd [H1 H2].
  split; [done|]. intros Hnot. apply H2. destruct Hd; congruence.
Qed.

Lemma between_commands_inv_destroyed (c c' : client) :
  mail_from (state c') = mail_from (state c) →
  rcpt_to (state c') = rcpt_to (state c) →
  destroyed c' = true →
  between_commands_inv c → between_commands_inv c'.
Proof.
  unfold between_commands_inv. intros -> -> Hd [H1 H2].
  split; [done|]. intros Hnot. congruence.
Qed.

Lemma between_commands_inv_step w cmd c fs c' fs' :
  step L MAX w cmd (c, fs) = Some (c', fs') →
  between_commands_inv c → between_commands_inv c'.
Proof.
  unfold step. intros H Hinv. destruct (destroyed c) eqn:Hdc; [by simplify_eq|].
  destruct cmd; cbv beta iota in H.
  - (* LHLO *)
    unfold cmd_lhlo in H. destruct args as [|a0 rest].
    + simplify_eq. by apply (between_commands_inv_kept c); auto.
    + destruct (lhlo_parse L (String a0 rest)) as [[r dom]|]; simplify_eq.
      rewrite fold_send_with_output.
      apply (between_commands_inv_kept (client_state_reset c)); auto.
      apply between_commands_inv_reset.
  - (* STARTTLS *)
    simplify_eq. unfold cmd_starttls.
    repeat case_match; apply (between_commands_inv_kept c); auto.
  - (* MAIL *)
    simplify_eq. unfold cmd_mail.
    repeat case_match; try (apply (between_commands_inv_kept c); by auto).
    all: destruct Hinv as [I1 I2]; split; [by eexists | done].
  - (* RCPT *)
    simplify_eq. unfold cmd_rcpt.
    destruct (mail_from (state c)) as [from|] eqn:Hfrom;
      [|apply (between_commands_inv_kept c); by auto].
    destruct (cmd_rcpt_parse L c args) as [reply | [[[[address params] username] delim] detail]];
      [apply (between_commands_inv_kept c); by auto|].
    destruct (cmd_rcpt_proxy L w c address params username delim detail) as [c1 answered]
      eqn:Hproxy.
    assert (H1 : state c1 = state c ∧ destroyed c1 = destroyed c
                 ∧ dot_input c1 = dot_input c).
    { unfold cmd_rcpt_proxy in Hproxy.
      destruct (lmtp_proxy_enabled (lmtp_set c)); [|by simplify_eq].
      revert Hproxy. unfold client_proxy_rcpt, client_proxy_rcpt_add. intros Hproxy.
      repeat case_match; simplify_eq; done. }
    destruct H1 as (Hs1 & Hd1 & Hi1).
    assert (Hinv1 : between_commands_inv c1).
    { apply (between_commands_inv_kept c); rewrite ?Hs1; auto. }
    destruct answered; [done|].
    destruct (cmd_rcpt_local_frame w c1 address params username detail)
      as (Ha & _ & _ & _ & _ & _ & _ & Hd & Hi & Hm & Ho & Hh).
    destruct Hinv1 as [I1 I2]. split.
    + intros _. rewrite Ha, Hs1, Hfrom. by eexists.
    + intros Hnot. rewrite Hd in Hnot. rewrite Hm, Ho, Hh, Hi. by apply I2.
  - (* DATA *)
    destruct Hinv as [I1 I2]. destruct (I2 Hdc) as (Hm & Ho & Hh & Hi).
    unfold cmd_data in H.
    destruct (mail_from (state c)) as [from|] eqn:Hfrom.
    + destruct ((array_count (rcpt_to (state c)) =? 0) && is_null (proxy c))%bool.
      * cbn [fst client_send_line with_output dot_input] in H. rewrite Hi in H.
        simplify_eq. apply (between_commands_inv_kept c); auto. by split.
      * cbn [fst client_send_line with_output with_dot_input dot_input] in H.
        simplify_eq. unfold client_input_data_handle in H.
        match type of H with
        | context [client_input_add_all MAX ?c0 fs body] =>
            destruct (client_input_add_all MAX c0 fs body) as [[c1 fs1] r1] eqn:Hall
        end.
        apply client_input_add_all_frame in Hall as (Ha & Hb & _).
        cbn [state with_state with_output with_dot_input st_with_payload mail_from rcpt_to]
          in Ha, Hb.
        destruct (r1 <? 0).
        -- simplify_eq. split; [|done].
           cbn [client_destroy with_destroyed client_send_line with_output state].
           rewrite Ha, Hb. done.
        -- destruct fin; simplify_eq.
           ++ apply between_commands_inv_reset.
           ++ split; [|done]. cbn [client_destroy with_destroyed state].
              rewrite Ha, Hb. done.
    + cbn [fst client_send_line with_output dot_input] in H. rewrite Hi in H.
      simplify_eq. apply (between_commands_inv_kept c); auto.
      split; [by rewrite Hfrom | done].
  - (* RSET *)
    simplify_eq. apply (between_commands_inv_kept (client_state_reset c)); auto.
    apply between_commands_inv_reset.
  - (* NOOP *) simplify_eq. apply (between_commands_inv_kept c); auto.
  - (* VRFY *) simplify_eq. apply (between_commands_inv_kept c); auto.
  - (* QUIT *) simplify_eq. apply (between_commands_inv_destroyed c); auto.
  - (* XCLIENT *)
    simplify_eq. unfold cmd_xclient.
    repeat case_match; try (apply (between_commands_inv_kept c); by auto).
    all: split; [done | by intros _].
Qed.

(** what every command keeps holds along a session *)
Lemma run_inv (P : client → Prop) :
  (∀ w cmd c fs c' fs', step L MAX w cmd (c, fs) = Some (c', fs') → P c → P c') →
  ∀ trace m m', P (fst m) → run L MAX trace m = Some m' → P (fst m').
Proof.
  intros Hstep trace. induction trace as [|[w cmd] trace IH]; intros m m' HP H;
    cbn [run] in H.
  - by simplify_eq.
  - destruct (step L MAX w cmd m) as [m1|] eqn:Hs; [|done].
    apply (IH m1 m'); [|done].
    destruct m as [c fs], m1 as [c1 fs1]. by eapply Hstep.
Qed.

End Along.

(** X19: along every session that starts without a proxy session, a proxy
    session exists only within an envelope; it was given the sender of that
    envelope; the TTL of the client is above 1, and the settings of the
    session are those of the client's present identity: its host name,
    session id, remote address and port, and its TTL less one.  So no
    command changes the sender or the identity of the connection while a
    proxy session built from them is kept. *)
Theorem proxy_session_along (L : library) (MAX : Z) (trace : list (world * command))
    (m m' : machine) :
  proxy (fst m) = None →
  run L MAX trace m = Some m' →
  ∀ p, proxy (fst m') = Some p →
    is_Some (mail_from (state (fst m')))
    ∧ proxy_mail_from p = mail_from (state (fst m'))
    ∧ 1 < proxy_ttl (fst m')
    ∧ proxy_set p = proxy_session_settings (fst m').
Proof.
  intros Hnone Hrun.
  apply (run_inv L MAX proxy_session_inv (proxy_session_inv_step L MAX) trace m m');
    [|done].
  by apply proxy_session_inv_none.
Qed.

(** the session of one proxied recipient after XCLIENT: the proxy session
    has the address given by XCLIENT and the TTL 4 *)
Lemma proxy_session_along_witness :
  ∃ m' p,
    run lib0 MAX0 session_proxied (machine0 9) = Some m'
    ∧ proxy (fst m') = Some p
    ∧ proxy_mail_from p = mail_from (state (fst m'))
    ∧ proxy_set p = proxy_session_settings (fst m')
    ∧ ps_proxy_ttl (proxy_set p) = 4.
Proof.
  destruct (run lib0 MAX0 session_proxied (machine0 9)) as [m'|] eqn:Hrun;
    [|vm_compute in Hrun; discriminate].
  assert (Httl : proxy_ttl (fst m') = 5).
  { pose proof Hrun as H.
    apply (f_equal (λ r, match r with Some m => proxy_ttl (fst m) | None => 0 end)) in H.
    vm_compute in H. symmetry. exact H. }
  assert (Hsome : is_null (proxy (fst m')) = false).
  { pose proof Hrun as H.
    apply (f_equal (λ r, match r with
                         | Some m => is_null (proxy (fst m))
                         | None => true
                         end)) in H.
    vm_compute in H. symmetry. exact H. }
  destruct (proxy (fst m')) as [p|] eqn:Hp; [|discriminate Hsome].
  destruct (proxy_session_along lib0 MAX0 session_proxied (machine0 9) m'
              ltac:(vm_compute; reflexivity) Hrun p Hp) as (_ & Hfrom & _ & Hset).
  exists m', p. split; [reflexivity|]. split; [exact Hp|].
  split; [exact Hfrom|]. split; [exact Hset|].
  rewrite Hset. unfold proxy_session_settings. cbn [ps_proxy_ttl]. rewrite Httl.
  vm_compute. reflexivity.
Defined.

(** X20: along every session, local recipients exist only within an
    envelope, and between the commands of a client that is not destroyed
    there is no payload state: no buffer, no spill file, no added headers
    and no body stream.  So whenever DATA is handled, the two assertions of
    [cmd_data], that there is no buffer and no body stream yet, hold. *)
Theorem between_commands_along (L : library) (MAX : Z) (trace : list (world * command))
    (m m' : machine) :
  between_commands_inv (fst m) →
  run L MAX trace m = Some m' →
  (rcpt_to (state (fst m')) ≠ [] → is_Some (mail_from (state (fst m'))))
  ∧ (destroyed (fst m') = false →
     mail_data (state (fst m')) = None
     ∧ mail_data_output (state (fst m')) = None
     ∧ added_headers (state (fst m')) = None
     ∧ dot_input (fst m') = false).
Proof.
  intros Hinv Hrun.
  by apply (run_inv L MAX between_commands_inv (between_commands_inv_step L MAX)
              trace m m').
Qed.

(** the session that delivers a body of 14 bytes through a spill file *)
Lemma between_commands_along_witness :
  ∃ m',
    run lib0 MAX0 session_delivery (machine0 5) = Some m'
    ∧ destroyed (fst m') = false
    ∧ mail_data (state (fst m')) = None
    ∧ mail_data_output (state (fst m')) = None
    ∧ dot_input (fst m') = false.
Proof.
  destruct (run lib0 MAX0 session_delivery (machine0 5)) as [m'|] eqn:Hrun;
    [|vm_compute in Hrun; discriminate].
  assert (Hd : destroyed (fst m') = false).
  { pose proof Hrun as H.
    apply (f_equal (λ r, match r with Some m => destroyed (fst m) | None => true end))
      in H.
    vm_compute in H. symmetry. exact H. }
  destruct (between_commands_along lib0 MAX0 session_delivery (machine0 5) m')
    as (_ & Hpayload).
  - split.
    + intros Hne. exfalso. apply Hne. vm_compute. reflexivity.
    + intros _. vm_compute. repeat split.
  - exact Hrun.
  - destruct (Hpayload Hd) as (H1 & H2 & _ & H4).
    exists m'. split; [reflexivity|]. split; [exact Hd|]. split; [exact H1|].
    split; [exact H2 | exact H4].
Defined.


(** ** RCPT and the envelope *)

Lemma envelope_routing_length (c : client) :
  length (envelope_routing c)
  = (length (rcpt_to (state c))
     + match proxy c with Some p => length (proxy_rcpt_to p) | None => 0 end)%nat.
Proof.
  unfold envelope_routing. rewrite length_app, length_map.
  destruct (proxy c); [by rewrite length_map | done].
Qed.

Lemma last_snoc_ok (l : list string) (a : ascii) (s : string) :
  a ≠ "2"%char → last (l ++ [String a s]) ≠ Some "250 2.1.5 OK".
Proof. rewrite last_snoc. intros Ha [= H _]. done. Qed.

Ltac rcpt_leaf :=
  rewrite ?envelope_routing_length;
  cbn [fst state proxy output rcpt_to client_send_line cmd_rcpt_finish with_output
         with_state with_proxy st_with_rcpt_to lmtp_proxy_rcpt_added lmtp_proxy_mail_from
         lmtp_proxy_init proxy_rcpt_to length];
  try match goal with Hp : proxy _ = _ |- _ => rewrite !Hp end;
  rewrite ?length_app; cbn [length].

(** X21: RCPT changes the number of accepted recipients, local and
    proxied together, by none or by one.  When it adds one, its last
    reply is "250 2.1.5 OK".  Unless passdb gives an error reply of its own,
    the converse holds too: when the last reply of RCPT is "250 2.1.5 OK", a
    recipient has been added. *)
Theorem cmd_rcpt_accepts (L : library) (w : world) (c : client) (args : string) :
  let c' := fst (cmd_rcpt L w c args) in
  (length (envelope_routing c') = length (envelope_routing c)
   ∨ length (envelope_routing c') = S (length (envelope_routing c)))
  ∧ (length (envelope_routing c') = S (length (envelope_routing c)) →
     last (output c') = Some "250 2.1.5 OK")
  ∧ ((∀ username info e, auth_master_pass_lookup w username info ≠ PassError (Some e)) →
     last (output c') = Some "250 2.1.5 OK" →
     length (envelope_routing c') = S (length (envelope_routing c))).
Proof.
  intros c'. subst c'.
  assert (Hsend : ∀ (a : ascii) s,
            a ≠ "2"%char →
            let c' := client_send_line c (String a s) in
            (length (envelope_routing c') = length (envelope_routing c)
             ∨ length (envelope_routing c') = S (length (envelope_routing c)))
            ∧ (length (envelope_routing c') = S (length (envelope_routing c)) →
               last (output c') = Some "250 2.1.5 OK")
            ∧ (last (output c') = Some "250 2.1.5 OK" →
               length (envelope_routing c') = S (length (envelope_routing c)))).
  { intros a s Ha. cbn zeta. rcpt_leaf. split_and!; [by left | lia |].
    intros H. by apply last_snoc_ok in H. }
  unfold cmd_rcpt.
  destruct (mail_from (state c)) as [from|] eqn:Hfrom.
  2:{ destruct (Hsend "5"%char "03 5.5.1 MAIL needed first") as (H1 & H2 & H3); [done|].
      split_and!; auto. }
  destruct (cmd_rcpt_parse L c args) as [reply | [[[[address params] username] delim] detail]]
    eqn:Hparse.
  { assert (∃ a s, a ≠ "2"%char ∧ reply = String a s) as (a & s & Ha & ->).
    { revert Hparse. unfold cmd_rcpt_parse, param_error_reply. intros Hparse.
      repeat case_match; simplify_eq; eexists _, _; (split; [|reflexivity]); done. }
    destruct (Hsend a s Ha) as (H1 & H2 & H3). split_and!; auto. }
  unfold cmd_rcpt_proxy, client_proxy_rcpt, client_proxy_rcpt_add, cmd_rcpt_local,
    mixed_destinations_reply, loops_to_itself_reply, ttl_reply, array_count.
  destruct (lmtp_proxy_enabled (lmtp_set c)).
  - destruct (auth_master_pass_lookup w username (pass_lookup_info w c))
      as [[e|] | | fields] eqn:Hpass.
    + rcpt_leaf. split_and!; [by left | lia |].
      intros Hno. by destruct (Hno _ _ _ Hpass).
    + rcpt_leaf. split_and!; [by left | lia |].
      intros _ Hlast. by apply last_snoc_ok in Hlast.
    + repeat case_match; simplify_eq; rcpt_leaf;
        (split_and!; [first [by left | right; lia] | first [lia | by rewrite last_snoc]
                     | intros _ Hlast; first [lia | by apply last_snoc_ok in Hlast]]).
    + repeat case_match; simplify_eq; rcpt_leaf;
        (split_and!; [first [by left | right; lia] | first [lia | by rewrite last_snoc]
                     | intros _ Hlast; first [lia | by apply last_snoc_ok in Hlast]]).
  - repeat case_match; simplify_eq; rcpt_leaf;
      (split_and!; [first [by left | right; lia] | first [lia | by rewrite last_snoc]
                   | intros _ Hlast; first [lia | by apply last_snoc_ok in Hlast]]).
Qed.

(** a local recipient that is accepted, and a recipient for a proxy that is
    refused after it *)
Lemma cmd_rcpt_accepts_witness :
  length (envelope_routing (fst (cmd_rcpt lib0 world1 (client_mail 5) "TO:<u@local>")))
  = S (length (envelope_routing (client_mail 5)))
  ∧ last (output (fst (cmd_rcpt lib0 world1 (client_mail 5) "TO:<u@local>")))
    = Some "250 2.1.5 OK".
Proof.
  destruct (cmd_rcpt_accepts lib0 world1 (client_mail 5) "TO:<u@local>")
    as (_ & Hadded & Hok).
  assert (Hlast : last (output (fst (cmd_rcpt lib0 world1 (client_mail 5) "TO:<u@local>")))
                  = Some "250 2.1.5 OK") by (vm_compute; reflexivity).
  split; [|exact Hlast].
  apply Hok; [|exact Hlast].
  intros username info e. unfold world1, world_of, passdb1.
  cbn [auth_master_pass_lookup]. repeat case_match; discriminate.
Defined.
